(** * kitchen-web: screen registry, layout catalog and image store

    A shallow embedding of the tRPC routers of the signage admin tool
    (the screen router in its in-memory and its database-backed form, the
    layout router, the images router and the image-serving route), with
    the properties of its specification checked against it. *)

From Stdlib Require Import String Ascii List ZArith Bool Lia DecimalString.
From Stdlib Require Import Sorting.Sorted Sorting.Permutation.
Import ListNotations.
Local Open Scope string_scope.
Local Open Scope Z_scope.

(** ** Errors and procedures *)

(** The failures a procedure call can end in.  [BadRequest] is the
    zod input-validation failure raised before the resolver runs;
    [RecordNotFound] and [UniqueConstraint] are the Prisma request errors
    P2025 and P2002; [Thrown msg] is a plain [throw new Error(msg)]. *)
Inductive Error : Type :=
| BadRequest (message : string)
| RecordNotFound
| UniqueConstraint
| Thrown (message : string).

Inductive Res (A : Type) : Type :=
| Ok (a : A)
| Err (e : Error).
Arguments Ok {A} a.
Arguments Err {A} e.

Definition isOk {A} (r : Res A) : bool :=
  match r with Ok _ => true | Err _ => false end.

(** Timestamps are milliseconds since the epoch, as [Date.getTime()]. *)
Definition Timestamp := Z.
Definition epoch : Timestamp := 0.

(** ** Ordering by a numeric key

    [Array.prototype.sort] with the comparator [(a, b) => key a - key b]
    and [ORDER BY key ASC]: an ascending insertion sort.  The sort is
    stable, as [Array.prototype.sort] is and as SQLite answers a table
    scan: each element is inserted, from the last to the first, before
    the first element that is not smaller, so elements with equal keys
    keep their order. *)

Section SortBy.
Context {A : Type}.
Variable key : A -> Z.

Fixpoint insert_by (r : A) (rows : list A) : list A :=
  match rows with
  | [] => [r]
  | h :: t =>
      if key r <=? key h then r :: h :: t
      else h :: insert_by r t
  end.

Definition sort_by (rows : list A) : list A :=
  fold_right insert_by [] rows.

Definition ascending (rows : list A) : Prop :=
  Sorted (fun a b => key a <= key b) rows.
End SortBy.

(** ** The relational store (Prisma schema) *)

Module Prisma.

(** model Tv.  [position] is [Int]; the routers take it as [z.number()],
    read here on the integers. *)
Record Tv : Type := mkTv {
  id : string;
  position : Z;
  imageUrl : option string;
  updatedAt : Timestamp;
  createdAt : Timestamp
}.

(** model Layout *)
Record Layout : Type := mkLayout {
  l_id : string;
  name : string;
  tv1Url : option string;
  tv2Url : option string;
  tv3Url : option string;
  l_updatedAt : Timestamp;
  l_createdAt : Timestamp
}.

(** The two tables; rows are kept in insertion order. *)
Record Db : Type := mkDb {
  tv : list Tv;
  layout : list Layout
}.

Definition empty : Db := mkDb [] [].

(** The [data] argument of a write on [tv]: the columns it sets. *)
Record TvData : Type := mkData {
  set_position : option Z;
  set_imageUrl : option (option string)
}.

Definition noData : TvData := mkData None None.
Definition dataPosition (p : Z) : TvData := mkData (Some p) None.
Definition dataImageUrl (u : option string) : TvData := mkData None (Some u).

(** Input rows of [createMany]. *)
Record TvCreate : Type := mkCreate {
  c_id : string;
  c_position : Z;
  c_imageUrl : option string
}.

(** A write sets the listed columns and, by [@updatedAt], the row's
    [updatedAt] to the current time. *)
Definition apply_data (now : Timestamp) (d : TvData) (r : Tv) : Tv :=
  mkTv (id r)
       (match set_position d with Some p => p | None => position r end)
       (match set_imageUrl d with Some u => u | None => imageUrl r end)
       now
       (createdAt r).

Fixpoint find_id (i : string) (rows : list Tv) : option Tv :=
  match rows with
  | [] => None
  | r :: rest => if String.eqb (id r) i then Some r else find_id i rest
  end.

(** A statement runs against the store at a given time and either
    commits a new store together with its result, or fails and leaves
    the store as it was. *)
Definition Stmt (A : Type) : Type := Timestamp -> Db -> Res (Db * A).

(** db.tv.count() *)
Definition tv_count : Stmt Z :=
  fun _ db => Ok (db, Z.of_nat (length (tv db))).

Fixpoint ids_fresh (seen : list string) (data : list TvCreate) : bool :=
  match data with
  | [] => true
  | c :: rest =>
      negb (existsb (String.eqb (c_id c)) seen)
      && ids_fresh (c_id c :: seen) rest
  end.

(** db.tv.createMany({ data }) : [id] is the primary key. *)
Definition tv_createMany (data : list TvCreate) : Stmt Z :=
  fun now db =>
    if ids_fresh (map id (tv db)) data then
      Ok (mkDb (tv db ++ map (fun c => mkTv (c_id c) (c_position c)
                                            (c_imageUrl c) now now) data)
               (layout db),
          Z.of_nat (length data))
    else Err UniqueConstraint.

Fixpoint update_row (now : Timestamp) (i : string) (d : TvData) (rows : list Tv)
  : list Tv :=
  match rows with
  | [] => []
  | r :: rest =>
      if String.eqb (id r) i then apply_data now d r :: rest
      else r :: update_row now i d rest
  end.

(** db.tv.update({ where: { id }, data }) : fails when no row has
    that id. *)
Definition tv_update (i : string) (d : TvData) : Stmt Tv :=
  fun now db =>
    match find_id i (tv db) with
    | Some r => Ok (mkDb (update_row now i d (tv db)) (layout db),
                    apply_data now d r)
    | None => Err RecordNotFound
    end.

Definition is_empty (d : TvData) : bool :=
  match set_position d, set_imageUrl d with
  | None, None => true
  | _, _ => false
  end.

(** db.tv.updateMany({ data }) with no [where]: every row.  Whether a
    write whose [data] is empty still stamps [updatedAt] is the client
    library's matter; the router calls it expecting that it does ("Empty
    data object to trigger updatedAt").  [stamps_empty] is the library's
    answer, and the store is modelled for both. *)
Definition tv_updateMany (stamps_empty : bool) (d : TvData) : Stmt Z :=
  fun now db =>
    if is_empty d && negb stamps_empty then
      Ok (db, Z.of_nat (length (tv db)))
    else
      Ok (mkDb (map (apply_data now d) (tv db)) (layout db),
          Z.of_nat (length (tv db))).

Definition sort_by_position : list Tv -> list Tv := sort_by position.

(** db.tv.findMany({ where, orderBy: { position: "asc" } }) *)
Definition tv_findMany (cond : Tv -> bool) : Stmt (list Tv) :=
  fun _ db => Ok (db, sort_by_position (filter cond (tv db))).

Definition all_rows : Tv -> bool := fun _ => true.

(** where: { updatedAt: { gt: t } } *)
Definition updatedAt_gt (t : Timestamp) : Tv -> bool :=
  fun r => t <? updatedAt r.

Fixpoint find_layout (i : string) (rows : list Layout) : option Layout :=
  match rows with
  | [] => None
  | l :: rest => if String.eqb (l_id l) i then Some l else find_layout i rest
  end.

(** db.layout.findUnique({ where: { id } }) *)
Definition layout_findUnique (i : string) : Stmt (option Layout) :=
  fun _ db => Ok (db, find_layout i (layout db)).

(** db.layout.create({ data }) *)
Definition layout_create (i n : string) (u1 u2 u3 : option string)
  : Stmt Layout :=
  fun now db =>
    match find_layout i (layout db) with
    | Some _ => Err UniqueConstraint
    | None =>
        let l := mkLayout i n u1 u2 u3 now now in
        Ok (mkDb (tv db) (layout db ++ [l]), l)
    end.

(** db.layout.findMany({ orderBy: { createdAt: "desc" } }) *)
Definition layout_findMany : Stmt (list Layout) :=
  fun _ db => Ok (db, sort_by (fun l => - l_createdAt l) (layout db)).

(** db.layout.delete({ where: { id } }) *)
Definition layout_delete (i : string) : Stmt Layout :=
  fun _ db =>
    match find_layout i (layout db) with
    | Some l =>
        Ok (mkDb (tv db)
                 (filter (fun x => negb (String.eqb (l_id x) i)) (layout db)),
            l)
    | None => Err RecordNotFound
    end.

Definition rename (now : Timestamp) (n : string) (l : Layout) : Layout :=
  mkLayout (l_id l) n (tv1Url l) (tv2Url l) (tv3Url l) now (l_createdAt l).

(** db.layout.update({ where: { id }, data: { name } }) *)
Definition layout_update (i n : string) : Stmt Layout :=
  fun now db =>
    match find_layout i (layout db) with
    | Some l =>
        Ok (mkDb (tv db)
                 (map (fun x => if String.eqb (l_id x) i then rename now n x
                                else x)
                      (layout db)),
            rename now n l)
    | None => Err RecordNotFound
    end.

(** db.$transaction([s1; ...; sn]) : the statements run in order; the
    first failure aborts the batch and nothing of it is committed. *)
Fixpoint run_batch {A} (stmts : list (Stmt A)) (now : Timestamp) (db : Db)
  : Res (Db * list A) :=
  match stmts with
  | [] => Ok (db, [])
  | s :: rest =>
      match s now db with
      | Err e => Err e
      | Ok (db1, a) =>
          match run_batch rest now db1 with
          | Err e => Err e
          | Ok (db2, l) => Ok (db2, a :: l)
          end
      end
  end.

Definition transaction {A} (stmts : list (Stmt A)) : Stmt (list A) :=
  run_batch stmts.

End Prisma.

(** ** Resolvers

    A resolver awaits statements one after the other; a statement that
    fails throws, and what earlier statements committed stays. *)

Definition Proc (A : Type) : Type :=
  Timestamp -> Prisma.Db -> Prisma.Db * Res A.

Definition ret {A} (a : A) : Proc A := fun _ db => (db, Ok a).

Definition throw {A} (e : Error) : Proc A := fun _ db => (db, Err e).

Definition await {A} (s : Prisma.Stmt A) : Proc A :=
  fun now db =>
    match s now db with
    | Ok (db', a) => (db', Ok a)
    | Err e => (db, Err e)
    end.

Definition bind {A B} (m : Proc A) (k : A -> Proc B) : Proc B :=
  fun now db =>
    match m now db with
    | (db', Ok a) => k a now db'
    | (db', Err e) => (db', Err e)
    end.

Notation "x <- m ;; k" := (bind m (fun x => k))
  (at level 61, m at next level, right associativity).
Notation "m ;;; k" := (bind m (fun _ => k))
  (at level 61, right associativity).

(** zod: the parsed input reaches the resolver only when it validates. *)
Definition withInput {A} (valid : bool) (message : string) (body : Proc A)
  : Proc A :=
  if valid then body else throw (BadRequest message).

(** ** Platform functions *)

Module Js.

(** String.prototype.startsWith *)
Definition startsWith (s search : string) : bool := String.prefix search s.

(** String.prototype.includes *)
Fixpoint includes (s search : string) : bool :=
  String.prefix search s
  || match s with
     | EmptyString => false
     | String _ rest => includes rest search
     end.

Definition lower (c : ascii) : ascii :=
  let n := nat_of_ascii c in
  if (Nat.leb 65 n && Nat.leb n 90)%bool then ascii_of_nat (n + 32) else c.

(** String.prototype.toLowerCase, on ASCII letters. *)
Fixpoint toLowerCase (s : string) : string :=
  match s with
  | EmptyString => EmptyString
  | String c rest => String (lower c) (toLowerCase rest)
  end.

(** [!val] on a string: only the empty string is falsy. *)
Definition falsy (val : string) : bool :=
  match val with EmptyString => true | _ => false end.

(** The characters [encodeURIComponent] leaves as they are: letters,
    digits and [- _ . ! ~ * ' ( )]. *)
Definition unreserved (c : ascii) : bool :=
  let n := nat_of_ascii c in
  (Nat.leb 65 n && Nat.leb n 90) || (Nat.leb 97 n && Nat.leb n 122)
  || (Nat.leb 48 n && Nat.leb n 57)
  || existsb (Nat.eqb n) [45; 95; 46; 33; 126; 42; 39; 40; 41]%nat.

Definition hex_digit (n : nat) : ascii :=
  if Nat.ltb n 10 then ascii_of_nat (48 + n) else ascii_of_nat (55 + n).

(** encodeURIComponent, on a string read as its UTF-8 bytes: every byte
    that is not unreserved becomes "%" and its two upper-case hex
    digits. *)
Fixpoint encodeURIComponent (s : string) : string :=
  match s with
  | EmptyString => EmptyString
  | String c rest =>
      if unreserved c then String c (encodeURIComponent rest)
      else
        String "%"
          (String (hex_digit (Nat.div (nat_of_ascii c) 16))
             (String (hex_digit (Nat.modulo (nat_of_ascii c) 16))
                (encodeURIComponent rest)))
  end.

(** [\w] of a regular expression without the unicode flag. *)
Definition word_char (c : ascii) : bool :=
  let n := nat_of_ascii c in
  (Nat.leb 65 n && Nat.leb n 90) || (Nat.leb 97 n && Nat.leb n 122)
  || (Nat.leb 48 n && Nat.leb n 57) || Nat.eqb n 95.

(** Array.prototype.slice(start, end): a negative index counts from the
    end, and both are clamped to the array. *)
Definition clamp_index (len k : Z) : Z :=
  if k <? 0 then Z.max (len + k) 0 else Z.min k len.

Definition slice {A} (s e : Z) (l : list A) : list A :=
  let len := Z.of_nat (length l) in
  let from := clamp_index len s in
  let to := clamp_index len e in
  firstn (Z.to_nat (to - from)) (skipn (Z.to_nat from) l).

(** Math.ceil(a / b) on integers, [b] positive. *)
Definition ceil_div (a b : Z) : Z := - ((- a) / b).

Fixpoint zeros (n : nat) : string :=
  match n with O => "" | S n' => String "0" (zeros n') end.

(** A number that is not negative, in decimal. *)
Definition decimal (n : Z) : string :=
  NilZero.string_of_uint (N.to_uint (Z.to_N n)).

(** ToZeroPaddedDecimalString(n, width) *)
Definition padded (width : nat) (n : Z) : string :=
  zeros (width - String.length (decimal n)) ++ decimal n.

(** The civil date of a day number (days since 1 January 1970): the
    year, the month (1 to 12) and the day of the month. *)
Definition civil (days : Z) : Z * Z * Z :=
  let z := days + 719468 in
  let era := z / 146097 in
  let doe := z - era * 146097 in
  let yoe := (doe - doe / 1460 + doe / 36524 - doe / 146096) / 365 in
  let doy := doe - (365 * yoe + yoe / 4 - yoe / 100) in
  let mp := (5 * doy + 2) / 153 in
  let d := doy - (153 * mp + 2) / 5 + 1 in
  let m := if mp <? 10 then mp + 3 else mp - 9 in
  let y := yoe + era * 400 in
  (if m <=? 2 then y + 1 else y, m, d).

Definition day_names : list string :=
  ["Sun"; "Mon"; "Tue"; "Wed"; "Thu"; "Fri"; "Sat"].

Definition month_names : list string :=
  ["Jan"; "Feb"; "Mar"; "Apr"; "May"; "Jun";
   "Jul"; "Aug"; "Sep"; "Oct"; "Nov"; "Dec"].

(** What is left of a time value (milliseconds since the epoch) when
    it is written to the second. *)
Definition seconds (t : Z) : Z := t / 1000.

(** Date.prototype.toUTCString of the time value [t]: the day of the
    week, the day, the month, the year on four digits or more and the
    time of the day to the second. *)
Definition toUTCString (t : Z) : string :=
  if (t <? - 8640000000000000) || (8640000000000000 <? t) then "Invalid Date"
  else
    let days := seconds t / 86400 in
    let sod := seconds t mod 86400 in
    let '(y, m, d) := civil days in
    nth (Z.to_nat ((days + 4) mod 7)) day_names "" ++ ", "
    ++ padded 2 d ++ " "
    ++ nth (Z.to_nat (m - 1)) month_names "" ++ " "
    ++ (if y <? 0 then "-" else "") ++ padded 4 (Z.abs y) ++ " "
    ++ padded 2 (sod / 3600) ++ ":" ++ padded 2 (sod mod 3600 / 60) ++ ":"
    ++ padded 2 (sod mod 60) ++ " GMT".

End Js.

(** [new URL(val)] belongs to the platform.  The resolvers are stated for
    any parser [URL_ok] ("the constructor does not throw"); [Url.has_scheme]
    is the first stage of the WHATWG parser, which decides the inputs
    used below: without a base URL the constructor throws unless the
    input, once its leading C0-control-or-space characters and its tabs
    and newlines are removed, begins with a scheme
    ([ALPHA (ALPHA | DIGIT | + | - | .)* :]).  It is a condition the
    constructor needs, not all it asks: the later stages refuse some
    strings that have a scheme (a special scheme with an empty or
    ill-formed host, as in "http://" or "http://a b"), and nothing
    below reads [Url.has_scheme] on such a string. *)
Module Url.

Definition code (c : ascii) : nat := nat_of_ascii c.

Definition is_alpha (c : ascii) : bool :=
  (Nat.leb 65 (code c) && Nat.leb (code c) 90)
  || (Nat.leb 97 (code c) && Nat.leb (code c) 122).

Definition is_digit (c : ascii) : bool :=
  Nat.leb 48 (code c) && Nat.leb (code c) 57.

Definition is_scheme_char (c : ascii) : bool :=
  is_alpha c || is_digit c
  || Nat.eqb (code c) 43 || Nat.eqb (code c) 45 || Nat.eqb (code c) 46.

Definition c0_or_space (c : ascii) : bool := Nat.leb (code c) 32.

Definition tab_or_newline (c : ascii) : bool :=
  Nat.eqb (code c) 9 || Nat.eqb (code c) 10 || Nat.eqb (code c) 13.

Fixpoint trim_start (s : string) : string :=
  match s with
  | String c rest => if c0_or_space c then trim_start rest else s
  | EmptyString => EmptyString
  end.

Fixpoint remove_tab_newline (s : string) : string :=
  match s with
  | String c rest =>
      if tab_or_newline c then remove_tab_newline rest
      else String c (remove_tab_newline rest)
  | EmptyString => EmptyString
  end.

(** scheme state *)
Fixpoint scheme_state (s : string) : bool :=
  match s with
  | EmptyString => false
  | String c rest =>
      if Nat.eqb (code c) 58 then true
      else if is_scheme_char c then scheme_state rest
      else false
  end.

(** scheme start state *)
Definition scheme_start_state (s : string) : bool :=
  match s with
  | EmptyString => false
  | String c rest => is_alpha c && scheme_state rest
  end.

Definition has_scheme (s : string) : bool :=
  scheme_start_state (remove_tab_newline (trim_start s)).

End Url.

(** ** Screen router, in-memory form *)

Module MemoryScreens.

Record ScreenConfig : Type := mkScreen {
  id : string;
  position : Z;
  imageUrl : option string;
  updatedAt : Timestamp
}.

(** The module-level array [screens], built when the module loads. *)
Definition screens0 (boot : Timestamp) : list ScreenConfig :=
  [ mkScreen "1" 1 (Some "/image1.png") boot;
    mkScreen "2" 2 (Some "/image2.png") boot;
    mkScreen "3" 3 (Some "/image3.png") boot ].

(** A procedure reads and writes the shared array. *)
Definition Call (A : Type) : Type :=
  Timestamp -> list ScreenConfig -> list ScreenConfig * Res A.

(** screens.sort((a, b) => a.position - b.position) sorts the array in
    place and returns it. *)
Definition sort_screens (screens : list ScreenConfig) : list ScreenConfig :=
  sort_by position screens.

(** [screens.find((s) => s.id === i)] followed by a write through the
    reference found: the first screen with that id is changed. *)
Fixpoint modify_found (i : string) (f : ScreenConfig -> ScreenConfig)
  (screens : list ScreenConfig) : list ScreenConfig :=
  match screens with
  | [] => []
  | s :: rest =>
      if String.eqb (id s) i then f s :: rest
      else s :: modify_found i f rest
  end.

Fixpoint find (i : string) (screens : list ScreenConfig)
  : option ScreenConfig :=
  match screens with
  | [] => None
  | s :: rest => if String.eqb (id s) i then Some s else find i rest
  end.

Definition getAll : Call (list ScreenConfig) :=
  fun _ screens =>
    let sorted := sort_screens screens in (sorted, Ok sorted).

Definition set_position (now : Timestamp) (p : Z) (s : ScreenConfig)
  : ScreenConfig :=
  mkScreen (id s) p (imageUrl s) now.

Definition set_imageUrl (now : Timestamp) (u : option string)
  (s : ScreenConfig) : ScreenConfig :=
  mkScreen (id s) (position s) u now.

(** The loop body of [updateOrder]: an update whose id is not found
    changes nothing. *)
Definition apply_update (now : Timestamp) (screens : list ScreenConfig)
  (update : string * Z) : list ScreenConfig :=
  modify_found (fst update) (set_position now (snd update)) screens.

Definition updateOrder (input : list (string * Z))
  : Call (list ScreenConfig) :=
  fun now screens =>
    let sorted := sort_screens (fold_left (apply_update now) input screens) in
    (sorted, Ok sorted).

Section WithUrl.
Variable URL_ok : string -> bool.

(** z.string().url().nullable() *)
Definition imageUrl_schema (v : option string) : bool :=
  match v with
  | None => true
  | Some s => URL_ok s
  end.

(** The result is the screen found, or [undefined]. *)
Definition updateImage (i : string) (u : option string)
  : Call (option ScreenConfig) :=
  fun now screens =>
    if imageUrl_schema u then
      let screens' := modify_found i (set_imageUrl now u) screens in
      (screens', Ok (find i screens'))
    else (screens, Err (BadRequest "Invalid url")).
End WithUrl.

Definition default_image (s : ScreenConfig) : option string :=
  Some ("/image" ++ id s ++ ".png").

Definition resetImage (i : string) : Call (option ScreenConfig) :=
  fun now screens =>
    let screens' :=
      modify_found i (fun s => set_imageUrl now (default_image s) s) screens in
    (screens', Ok (find i screens')).

Definition resetAllImages : Call (list ScreenConfig) :=
  fun now screens =>
    let sorted :=
      sort_screens
        (map (fun s => set_imageUrl now (default_image s) s) screens) in
    (sorted, Ok sorted).

(** [input || new Date(0)]: a [Date] is never falsy, so the default is
    taken only when no input is given. *)
Definition getUpdates (input : option Timestamp)
  : Call (list ScreenConfig) :=
  fun _ screens =>
    let lastCheck := match input with Some d => d | None => epoch end in
    (screens, Ok (filter (fun s => lastCheck <? updatedAt s) screens)).

(** The calls a client can make, and the states they lead to. *)
Inductive Request : Type :=
| GetAll
| UpdateOrder (input : list (string * Z))
| UpdateImage (i : string) (u : option string)
| ResetImage (i : string)
| ResetAllImages
| GetUpdates (input : option Timestamp).

Definition handle (URL_ok : string -> bool) (r : Request) (now : Timestamp)
  (screens : list ScreenConfig) : list ScreenConfig :=
  match r with
  | GetAll => fst (getAll now screens)
  | UpdateOrder input => fst (updateOrder input now screens)
  | UpdateImage i u => fst (updateImage URL_ok i u now screens)
  | ResetImage i => fst (resetImage i now screens)
  | ResetAllImages => fst (resetAllImages now screens)
  | GetUpdates input => fst (getUpdates input now screens)
  end.

Inductive reachable (URL_ok : string -> bool)
  : list ScreenConfig -> Prop :=
| reach_boot : forall boot, reachable URL_ok (screens0 boot)
| reach_step : forall screens r now,
    reachable URL_ok screens ->
    reachable URL_ok (handle URL_ok r now screens).

End MemoryScreens.

(** ** Screen router, database form *)

Module ScreenRouter.

Import Prisma.

Definition seed : list TvCreate :=
  [ mkCreate "1" 1 (Some "/image1.png");
    mkCreate "2" 2 (Some "/image2.png");
    mkCreate "3" 3 (Some "/image3.png") ].

(** Initialize TV entries if they don't exist *)
Definition initializeTVs : Proc unit :=
  existingTVs <- await tv_count ;;
  if existingTVs =? 0 then await (tv_createMany seed) ;;; ret tt
  else ret tt.

Definition getAll : Proc (list Tv) :=
  initializeTVs ;;;
  await (tv_findMany all_rows).

Definition updateOrder (input : list (string * Z)) : Proc (list Tv) :=
  await (transaction
           (map (fun update =>
                   tv_update (fst update) (dataPosition (snd update)))
                input)) ;;;
  await (tv_findMany all_rows).

Section WithUrl.
Variable URL_ok : string -> bool.

(** The [refine] callback of the [imageUrl] schema. *)
Definition imageUrl_refine (val : string) : bool :=
  if Js.falsy val then true
  else if URL_ok val then true
  else Js.startsWith val "/".

(** z.string().refine(...).nullable() *)
Definition imageUrl_schema (v : option string) : bool :=
  match v with
  | None => true
  | Some val => imageUrl_refine val
  end.

Definition updateImage (i : string) (u : option string) : Proc Tv :=
  withInput (imageUrl_schema u)
    "Image URL must be a valid URL or a relative path starting with '/'"
    (await (tv_update i (dataImageUrl u))).
End WithUrl.

Definition resetImage (i : string) : Proc Tv :=
  await (tv_update i (dataImageUrl (Some ("/image" ++ i ++ ".png")))).

Definition resetAllImages (stamps_empty : bool) : Proc (list Tv) :=
  (* Empty data object to trigger updatedAt *)
  await (tv_updateMany stamps_empty noData) ;;;
  await (transaction
           [ tv_update "1" (dataImageUrl (Some "/image1.png"));
             tv_update "2" (dataImageUrl (Some "/image2.png"));
             tv_update "3" (dataImageUrl (Some "/image3.png")) ]) ;;;
  await (tv_findMany all_rows).

Definition getUpdates (input : option Timestamp) : Proc (list Tv) :=
  let lastCheck := match input with Some d => d | None => epoch end in
  await (tv_findMany (updatedAt_gt lastCheck)).

End ScreenRouter.

(** ** Layout router *)

Module LayoutRouter.

Import Prisma.

Definition getAll : Proc (list Layout) := await layout_findMany.

(** z.string().min(1, "Layout name is required") *)
Definition name_schema (n : string) : bool :=
  Nat.leb 1 (String.length n).

(** [save]: the three URL fields are [z.string().nullable()].  The
    identifier [nanoid()] draws is an argument of the model. *)
Definition save (nanoid : string) (n : string) (u1 u2 u3 : option string)
  : Proc Layout :=
  withInput (name_schema n) "Layout name is required"
    (await (layout_create nanoid n u1 u2 u3)).

Definition restore (i : string) : Proc (list Tv) :=
  found <- await (layout_findUnique i) ;;
  match found with
  | None => throw (Thrown "Layout not found")
  | Some l =>
      await (transaction
               [ tv_update "1" (dataImageUrl (tv1Url l));
                 tv_update "2" (dataImageUrl (tv2Url l));
                 tv_update "3" (dataImageUrl (tv3Url l)) ]) ;;;
      await (tv_findMany all_rows)
  end.

Definition delete (i : string) : Proc Layout := await (layout_delete i).

Definition updateName (i n : string) : Proc Layout :=
  withInput (name_schema n) "Layout name is required"
    (await (layout_update i n)).

End LayoutRouter.

(** ** The reload signal

    [triggerReload] and [triggerReloadTimeout] are module-level variables;
    the pending timers live in the runtime's timer list.  Time is the
    clock reading at which a request or a timer runs. *)

Module Signals.

Record State : Type := mkState {
  showTVNumbers : bool;
  triggerReload : bool;
  triggerReloadTimeout : option nat;
  timers : list (nat * Timestamp);
  next_handle : nat
}.

Definition boot : State := mkState false false None [] 0%nat.

Definition delay : Z := 5000.

(** clearTimeout(handle) *)
Definition clearTimeout (h : nat) (pending : list (nat * Timestamp))
  : list (nat * Timestamp) :=
  filter (fun t => negb (Nat.eqb (fst t) h)) pending.

(** The callback given to [setTimeout]. *)
Definition on_timeout (st : State) : State :=
  mkState (showTVNumbers st) false None (timers st) (next_handle st).

Definition setTriggerReload (trigger : bool) (now : Timestamp) (st : State)
  : State * bool :=
  if trigger then
    let pending :=
      match triggerReloadTimeout st with
      | Some h => clearTimeout h (timers st)
      | None => timers st
      end in
    let h := next_handle st in
    (mkState (showTVNumbers st) true (Some h)
             (pending ++ [(h, now + delay)]) (S h), true)
  else
    match triggerReloadTimeout st with
    | Some h =>
        (mkState (showTVNumbers st) false None
                 (clearTimeout h (timers st)) (next_handle st), false)
    | None =>
        (mkState (showTVNumbers st) false None
                 (timers st) (next_handle st), false)
    end.

Definition getTriggerReload (st : State) : bool := triggerReload st.

Definition setShowTVNumbers (show : bool) (st : State) : State * bool :=
  (mkState show (triggerReload st) (triggerReloadTimeout st)
           (timers st) (next_handle st), show).

Definition due (now : Timestamp) (t : nat * Timestamp) : bool :=
  snd t <=? now.

(** The event loop at clock reading [now]: every timer that is due is
    taken off the list and its callback runs. *)
Definition run_timers (now : Timestamp) (st : State) : State :=
  fold_left (fun s _ => on_timeout s)
    (filter (due now) (timers st))
    (mkState (showTVNumbers st) (triggerReload st)
             (triggerReloadTimeout st)
             (filter (fun t => negb (due now t)) (timers st))
             (next_handle st)).

(** A [setTriggerReload] request arriving at clock reading [now]. *)
Definition request (st : State) (ev : Timestamp * bool) : State :=
  fst (setTriggerReload (snd ev) (fst ev) (run_timers (fst ev) st)).

Definition run (evs : list (Timestamp * bool)) : State :=
  fold_left request evs boot.

(** What a [getTriggerReload] poll at clock reading [now] answers. *)
Definition poll (now : Timestamp) (st : State) : bool :=
  getTriggerReload (run_timers now st).

(** The two mutations of the signals, as they arrive. *)
Inductive Event : Type :=
| SetTriggerReload (trigger : bool)
| SetShowTVNumbers (show : bool).

(** An event arriving at clock reading [now]: the timers that are due
    run first. *)
Definition handle (st : State) (ev : Timestamp * Event) : State :=
  let st' := run_timers (fst ev) st in
  match snd ev with
  | SetTriggerReload trigger => fst (setTriggerReload trigger (fst ev) st')
  | SetShowTVNumbers show => fst (setShowTVNumbers show st')
  end.

Definition run_events (evs : list (Timestamp * Event)) : State :=
  fold_left handle evs boot.

Definition getShowTVNumbers (st : State) : bool := showTVNumbers st.

End Signals.

(** ** Paths (node:path, POSIX) *)

Module Path.

(** [p.split("/")] *)
Fixpoint segments (p : string) : list string :=
  match p with
  | EmptyString => [EmptyString]
  | String c rest =>
      if Ascii.eqb c "/" then EmptyString :: segments rest
      else match segments rest with
           | seg :: more => String c seg :: more
           | [] => [String c EmptyString]
           end
  end.

(** The segment walk of [normalizeString]: empty and "." segments are
    dropped, ".." removes the segment before it, or is kept when there
    is none to remove and the path may climb above its start.  [res]
    holds the segments kept so far, last first. *)
Fixpoint normalize_segments (allowAboveRoot : bool) (segs res : list string)
  : list string :=
  match segs with
  | [] => rev res
  | seg :: rest =>
      if String.eqb seg "" || String.eqb seg "." then
        normalize_segments allowAboveRoot rest res
      else if String.eqb seg ".." then
        match res with
        | prev :: res' =>
            if String.eqb prev ".." then
              normalize_segments allowAboveRoot rest
                (if allowAboveRoot then ".." :: res else res)
            else normalize_segments allowAboveRoot rest res'
        | [] =>
            normalize_segments allowAboveRoot rest
              (if allowAboveRoot then [".."] else [])
        end
      else normalize_segments allowAboveRoot rest (seg :: res)
  end.

Definition normalizeString (path : string) (allowAboveRoot : bool) : string :=
  String.concat "/" (normalize_segments allowAboveRoot (segments path) []).

Definition isAbsolute (path : string) : bool := Js.startsWith path "/".

Fixpoint endsWithSlash (path : string) : bool :=
  match path with
  | EmptyString => false
  | String c EmptyString => Ascii.eqb c "/"
  | String _ rest => endsWithSlash rest
  end.

Definition normalize (path : string) : string :=
  if Js.falsy path then "."
  else
    let absolute := isAbsolute path in
    let trailing := endsWithSlash path in
    let p := normalizeString path (negb absolute) in
    if Js.falsy p then
      if absolute then "/" else if trailing then "./" else "."
    else
      let p := if trailing then p ++ "/" else p in
      if absolute then "/" ++ p else p.

(** path.join(a, b) *)
Definition join (a b : string) : string :=
  let joined :=
    if Js.falsy a then b
    else if Js.falsy b then a
    else a ++ "/" ++ b in
  if Js.falsy joined then "." else normalize joined.

(** path.resolve(p), with [cwd] the working directory of the process. *)
Definition resolve (cwd p : string) : string :=
  let r1 := if Js.falsy p then "" else p ++ "/" in
  let abs1 := isAbsolute p in
  let r2 := if abs1 || Js.falsy cwd then r1 else cwd ++ "/" ++ r1 in
  let absolute := abs1 || isAbsolute cwd in
  let n := normalizeString r2 (negb absolute) in
  if absolute then "/" ++ n
  else if Js.falsy n then "." else n.

Fixpoint last_nonempty (segs : list string) (acc : string) : string :=
  match segs with
  | [] => acc
  | seg :: rest => last_nonempty rest (if Js.falsy seg then acc else seg)
  end.

(** The suffix of [s] that starts at its last ".". *)
Fixpoint from_last_dot (s : string) : option string :=
  match s with
  | EmptyString => None
  | String c rest =>
      match from_last_dot rest with
      | Some e => Some e
      | None => if Ascii.eqb c "." then Some s else None
      end
  end.

(** path.extname: the extension of the last component; a dot that
    starts the component does not count, and ".." has none. *)
Definition extname (path : string) : string :=
  let base := last_nonempty (segments path) "" in
  match base with
  | EmptyString => ""
  | String _ rest =>
      if String.eqb base ".." then ""
      else match from_last_dot rest with
           | Some e => e
           | None => ""
           end
  end.

End Path.

(** ** The image volume *)

Module Fs.

(** An entry of the file system: a regular file with its bytes and its
    modification time, or a directory with the size and the
    modification time [fs.stat] reports for it.  (The time of a
    directory is not followed when an entry is made or removed in
    it.) *)
Inductive File : Type :=
| mkFile (bytes : string) (mtime : Timestamp)
| mkDir (size : Z) (mtime : Timestamp).

Definition bytes (f : File) : string :=
  match f with mkFile b _ => b | mkDir _ _ => "" end.

Definition mtime (f : File) : Timestamp :=
  match f with mkFile _ m => m | mkDir _ m => m end.

(** stats.size *)
Definition size (f : File) : Z :=
  match f with
  | mkFile b _ => Z.of_nat (String.length b)
  | mkDir s _ => s
  end.

(** The calls the routers make on [fs.promises], each with the path
    it is given. *)
Inductive Call : Type :=
| Access (path : string)
| Unlink (path : string)
| ReadFile (path : string)
| Stat (path : string)
| Mkdir (path : string)
| WriteFile (path : string).

Definition path_of (c : Call) : string :=
  match c with
  | Access p | Unlink p | ReadFile p | Stat p | Mkdir p | WriteFile p => p
  end.

(** The process: its environment, the entries of the machine under
    their absolute paths, and the calls made so far (oldest first), each
    recorded under the absolute path it reaches.  Every entry is one
    the process may read and write: permissions, links and a full disk
    are outside the model. *)
Record World : Type := mkWorld {
  NODE_ENV : string;
  cwd : string;
  files : list (string * File);
  calls : list Call
}.

Fixpoint lookup (p : string) (fs : list (string * File)) : option File :=
  match fs with
  | [] => None
  | (q, f) :: rest => if String.eqb q p then Some f else lookup p rest
  end.

Definition remove (p : string) (fs : list (string * File))
  : list (string * File) :=
  filter (fun e => negb (String.eqb (fst e) p)) fs.

Definition record (c : Call) (w : World) : World :=
  mkWorld (NODE_ENV w) (cwd w) (files w) (calls w ++ [c]).

Fixpoint has_nul (s : string) : bool :=
  match s with
  | EmptyString => false
  | String c rest => Nat.eqb (nat_of_ascii c) 0 || has_nul rest
  end.

Definition NAME_MAX : Z := 255.
Definition PATH_MAX : Z := 4096.

(** The paths a call accepts.  Node rejects a path that holds a NUL
    byte; Linux rejects the empty path (ENOENT), a path of [PATH_MAX]
    bytes or more and a path with a component of more than [NAME_MAX]
    bytes (ENAMETOOLONG). *)
Definition valid_path (path : string) : bool :=
  negb (Js.falsy path)
  && negb (has_nul path)
  && (Z.of_nat (String.length path) <? PATH_MAX)
  && forallb (fun seg => Z.of_nat (String.length seg) <=? NAME_MAX)
       (Path.segments path).

(** What a call on [path] finds: the entry at the place the path
    resolves to; nothing when the path is not accepted, when nothing is
    there (ENOENT), or when a regular file is there and the path ends
    in "/" (ENOTDIR).  The routers pass paths that [path.join] has
    normalised, of which a closing "/" is all that is left for the
    system to resolve. *)
Definition find (path : string) (w : World) : option File :=
  if valid_path path then
    match lookup (Path.resolve (cwd w) path) (files w) with
    | Some (mkFile b m) =>
        if Path.endsWithSlash path then None else Some (mkFile b m)
    | found => found
    end
  else None.

(** fs.access(path): [None] when it rejects.  It resolves for a
    directory as for a regular file. *)
Definition access (path : string) (w : World) : World * option unit :=
  let p := Path.resolve (cwd w) path in
  (record (Access p) w,
   match find path w with Some _ => Some tt | None => None end).

(** fs.unlink(path): it removes a regular file and rejects on a
    directory (EISDIR). *)
Definition unlink (path : string) (w : World) : World * option unit :=
  let p := Path.resolve (cwd w) path in
  match find path w with
  | Some (mkFile _ _) =>
      (mkWorld (NODE_ENV w) (cwd w) (remove p (files w))
               (calls w ++ [Unlink p]), Some tt)
  | _ => (record (Unlink p) w, None)
  end.

(** fs.readFile(path): it rejects on a directory (EISDIR). *)
Definition readFile (path : string) (w : World) : World * option string :=
  let p := Path.resolve (cwd w) path in
  (record (ReadFile p) w,
   match find path w with
   | Some (mkFile b _) => Some b
   | _ => None
   end).

(** fs.stat(path): it resolves for a directory as for a regular file. *)
Definition stat (path : string) (w : World) : World * option File :=
  let p := Path.resolve (cwd w) path in
  (record (Stat p) w, find path w).

(** [p] is the directory [root] or lies below it. *)
Definition inside (root p : string) : bool :=
  String.eqb p root || String.prefix (root ++ "/") p.

(** The places on the way to the absolute path [p], from the one below
    the root down to [p] itself. *)
Fixpoint below (dir : string) (segs : list string) : list string :=
  match segs with
  | [] => []
  | seg :: rest =>
      if Js.falsy seg then below dir rest
      else (dir ++ "/" ++ seg) :: below (dir ++ "/" ++ seg) rest
  end.

Definition ancestors (p : string) : list string :=
  below "" (Path.segments p).

Definition is_file (p : string) (fs : list (string * File)) : bool :=
  match lookup p fs with Some (mkFile _ _) => true | _ => false end.

Definition is_directory (p : string) (fs : list (string * File)) : bool :=
  match lookup p fs with Some (mkDir _ _) => true | _ => false end.

(** The size of a directory that was just made (one block on ext4 and
    on overlayfs); no router reads it, as the directories made here have
    no image extension. *)
Definition DIR_SIZE : Z := 4096.

Fixpoint make_directories (dirs : list string) (now : Timestamp)
  (fs : list (string * File)) : list (string * File) :=
  match dirs with
  | [] => fs
  | d :: rest =>
      make_directories rest now
        (match lookup d fs with
         | Some _ => fs
         | None => (fs ++ [(d, mkDir DIR_SIZE now)])%list
         end)
  end.

(** fs.mkdir(path, { recursive: true }) at clock reading [now]: the
    directories on the way that are missing are made; it rejects when a
    regular file is in the way (ENOTDIR, EEXIST) and then makes
    nothing. *)
Definition mkdir (path : string) (now : Timestamp) (w : World)
  : World * option unit :=
  let p := Path.resolve (cwd w) path in
  if valid_path path
     && negb (existsb (fun d => is_file d (files w)) (ancestors p)) then
    (mkWorld (NODE_ENV w) (cwd w)
       (make_directories (ancestors p) now (files w))
       (calls w ++ [Mkdir p]), Some tt)
  else (record (Mkdir p) w, None).

(** The directory that holds the absolute path [p]; [None] for a path
    directly below the root. *)
Definition parent (p : string) : option string :=
  last (map Some (removelast (ancestors p))) None.

(** fs.writeFile(path, data) at clock reading [now]: the regular file
    is created or replaced.  It rejects when the path is not accepted
    or ends in "/", when the directory that is to hold the file is not
    there (ENOENT, ENOTDIR) and when a directory is at the path
    (EISDIR). *)
Definition writeFile (path data : string) (now : Timestamp) (w : World)
  : World * option unit :=
  let p := Path.resolve (cwd w) path in
  let held :=
    match ancestors p, parent p with
    | [], _ => false
    | _, None => true
    | _, Some d => is_directory d (files w)
    end in
  if valid_path path && negb (Path.endsWithSlash path) && held
     && negb (is_directory p (files w)) then
    (mkWorld (NODE_ENV w) (cwd w)
       ((p, mkFile data now) :: remove p (files w))
       (calls w ++ [WriteFile p]), Some tt)
  else (record (WriteFile p) w, None).

End Fs.

(** ** The image directory as a listing sees it *)

Module Dir.

Record Stats : Type := mkStats {
  size : Z;
  mtime : Timestamp
}.

(** What [fs.access], [fs.readdir] and [fs.stat] show of the image
    directory: it is missing, or it is there with its entries, in the
    order [readdir] lists them, each with what [stat] answers for it. *)
Inductive State : Type :=
| Missing
| Present (entries : list (string * Stats)).

End Dir.

(** ** Images router *)

Module ImagesRouter.

Definition IMAGE_EXTENSIONS : list string :=
  [".jpg"; ".jpeg"; ".png"; ".gif"; ".webp"; ".svg"; ".bmp"].

Definition isImageFile (filename : string) : bool :=
  let ext := Js.toLowerCase (Path.extname filename) in
  existsb (String.eqb ext) IMAGE_EXTENSIONS.

Definition getDataDirectory (w : Fs.World) : string :=
  if String.eqb (Fs.NODE_ENV w) "production" then "/data/images"
  else "./data/images".

(** The body of the [try] block of [delete]. *)
Definition delete_body (name : string) (w : Fs.World)
  : Fs.World * Res (bool * string) :=
  let dataDir := getDataDirectory w in
  let filePath := Path.join dataDir name in
  (* Security check: ensure the file is within the data directory *)
  let resolvedPath := Path.resolve (Fs.cwd w) filePath in
  let resolvedDataDir := Path.resolve (Fs.cwd w) dataDir in
  if negb (Js.startsWith resolvedPath resolvedDataDir) then
    (w, Err (Thrown "Invalid file path"))
  else if negb (isImageFile name) then
    (w, Err (Thrown "File is not a valid image"))
  else
    match Fs.access filePath w with
    | (w1, None) => (w1, Err (Thrown "Image not found"))
    | (w1, Some _) =>
        match Fs.unlink filePath w1 with
        | (w2, None) => (w2, Err (Thrown "ENOENT"))
        | (w2, Some _) => (w2, Ok (true, "Image deleted successfully"))
        end
    end.

(** [delete]: whatever the body throws is caught and replaced. *)
Definition delete (name : string) (w : Fs.World)
  : Fs.World * Res (bool * string) :=
  match delete_body name w with
  | (w', Ok r) => (w', Ok r)
  | (w', Err _) => (w', Err (Thrown "Failed to delete image"))
  end.

Record Image : Type := mkImage {
  name : string;
  size : Z;
  lastModified : Timestamp;
  url : string
}.

Definition serving_url (file : string) : string :=
  "/api/images/" ++ Js.encodeURIComponent file.

(** The loop of [getAll] and [getPaginated]: the entries with an image
    extension, in directory order. *)
Definition collect (entries : list (string * Dir.Stats)) : list Image :=
  map (fun e => mkImage (fst e) (Dir.size (snd e)) (Dir.mtime (snd e))
                        (serving_url (fst e)))
      (filter (fun e => isImageFile (fst e)) entries).

(** sort((a, b) => b.lastModified.getTime() - a.lastModified.getTime()) *)
Definition newest_first (images : list Image) : list Image :=
  sort_by (fun i => - lastModified i) images.

(** [getAll]: a missing directory is created and the answer is empty. *)
Definition getAll (d : Dir.State) : Dir.State * Res (list Image) :=
  match d with
  | Dir.Missing => (Dir.Present [], Ok [])
  | Dir.Present entries => (d, Ok (newest_first (collect entries)))
  end.

Record Page : Type := mkPage {
  images : list Image;
  total : Z;
  page : Z;
  limit : Z;
  totalPages : Z
}.

(** [getPaginated]; [page] and [limit] are [z.number()] with the bounds
    and defaults below, read here on the integers. *)
Definition getPaginated (page_in limit_in : option Z) (d : Dir.State)
  : Dir.State * Res Page :=
  let page := match page_in with Some p => p | None => 1 end in
  let limit := match limit_in with Some l => l | None => 20 end in
  if negb ((1 <=? page) && (1 <=? limit) && (limit <=? 100)) then
    (d, Err (BadRequest "Invalid input"))
  else
    match d with
    | Dir.Missing => (Dir.Present [], Ok (mkPage [] 0 page limit 0))
    | Dir.Present entries =>
        let sortedImages := newest_first (collect entries) in
        let total := Z.of_nat (length sortedImages) in
        let totalPages := Js.ceil_div total limit in
        let startIndex := (page - 1) * limit in
        let endIndex := startIndex + limit in
        (d, Ok (mkPage (Js.slice startIndex endIndex sortedImages)
                       total page limit totalPages))
    end.



Definition validMimeTypes : list string :=
  [ "image/jpeg"; "image/jpg"; "image/png"; "image/gif"; "image/webp";
    "image/svg+xml"; "image/bmp" ].

Fixpoint drop (n : nat) (s : string) : string :=
  match n, s with
  | O, _ => s
  | S n', String _ rest => drop n' rest
  | S _, EmptyString => EmptyString
  end.

(** The rest of [s] after its longest run of word characters, and
    whether that run is empty. *)
Fixpoint after_word (s : string) : string :=
  match s with
  | String c rest => if Js.word_char c then after_word rest else s
  | EmptyString => EmptyString
  end.

(** data.replace(/^data:image\/\w+;base64,/, "") *)
Definition strip_data_url (data : string) : string :=
  if String.prefix "data:image/" data then
    match drop 11 data with
    | String c rest =>
        if Js.word_char c && String.prefix ";base64," (after_word rest)
        then drop 8 (after_word rest)
        else data
    | EmptyString => data
    end
  else data.

(** [generateUUIDFilename]; [uuid] is what [uuidv4()] draws. *)
Definition generateUUIDFilename (uuid originalName : string) : string :=
  uuid ++ Path.extname originalName.

Record Uploaded : Type := mkUploaded {
  u_name : string;
  u_originalName : string;
  u_size : Z;
  u_lastModified : Timestamp;
  u_url : string
}.

Section Upload.
(** Buffer.from(text, "base64") *)
Variable base64 : string -> string.

(** The body of the [try] block of [upload], at clock reading [now];
    an error of a call on the file system is thrown on as it is. *)
Definition upload_body (uuid filename data mimeType : string)
  (now : Timestamp) (w : Fs.World) : Fs.World * Res Uploaded :=
  let dataDir := getDataDirectory w in
  (* Ensure directory exists *)
  match Fs.mkdir dataDir now w with
  | (w0, None) => (w0, Err (Thrown "EEXIST"))
  | (w0, Some _) =>
      if negb (existsb (String.eqb mimeType) validMimeTypes) then
        (w0, Err (Thrown "Invalid image type"))
      else
        let uuidFilename := generateUUIDFilename uuid filename in
        let filePath := Path.join dataDir uuidFilename in
        let base64Data := strip_data_url data in
        let imageBuffer := base64 base64Data in
        match Fs.writeFile filePath imageBuffer now w0 with
        | (w1, None) => (w1, Err (Thrown "ENOENT"))
        | (w1, Some _) =>
            match Fs.stat filePath w1 with
            | (w2, None) => (w2, Err (Thrown "ENOENT"))
            | (w2, Some stats) =>
                (w2, Ok (mkUploaded uuidFilename filename (Fs.size stats)
                           (Fs.mtime stats) (serving_url uuidFilename)))
            end
        end
  end.

Definition upload (uuid filename data mimeType : string)
  (now : Timestamp) (w : Fs.World) : Fs.World * Res Uploaded :=
  match upload_body uuid filename data mimeType now w with
  | (w', Ok r) => (w', Ok r)
  | (w', Err _) => (w', Err (Thrown "Failed to upload image"))
  end.
End Upload.

End ImagesRouter.

(** ** The image-serving route *)

Module ImageRoute.

Definition IMAGE_MIME_TYPES : list (string * string) :=
  [ (".jpg", "image/jpeg"); (".jpeg", "image/jpeg"); (".png", "image/png");
    (".gif", "image/gif"); (".webp", "image/webp");
    (".svg", "image/svg+xml"); (".bmp", "image/bmp") ].

Fixpoint mime_of (ext : string) (table : list (string * string))
  : option string :=
  match table with
  | [] => None
  | (e, m) :: rest => if String.eqb e ext then Some m else mime_of ext rest
  end.

Definition getDataDirectory (w : Fs.World) : string :=
  if String.eqb (Fs.NODE_ENV w) "production" then "/data/images"
  else "./data/images".

(** [ext in IMAGE_MIME_TYPES] *)
Definition isImageFile (filename : string) : bool :=
  let ext := Js.toLowerCase (Path.extname filename) in
  match mime_of ext IMAGE_MIME_TYPES with Some _ => true | None => false end.

Record Response : Type := mkResponse {
  status : Z;
  body : string;
  contentType : option string;
  contentLength : option Z;
  lastModified : option string
}.

Definition text (message : string) (code : Z) : Response :=
  mkResponse code message None None None.

Definition backslash : string := String (ascii_of_nat 92) EmptyString.

Definition GET (filename : string) (w : Fs.World) : Fs.World * Response :=
  (* Security check: ensure the filename doesn't contain path traversal *)
  if Js.includes filename ".." || Js.includes filename "/"
     || Js.includes filename backslash then
    (w, text "Invalid filename" 400)
  else if negb (isImageFile filename) then
    (w, text "File is not a valid image" 400)
  else
    let dataDir := getDataDirectory w in
    let filePath := Path.join dataDir filename in
    let resolvedPath := Path.resolve (Fs.cwd w) filePath in
    let resolvedDataDir := Path.resolve (Fs.cwd w) dataDir in
    if negb (Js.startsWith resolvedPath resolvedDataDir) then
      (w, text "Invalid file path" 400)
    else
      match Fs.access filePath w with
      | (w1, None) => (w1, text "Image not found" 404)
      | (w1, Some _) =>
          match Fs.readFile filePath w1 with
          | (w2, None) => (w2, text "Internal server error" 500)
          | (w2, Some fileBuffer) =>
              match Fs.stat filePath w2 with
              | (w3, None) => (w3, text "Internal server error" 500)
              | (w3, Some stats) =>
                  let ext := Js.toLowerCase (Path.extname filename) in
                  let mimeType :=
                    match mime_of ext IMAGE_MIME_TYPES with
                    | Some m => m
                    | None => "application/octet-stream"
                    end in
                  (w3, mkResponse 200 fileBuffer (Some mimeType)
                         (Some (Fs.size stats))
                         (Some (Js.toUTCString (Fs.mtime stats))))
              end
          end
      end.

End ImageRoute.

(** * Properties *)

(** A production process with the image volume at [/data/images]. *)
Definition production (files : list (string * Fs.File)) : Fs.World :=
  Fs.mkWorld "production" "/app" files [].

Definition volume : list (string * Fs.File) :=
  [ ("/data/images/a.png", Fs.mkFile "A" 10);
    ("/data/images-old/x.png", Fs.mkFile "X" 20);
    ("/etc/passwd", Fs.mkFile "root" 5) ].

(** The registry as [initializeTVs] leaves it when it seeds at [now]. *)
Definition seeded (now : Timestamp) : list Prisma.Tv :=
  [ Prisma.mkTv "1" 1 (Some "/image1.png") now now;
    Prisma.mkTv "2" 2 (Some "/image2.png") now now;
    Prisma.mkTv "3" 3 (Some "/image3.png") now now ].

(** The rows a procedure returned, none when it failed. *)
Definition rows_of {A} (r : Res (list A)) : list A :=
  match r with Ok l => l | Err _ => [] end.

(** [i] is among the ids [ids]. *)
Definition known (ids : list string) (i : string) : bool :=
  existsb (String.eqb i) ids.

(** The position a batch of updates leaves for id [i]: that of the last
    pair naming [i], if any. *)
Fixpoint last_update (i : string) (input : list (string * Z)) : option Z :=
  match input with
  | [] => None
  | (j, p) :: rest =>
      match last_update i rest with
      | Some q => Some q
      | None => if String.eqb j i then Some p else None
      end
  end.

(** What a batch of updates makes of one screen (in-memory form) and of
    one row (database form). *)
Definition reorder_screen (now : Timestamp) (input : list (string * Z))
  (s : MemoryScreens.ScreenConfig) : MemoryScreens.ScreenConfig :=
  match last_update (MemoryScreens.id s) input with
  | Some p => MemoryScreens.set_position now p s
  | None => s
  end.

Definition reorder_row (now : Timestamp) (input : list (string * Z))
  (r : Prisma.Tv) : Prisma.Tv :=
  match last_update (Prisma.id r) input with
  | Some p => Prisma.apply_data now (Prisma.dataPosition p) r
  | None => r
  end.

(** The statements [updateOrder] hands to [$transaction], and the write
    one of them makes on the table. *)
Definition position_updates (input : list (string * Z))
  : list (Prisma.Stmt Prisma.Tv) :=
  map (fun update =>
         Prisma.tv_update (fst update) (Prisma.dataPosition (snd update)))
      input.

Definition write_position (now : Timestamp) (rows : list Prisma.Tv)
  (u : string * Z) : list Prisma.Tv :=
  Prisma.update_row now (fst u) (Prisma.dataPosition (snd u)) rows.

(** The procedures of the screen and layout routers that reach the
    store, and the stores the running system can be in: it starts on the
    empty tables the migration creates, and every call, failed or not,
    leaves the store its procedure leaves. *)
Inductive StoreRequest : Type :=
| ScreenGetAll
| ScreenUpdateOrder (input : list (string * Z))
| ScreenUpdateImage (i : string) (u : option string)
| ScreenResetImage (i : string)
| ScreenResetAllImages
| ScreenGetUpdates (input : option Timestamp)
| LayoutGetAll
| LayoutSave (nanoid n : string) (u1 u2 u3 : option string)
| LayoutRestore (i : string)
| LayoutDelete (i : string)
| LayoutUpdateName (i n : string).

Definition serve (stamps_empty : bool) (URL_ok : string -> bool)
  (r : StoreRequest) (now : Timestamp) (db : Prisma.Db) : Prisma.Db :=
  match r with
  | ScreenGetAll => fst (ScreenRouter.getAll now db)
  | ScreenUpdateOrder input => fst (ScreenRouter.updateOrder input now db)
  | ScreenUpdateImage i u => fst (ScreenRouter.updateImage URL_ok i u now db)
  | ScreenResetImage i => fst (ScreenRouter.resetImage i now db)
  | ScreenResetAllImages =>
      fst (ScreenRouter.resetAllImages stamps_empty now db)
  | ScreenGetUpdates input => fst (ScreenRouter.getUpdates input now db)
  | LayoutGetAll => fst (LayoutRouter.getAll now db)
  | LayoutSave nanoid n u1 u2 u3 =>
      fst (LayoutRouter.save nanoid n u1 u2 u3 now db)
  | LayoutRestore i => fst (LayoutRouter.restore i now db)
  | LayoutDelete i => fst (LayoutRouter.delete i now db)
  | LayoutUpdateName i n => fst (LayoutRouter.updateName i n now db)
  end.

Inductive store_reachable (stamps_empty : bool) (URL_ok : string -> bool)
  : Prisma.Db -> Prop :=
| store_start : store_reachable stamps_empty URL_ok Prisma.empty
| store_step : forall db r now,
    store_reachable stamps_empty URL_ok db ->
    store_reachable stamps_empty URL_ok (serve stamps_empty URL_ok r now db).

(** A statement that writes rows of [tv] in place: it neither adds nor
    removes a row and leaves the layouts alone. *)
Definition in_place {A} (s : Prisma.Stmt A) : Prop :=
  forall now db db' a,
    s now db = Ok (db', a) ->
    map Prisma.id (Prisma.tv db') = map Prisma.id (Prisma.tv db)
    /\ Prisma.layout db' = Prisma.layout db.

(** The registry is empty or holds the screens "1", "2", "3". *)
Definition registry_shape (db : Prisma.Db) : Prop :=
  map Prisma.id (Prisma.tv db) = []
  \/ map Prisma.id (Prisma.tv db) = ["1"; "2"; "3"].

(** A registry in which screen "3" is missing. *)
Definition two_screens : Prisma.Db :=
  Prisma.mkDb
    [ Prisma.mkTv "1" 1 (Some "/api/images/menu.png") 100 100;
      Prisma.mkTv "2" 2 None 100 100 ] [].

(** The two shapes of the reload signal: at rest, or set with a single
    timer pending that is due at [d]. *)
Definition idle (st : Signals.State) : Prop :=
  Signals.triggerReload st = false
  /\ Signals.triggerReloadTimeout st = None
  /\ Signals.timers st = [].

Definition armed (d : Timestamp) (st : Signals.State) : Prop :=
  Signals.triggerReload st = true
  /\ exists h, Signals.triggerReloadTimeout st = Some h
               /\ Signals.timers st = [(h, d)].

(** A path segment that names an entry: neither empty, nor ".", nor
    "..". *)
Definition plain (f : string) : Prop := f <> "" /\ f <> "." /\ f <> "..".

(** The value the last [setShowTVNumbers] of a history set, [false] when
    there was none. *)
Definition last_show (evs : list (Timestamp * Signals.Event)) : bool :=
  fold_left (fun b ev => match snd ev with
                         | Signals.SetShowTVNumbers show => show
                         | Signals.SetTriggerReload _ => b
                         end) evs false.

(** The [setTriggerReload] requests of a history. *)
Definition reload_only (evs : list (Timestamp * Signals.Event))
  : list (Timestamp * bool) :=
  flat_map (fun ev => match snd ev with
                      | Signals.SetTriggerReload trigger => [(fst ev, trigger)]
                      | Signals.SetShowTVNumbers _ => []
                      end) evs.

(** Two states that differ at most in [showTVNumbers]. *)
Definition same_reload (a b : Signals.State) : Prop :=
  Signals.triggerReload a = Signals.triggerReload b
  /\ Signals.triggerReloadTimeout a = Signals.triggerReloadTimeout b
  /\ Signals.timers a = Signals.timers b
  /\ Signals.next_handle a = Signals.next_handle b.

(** Every character of [s] passes [p]. *)
Fixpoint all_chars (p : ascii -> bool) (s : string) : bool :=
  match s with
  | EmptyString => true
  | String c rest => p c && all_chars p rest
  end.

(** [s] does not hold the character [c]. *)
Definition without (c : ascii) (s : string) : bool :=
  all_chars (fun x => negb (Ascii.eqb x c)) s.

(** The characters of what [uuidv4()] returns: lower-case hex digits and
    "-". *)
Definition uuid_char (c : ascii) : bool :=
  let n := nat_of_ascii c in
  (Nat.leb 48 n && Nat.leb n 57) || (Nat.leb 97 n && Nat.leb n 102)
  || Nat.eqb n 45.

Definition uuid_shape (u : string) : Prop :=
  u <> "" /\ all_chars uuid_char u = true.

(** What [path.extname] can return: nothing, or a "." followed by
    characters other than "." and "/". *)
Definition ext_shape (e : string) : Prop :=
  e = ""
  \/ exists rest, e = String "." rest
                  /\ without "." rest = true /\ without "/" rest = true.

(** The images of an answer of [getPaginated], none when it failed. *)
Definition page_images (r : Res ImagesRouter.Page) : list ImagesRouter.Image :=
  match r with Ok pg => ImagesRouter.images pg | Err _ => [] end.

(** The pages 1 to [n] of a directory, one after the other. *)
Definition pages_up_to (n : nat) (limit : Z) (d : Dir.State)
  : list ImagesRouter.Image :=
  flat_map (fun k => page_images
                       (snd (ImagesRouter.getPaginated
                               (Some (Z.of_nat k + 1)) (Some limit) d)))
           (seq 0 n).

(** The characters of an encoded URI component. *)
Definition component_char (c : ascii) : bool :=
  Js.unreserved c || Ascii.eqb c "%".

(** The value of a hex digit as [Js.hex_digit] writes it. *)
Definition hex_value (c : ascii) : nat :=
  let n := nat_of_ascii c in
  if Nat.leb n 57 then n - 48 else n - 55.

(** A volume with its directories: the image directory holds one image
    and a directory named like an image. *)
Definition disk : list (string * Fs.File) :=
  [ ("/data", Fs.mkDir 4096 1);
    ("/data/images", Fs.mkDir 4096 2);
    ("/data/images/a.png", Fs.mkFile "A" 1700000000123);
    ("/data/images/dir.png", Fs.mkDir 4096 3) ].

(** The directories [upload] makes in production when they are
    missing. *)
Definition image_directories : list string := ["/data"; "/data/images"].

(** [upload] can store a file under the name [name]: no regular file
    is in the way of the image directory, the path below it is one the
    system accepts, and no directory is at that path. *)
Definition storable (name : string) (w : Fs.World) : bool :=
  negb (Fs.is_file "/data" (Fs.files w))
  && negb (Fs.is_file "/data/images" (Fs.files w))
  && Fs.valid_path ("/data/images/" ++ name)
  && negb (Fs.is_directory ("/data/images/" ++ name) (Fs.files w)).

(** ** Sorting *)

Section SortFacts.
Context {A : Type}.
Variable key : A -> Z.

Lemma insert_by_perm (r : A) (rows : list A) :
  Permutation (insert_by key r rows) (r :: rows).
Proof.
  induction rows as [|h t IH]; simpl.
  - apply Permutation_refl.
  - destruct (key r <=? key h).
    + apply Permutation_refl.
    + eapply Permutation_trans.
      * apply perm_skip, IH.
      * apply perm_swap.
Qed.

Lemma sort_by_perm (rows : list A) : Permutation (sort_by key rows) rows.
Proof.
  induction rows as [|h t IH]; simpl.
  - constructor.
  - eapply Permutation_trans; [apply insert_by_perm|].
    now apply perm_skip.
Qed.

Lemma In_sort_by (x : A) (rows : list A) :
  In x (sort_by key rows) <-> In x rows.
Proof.
  split; apply Permutation_in;
    [|apply Permutation_sym]; apply sort_by_perm.
Qed.

Lemma insert_by_hd (r a : A) (rows : list A) :
  key a <= key r ->
  HdRel (fun x y => key x <= key y) a rows ->
  HdRel (fun x y => key x <= key y) a (insert_by key r rows).
Proof.
  intros Har Hhd. destruct rows as [|h t]; simpl.
  - now constructor.
  - destruct (key r <=? key h); constructor; auto.
    now inversion Hhd.
Qed.

Lemma insert_by_ascending (r : A) (rows : list A) :
  ascending key rows -> ascending key (insert_by key r rows).
Proof.
  unfold ascending. induction rows as [|h t IH]; intros Hs; simpl.
  - repeat constructor.
  - inversion Hs as [|? ? Ht Hhd]; subst.
    destruct (key r <=? key h) eqn:E.
    + apply Z.leb_le in E. constructor; [assumption|].
      now constructor.
    + apply Z.leb_gt in E. constructor; [now apply IH|].
      apply insert_by_hd; [lia|assumption].
Qed.

Lemma sort_by_ascending (rows : list A) : ascending key (sort_by key rows).
Proof.
  induction rows as [|h t IH]; simpl.
  - constructor.
  - now apply insert_by_ascending.
Qed.

Lemma ascending_strong (rows : list A) :
  ascending key rows -> StronglySorted (fun a b => key a <= key b) rows.
Proof.
  apply Sorted_StronglySorted. intros x y z; lia.
Qed.

Lemma ascending_filter (f : A -> bool) (rows : list A) :
  ascending key rows -> ascending key (filter f rows).
Proof.
  intros Hs. apply ascending_strong in Hs.
  apply StronglySorted_Sorted.
  induction Hs as [|a l Hl IH Hall]; simpl.
  - constructor.
  - destruct (f a).
    + constructor; [exact IH|].
      rewrite Forall_forall in *. intros x Hx.
      apply filter_In in Hx. now apply Hall.
    + exact IH.
Qed.


(** Whether a list is ascending depends on its keys only. *)
Lemma ascending_keys (rows : list A) :
  ascending key rows <-> Sorted Z.le (map key rows).
Proof.
  unfold ascending. induction rows as [|h t IH]; simpl.
  - split; constructor.
  - split; intros Hs; inversion Hs as [|? ? Ht Hhd]; subst;
      (constructor; [now apply IH|]);
      destruct t; simpl in *; constructor; now inversion Hhd.
Qed.
End SortFacts.

(** ** Seeding *)

Lemma getAll_on_empty (now : Timestamp) (layouts : list Prisma.Layout) :
  ScreenRouter.getAll now (Prisma.mkDb [] layouts)
  = (Prisma.mkDb (seeded now) layouts, Ok (seeded now)).
Proof. reflexivity. Qed.

Lemma initializeTVs_skips (now : Timestamp) (r : Prisma.Tv)
  (rows : list Prisma.Tv) (layouts : list Prisma.Layout) :
  ScreenRouter.initializeTVs now (Prisma.mkDb (r :: rows) layouts)
  = (Prisma.mkDb (r :: rows) layouts, Ok tt).
Proof.
  unfold ScreenRouter.initializeTVs, bind, await, Prisma.tv_count.
  cbn [Prisma.tv length].
  replace (Z.of_nat (S (length rows)) =? 0) with false; [reflexivity|].
  symmetry. apply Z.eqb_neq. lia.
Qed.

Lemma filter_all_rows (rows : list Prisma.Tv) :
  filter Prisma.all_rows rows = rows.
Proof.
  induction rows as [|r t IH]; simpl; [reflexivity|now rewrite IH].
Qed.

Lemma findMany_all (now : Timestamp) (db : Prisma.Db) :
  await (Prisma.tv_findMany Prisma.all_rows) now db
  = (db, Ok (Prisma.sort_by_position (Prisma.tv db))).
Proof.
  unfold await, Prisma.tv_findMany. now rewrite filter_all_rows.
Qed.

Lemma getAll_on_rows (now : Timestamp) (r : Prisma.Tv)
  (rows : list Prisma.Tv) (layouts : list Prisma.Layout) :
  ScreenRouter.getAll now (Prisma.mkDb (r :: rows) layouts)
  = (Prisma.mkDb (r :: rows) layouts,
     Ok (Prisma.sort_by_position (r :: rows))).
Proof.
  unfold ScreenRouter.getAll, bind at 1.
  rewrite initializeTVs_skips. apply findMany_all.
Qed.

(** C8. [getAll] on an empty registry creates exactly the rows "1", "2",
    "3" with positions 1, 2, 3 and the images /image1.png, /image2.png,
    /image3.png, and returns them; on a registry that holds any row it
    creates nothing, so a second call leaves the three rows as they are
    and their ids stay distinct. *)
Theorem seeding_idempotent :
  (forall now layouts,
      ScreenRouter.getAll now (Prisma.mkDb [] layouts)
      = (Prisma.mkDb (seeded now) layouts, Ok (seeded now)))
  /\ (forall now,
         map (fun r => (Prisma.id r, Prisma.position r, Prisma.imageUrl r))
             (seeded now)
         = [ ("1", 1, Some "/image1.png"); ("2", 2, Some "/image2.png");
             ("3", 3, Some "/image3.png") ])
  /\ (forall now r rows layouts,
         fst (ScreenRouter.getAll now (Prisma.mkDb (r :: rows) layouts))
         = Prisma.mkDb (r :: rows) layouts)
  /\ (forall now later layouts,
         ScreenRouter.getAll later
           (fst (ScreenRouter.getAll now (Prisma.mkDb [] layouts)))
         = (Prisma.mkDb (seeded now) layouts, Ok (seeded now)))
  /\ (forall now, NoDup (map Prisma.id (seeded now))).
Proof.
  split; [exact getAll_on_empty|].
  split; [reflexivity|].
  split; [intros; now rewrite getAll_on_rows|].
  split.
  - intros now later layouts. rewrite getAll_on_empty. cbn [fst].
    unfold seeded at 1. rewrite getAll_on_rows. reflexivity.
  - intros now. simpl. repeat constructor; simpl; intuition discriminate.
Qed.

(** ** Change feed *)

Lemma getUpdates_db (input : option Timestamp) (now : Timestamp)
  (db : Prisma.Db) :
  ScreenRouter.getUpdates input now db
  = (db, Ok (Prisma.sort_by_position
               (filter (Prisma.updatedAt_gt
                          (match input with Some d => d | None => epoch end))
                       (Prisma.tv db)))).
Proof. reflexivity. Qed.

Lemma updatedAt_gt_spec (t : Timestamp) (r : Prisma.Tv) :
  Prisma.updatedAt_gt t r = true <-> t < Prisma.updatedAt r.
Proof. unfold Prisma.updatedAt_gt. apply Z.ltb_lt. Qed.

Lemma getAll_lists_table (now : Timestamp) (db : Prisma.Db) (r : Prisma.Tv) :
  In r (Prisma.tv db) -> In r (rows_of (snd (ScreenRouter.getAll now db))).
Proof.
  destruct db as [[|h t] layouts]; [intros []|]. intros Hin.
  rewrite getAll_on_rows. cbn [snd rows_of].
  now apply In_sort_by.
Qed.

Lemma modify_found_positions (i : string)
  (f : MemoryScreens.ScreenConfig -> MemoryScreens.ScreenConfig)
  (screens : list MemoryScreens.ScreenConfig) :
  (forall s, MemoryScreens.position (f s) = MemoryScreens.position s) ->
  map MemoryScreens.position (MemoryScreens.modify_found i f screens)
  = map MemoryScreens.position screens.
Proof.
  intros Hf. induction screens as [|s t IH]; simpl; [reflexivity|].
  destruct (String.eqb (MemoryScreens.id s) i); simpl.
  - now rewrite Hf.
  - now rewrite IH.
Qed.

(** Every state of the in-memory array is ordered by position: the only
    procedure that writes a position sorts before it returns. *)
Lemma reachable_ascending (URL_ok : string -> bool)
  (screens : list MemoryScreens.ScreenConfig) :
  MemoryScreens.reachable URL_ok screens ->
  ascending MemoryScreens.position screens.
Proof.
  induction 1 as [boot|screens r now Hr IH].
  - unfold MemoryScreens.screens0, ascending.
    repeat constructor; simpl; lia.
  - destruct r; simpl; try apply sort_by_ascending; try exact IH.
    + unfold MemoryScreens.updateImage.
      destruct (MemoryScreens.imageUrl_schema URL_ok u); [|exact IH].
      simpl. apply (proj2 (ascending_keys _ _)).
      rewrite modify_found_positions by (intros; reflexivity).
      exact (proj1 (ascending_keys _ _) IH).
    + apply (proj2 (ascending_keys _ _)).
      rewrite modify_found_positions by (intros; reflexivity).
      exact (proj1 (ascending_keys _ _) IH).
Qed.

(** C7. [getUpdates] (the change feed) returns exactly the rows whose
    [updatedAt] is strictly later than the cutoff, in ascending position
    order; every row it returns is in the answer of [getAll]; an earlier
    cutoff returns every row a later one does; and with no cutoff, every
    row stamped after the epoch is returned.  This holds of the database
    form in every store and of the in-memory form in every state the
    procedures can reach. *)
Theorem change_feed_monotone :
  (forall input now db,
      let T := match input with Some d => d | None => epoch end in
      exists rows,
        ScreenRouter.getUpdates input now db = (db, Ok rows)
        /\ Permutation rows (filter (Prisma.updatedAt_gt T) (Prisma.tv db))
        /\ (forall r, In r rows <->
                      In r (Prisma.tv db) /\ T < Prisma.updatedAt r)
        /\ ascending Prisma.position rows
        /\ (forall r later,
               In r rows ->
               In r (rows_of (snd (ScreenRouter.getAll later db)))))
  /\ (forall T T2 now db r,
         T <= T2 ->
         In r (rows_of (snd (ScreenRouter.getUpdates (Some T2) now db))) ->
         In r (rows_of (snd (ScreenRouter.getUpdates (Some T) now db))))
  /\ (forall now db,
         (forall r, In r (Prisma.tv db) -> epoch < Prisma.updatedAt r) ->
         ScreenRouter.getUpdates None now db
         = (db, Ok (Prisma.sort_by_position (Prisma.tv db))))
  /\ (forall URL_ok screens input now,
         MemoryScreens.reachable URL_ok screens ->
         let T := match input with Some d => d | None => epoch end in
         exists rows,
           MemoryScreens.getUpdates input now screens = (screens, Ok rows)
           /\ (forall s, In s rows <->
                         In s screens /\ T < MemoryScreens.updatedAt s)
           /\ ascending MemoryScreens.position rows
           /\ (forall s later,
                  In s rows ->
                  In s (rows_of (snd (MemoryScreens.getAll later screens)))))
  /\ (forall T T2 now screens s,
         T <= T2 ->
         In s (rows_of (snd (MemoryScreens.getUpdates (Some T2) now
                                 screens))) ->
         In s (rows_of (snd (MemoryScreens.getUpdates (Some T) now screens)))).
Proof.
  assert (Hin : forall T db r,
             In r (Prisma.sort_by_position
                     (filter (Prisma.updatedAt_gt T) (Prisma.tv db)))
             <-> In r (Prisma.tv db) /\ T < Prisma.updatedAt r).
  { intros T db r. unfold Prisma.sort_by_position.
    rewrite In_sort_by, filter_In, updatedAt_gt_spec. reflexivity. }
  repeat split.
  - intros input now db T. eexists. split; [apply getUpdates_db|].
    fold T. split; [apply sort_by_perm|].
    split; [apply Hin|].
    split; [apply sort_by_ascending|].
    intros r later Hr. apply getAll_lists_table. now apply Hin in Hr.
  - intros T T2 now db r HT. rewrite !getUpdates_db. cbn [snd rows_of].
    rewrite !Hin. intros [Hr Hlt]. split; [assumption|lia].
  - intros now db Hpos. rewrite getUpdates_db. do 3 f_equal.
    induction (Prisma.tv db) as [|r t IH]; simpl; [reflexivity|].
    replace (Prisma.updatedAt_gt epoch r) with true.
    + f_equal. apply IH. intros x Hx. apply Hpos. now right.
    + symmetry. apply updatedAt_gt_spec. apply Hpos. now left.
  - intros URL_ok screens input now Hreach T. eexists.
    split; [reflexivity|]. fold T.
    split; [|split].
    + intros s. rewrite filter_In, Z.ltb_lt. reflexivity.
    + apply ascending_filter. eapply reachable_ascending; eassumption.
    + intros s later Hs. cbn [MemoryScreens.getAll snd rows_of].
      apply In_sort_by. now apply filter_In in Hs.
  - intros T T2 now screens s HT. cbn [MemoryScreens.getUpdates snd rows_of].
    rewrite !filter_In, !Z.ltb_lt. intros [Hs Hlt]. split; [assumption|lia].
Qed.

Lemma change_feed_monotone_witness :
  In (Prisma.mkTv "1" 1 (Some "/image1.png") 100 100)
     (rows_of (snd (ScreenRouter.getUpdates (Some 50) 200
                      (Prisma.mkDb (seeded 100) []))))
  /\ ScreenRouter.getUpdates None 200 (Prisma.mkDb (seeded 100) [])
     = (Prisma.mkDb (seeded 100) [],
        Ok (Prisma.sort_by_position (seeded 100)))
  /\ ascending MemoryScreens.position
       (rows_of (snd (MemoryScreens.getUpdates (Some 50) 200
                        (MemoryScreens.screens0 100)))).
Proof.
  destruct change_feed_monotone as (_ & Hmono & Hall & Hmem & _).
  split; [|split].
  - apply (Hmono 50 60 200 (Prisma.mkDb (seeded 100) [])); [lia|].
    simpl. left. reflexivity.
  - apply (Hall 200 (Prisma.mkDb (seeded 100) [])).
    simpl. intros r [<-|[<-|[<-|[]]]]; reflexivity.
  - destruct (Hmem Url.has_scheme (MemoryScreens.screens0 100) (Some 50) 200
                (MemoryScreens.reach_boot _ 100))
      as (rows & Heq & _ & Hasc & _).
    rewrite Heq. exact Hasc.
Defined.

(** ** Reordering *)

Lemma known_spec (ids : list string) (i : string) :
  known ids i = true <-> In i ids.
Proof.
  unfold known. rewrite existsb_exists. split.
  - intros (x & Hx & E). apply String.eqb_eq in E. now subst.
  - intros Hi. exists i. split; [assumption|apply String.eqb_refl].
Qed.

Section MemoryReorder.
Import MemoryScreens.

Lemma modify_found_ids (i : string) (f : ScreenConfig -> ScreenConfig)
  (screens : list ScreenConfig) :
  (forall s, id (f s) = id s) ->
  map id (modify_found i f screens) = map id screens.
Proof.
  intros Hf. induction screens as [|s t IH]; simpl; [reflexivity|].
  destruct (String.eqb (id s) i); simpl.
  - now rewrite Hf.
  - now rewrite IH.
Qed.

Lemma apply_update_ids (now : Timestamp) (screens : list ScreenConfig)
  (u : string * Z) :
  map id (apply_update now screens u) = map id screens.
Proof. apply modify_found_ids. reflexivity. Qed.

Lemma fold_updates_ids (now : Timestamp) (input : list (string * Z))
  (screens : list ScreenConfig) :
  map id (fold_left (apply_update now) input screens) = map id screens.
Proof.
  revert screens. induction input as [|u rest IH]; intros screens; simpl.
  - reflexivity.
  - now rewrite IH, apply_update_ids.
Qed.

(** An update naming an id the array does not hold changes nothing. *)
Lemma modify_found_unknown (i : string) (f : ScreenConfig -> ScreenConfig)
  (screens : list ScreenConfig) :
  known (map id screens) i = false -> modify_found i f screens = screens.
Proof.
  induction screens as [|s t IH]; simpl; [reflexivity|].
  rewrite String.eqb_sym. destruct (String.eqb (id s) i); simpl.
  - discriminate.
  - intros H. now rewrite IH.
Qed.

Lemma fold_updates_known (now : Timestamp) (input : list (string * Z))
  (screens : list ScreenConfig) :
  fold_left (apply_update now) input screens
  = fold_left (apply_update now)
      (filter (fun u => known (map id screens) (fst u)) input) screens.
Proof.
  revert screens. induction input as [|u rest IH]; intros screens; simpl.
  - reflexivity.
  - destruct (known (map id screens) (fst u)) eqn:K; simpl.
    + rewrite IH, apply_update_ids. reflexivity.
    + replace (apply_update now screens u) with screens; [apply IH|].
      symmetry. now apply modify_found_unknown.
Qed.

Lemma modify_found_nodup (i : string) (f : ScreenConfig -> ScreenConfig)
  (screens : list ScreenConfig) :
  NoDup (map id screens) ->
  modify_found i f screens
  = map (fun s => if String.eqb (id s) i then f s else s) screens.
Proof.
  induction screens as [|s t IH]; simpl; [reflexivity|].
  intros Hnd. inversion Hnd as [|? ? Hnotin Hnd']; subst.
  destruct (String.eqb (id s) i) eqn:E.
  - f_equal. apply String.eqb_eq in E. subst i.
    clear IH Hnd Hnd'. induction t as [|x t IHt]; simpl; [reflexivity|].
    simpl in Hnotin.
    destruct (String.eqb (id x) (id s)) eqn:E'.
    + apply String.eqb_eq in E'. exfalso. apply Hnotin. now left.
    + f_equal. apply IHt. intros Hin. apply Hnotin. now right.
  - f_equal. now apply IH.
Qed.

Lemma fold_updates_nodup (now : Timestamp) (input : list (string * Z))
  (screens : list ScreenConfig) :
  NoDup (map id screens) ->
  fold_left (apply_update now) input screens
  = map (reorder_screen now input) screens.
Proof.
  revert screens. induction input as [|[j p] rest IH]; intros screens Hnd.
  - simpl. symmetry. unfold reorder_screen. simpl. apply map_id.
  - simpl fold_left. rewrite IH by (now rewrite apply_update_ids).
    unfold apply_update. cbn [fst snd].
    rewrite modify_found_nodup by exact Hnd. rewrite map_map.
    apply map_ext. intros s. unfold reorder_screen. cbn [last_update].
    destruct (String.eqb (id s) j) eqn:E.
    + cbn [set_position id].
      rewrite String.eqb_sym, E.
      destruct (last_update (id s) rest); reflexivity.
    + rewrite String.eqb_sym, E.
      destruct (last_update (id s) rest); reflexivity.
Qed.
End MemoryReorder.

Section StoreReorder.
Import Prisma.

Lemma update_row_ids (now : Timestamp) (i : string) (d : TvData)
  (rows : list Tv) :
  map id (update_row now i d rows) = map id rows.
Proof.
  induction rows as [|r t IH]; simpl; [reflexivity|].
  destruct (String.eqb (id r) i); simpl; [reflexivity|now rewrite IH].
Qed.

Lemma find_id_known (i : string) (rows : list Tv) :
  known (map id rows) i = true -> exists r, find_id i rows = Some r.
Proof.
  induction rows as [|r t IH]; simpl; [discriminate|].
  rewrite String.eqb_sym. destruct (String.eqb (id r) i); simpl.
  - intros _. now exists r.
  - exact IH.
Qed.

Lemma find_id_unknown (i : string) (rows : list Tv) :
  known (map id rows) i = false -> find_id i rows = None.
Proof.
  induction rows as [|r t IH]; simpl; [reflexivity|].
  rewrite String.eqb_sym. destruct (String.eqb (id r) i); simpl.
  - discriminate.
  - exact IH.
Qed.

Lemma update_row_nodup (now : Timestamp) (i : string) (d : TvData)
  (rows : list Tv) :
  NoDup (map id rows) ->
  update_row now i d rows
  = map (fun r => if String.eqb (id r) i then apply_data now d r else r)
        rows.
Proof.
  induction rows as [|r t IH]; simpl; [reflexivity|].
  intros Hnd. inversion Hnd as [|? ? Hnotin Hnd']; subst.
  destruct (String.eqb (id r) i) eqn:E.
  - f_equal. apply String.eqb_eq in E. subst i.
    clear IH Hnd Hnd'. induction t as [|x t IHt]; simpl; [reflexivity|].
    simpl in Hnotin.
    destruct (String.eqb (id x) (id r)) eqn:E'.
    + apply String.eqb_eq in E'. exfalso. apply Hnotin. now left.
    + f_equal. apply IHt. intros Hin. apply Hnotin. now right.
  - f_equal. now apply IH.
Qed.

Lemma batch_updates_ok (input : list (string * Z)) (now : Timestamp)
  (db : Db) :
  forallb (fun u => known (map id (tv db)) (fst u)) input = true ->
  exists l,
    run_batch (position_updates input) now db
    = Ok (mkDb (fold_left (write_position now) input (tv db)) (layout db),
          l).
Proof.
  revert db. induction input as [|u rest IH]; intros [rows layouts]; simpl.
  - intros _. now exists [].
  - intros H. apply andb_true_iff in H as [Hu Hrest].
    unfold tv_update at 1. cbn [tv layout].
    destruct (find_id_known _ _ Hu) as (r & ->).
    destruct (IH (mkDb (update_row now (fst u) (dataPosition (snd u)) rows)
                       layouts)) as (l & ->).
    + cbn [tv]. now rewrite update_row_ids.
    + eexists. reflexivity.
Qed.

Lemma batch_updates_err (input : list (string * Z)) (now : Timestamp)
  (db : Db) :
  forallb (fun u => known (map id (tv db)) (fst u)) input = false ->
  run_batch (position_updates input) now db = Err RecordNotFound.
Proof.
  revert db. induction input as [|u rest IH]; intros [rows layouts]; simpl.
  - discriminate.
  - intros H. unfold tv_update at 1. cbn [tv layout].
    destruct (known (map id rows) (fst u)) eqn:Hu.
    + destruct (find_id_known _ _ Hu) as (r & ->).
      rewrite IH; [reflexivity|].
      cbn [tv]. now rewrite update_row_ids.
    + now rewrite (find_id_unknown _ _ Hu).
Qed.

Lemma fold_writes_ids (now : Timestamp) (input : list (string * Z))
  (rows : list Tv) :
  map id (fold_left (write_position now) input rows) = map id rows.
Proof.
  revert rows. induction input as [|u rest IH]; intros rows; simpl.
  - reflexivity.
  - rewrite IH. apply update_row_ids.
Qed.

Lemma fold_writes_nodup (now : Timestamp) (input : list (string * Z))
  (rows : list Tv) :
  NoDup (map id rows) ->
  fold_left (write_position now) input rows
  = map (reorder_row now input) rows.
Proof.
  revert rows. induction input as [|[j p] rest IH]; intros rows Hnd.
  - simpl. symmetry. unfold reorder_row. simpl. apply map_id.
  - simpl fold_left. unfold write_position at 2. cbn [fst snd].
    rewrite IH by (now rewrite update_row_ids).
    rewrite update_row_nodup by exact Hnd. rewrite map_map.
    apply map_ext. intros r. unfold reorder_row. cbn [last_update].
    destruct (String.eqb (id r) j) eqn:E.
    + cbn [apply_data id]. rewrite String.eqb_sym, E.
      destruct (last_update (id r) rest); reflexivity.
    + rewrite String.eqb_sym, E.
      destruct (last_update (id r) rest); reflexivity.
Qed.

(** [updateOrder] on the store: the whole batch or nothing. *)
Lemma updateOrder_known (input : list (string * Z)) (now : Timestamp)
  (db : Db) :
  forallb (fun u => known (map id (tv db)) (fst u)) input = true ->
  ScreenRouter.updateOrder input now db
  = (mkDb (fold_left (write_position now) input (tv db)) (layout db),
     Ok (sort_by_position (fold_left (write_position now) input (tv db)))).
Proof.
  intros H. destruct (batch_updates_ok input now db H) as (l & Hl).
  unfold ScreenRouter.updateOrder, bind at 1, await at 1, transaction.
  fold (position_updates input). rewrite Hl. apply findMany_all.
Qed.

Lemma updateOrder_unknown (input : list (string * Z)) (now : Timestamp)
  (db : Db) :
  forallb (fun u => known (map id (tv db)) (fst u)) input = false ->
  ScreenRouter.updateOrder input now db = (db, Err RecordNotFound).
Proof.
  intros H.
  unfold ScreenRouter.updateOrder, bind at 1, await at 1, transaction.
  fold (position_updates input). now rewrite batch_updates_err.
Qed.
End StoreReorder.

(** C5 (as stated) fails on the database form: a batch naming the
    unknown id "9" next to the known id "1" raises, and the update of
    "1" is not applied either. *)
Lemma reorder_unknown_id_raises :
  known (map Prisma.id (seeded 100)) "9" = false
  /\ known (map Prisma.id (seeded 100)) "1" = true
  /\ ScreenRouter.updateOrder [("1", 3); ("9", 1)] 200
       (Prisma.mkDb (seeded 100) [])
     = (Prisma.mkDb (seeded 100) [], Err RecordNotFound).
Proof. repeat split. Qed.

(** C5, amended.  In the in-memory form [updateOrder] never fails, pairs
    naming an id the array does not hold have no effect, the set of ids
    is unchanged, every screen takes the position of the last pair naming
    it, and the answer is the array in ascending position order.  In the
    database form a batch whose ids all exist is applied in the same way
    and answered in ascending position order, and a batch naming an id
    that does not exist fails with the record-not-found error and leaves
    the store as it was; neither form adds a row. *)
Theorem reorder_by_variant :
  (forall input now screens,
      exists rows,
        MemoryScreens.updateOrder input now screens = (rows, Ok rows)
        /\ map MemoryScreens.id
             (fold_left (MemoryScreens.apply_update now) input screens)
           = map MemoryScreens.id screens
        /\ Permutation rows
             (fold_left (MemoryScreens.apply_update now) input screens)
        /\ ascending MemoryScreens.position rows
        /\ MemoryScreens.updateOrder input now screens
           = MemoryScreens.updateOrder
               (filter (fun u => known (map MemoryScreens.id screens) (fst u))
                       input)
               now screens
        /\ (NoDup (map MemoryScreens.id screens) ->
            Permutation rows (map (reorder_screen now input) screens)))
  /\ (forall input now db,
         forallb (fun u => known (map Prisma.id (Prisma.tv db)) (fst u)) input
         = true ->
         exists rows db',
           ScreenRouter.updateOrder input now db = (db', Ok rows)
           /\ map Prisma.id (Prisma.tv db') = map Prisma.id (Prisma.tv db)
           /\ Prisma.layout db' = Prisma.layout db
           /\ Permutation rows (Prisma.tv db')
           /\ ascending Prisma.position rows
           /\ (NoDup (map Prisma.id (Prisma.tv db)) ->
               Prisma.tv db' = map (reorder_row now input) (Prisma.tv db)))
  /\ (forall input now db,
         forallb (fun u => known (map Prisma.id (Prisma.tv db)) (fst u)) input
         = false ->
         ScreenRouter.updateOrder input now db = (db, Err RecordNotFound)).
Proof.
  split; [|split].
  - intros input now screens. eexists. split; [reflexivity|].
    split; [apply fold_updates_ids|].
    split; [apply sort_by_perm|].
    split; [apply sort_by_ascending|].
    split.
    + unfold MemoryScreens.updateOrder.
      now rewrite <- fold_updates_known.
    + intros Hnd. rewrite <- fold_updates_nodup by exact Hnd.
      apply sort_by_perm.
  - intros input now db H. do 2 eexists.
    split; [now apply updateOrder_known|]. cbn [Prisma.tv Prisma.layout].
    split; [apply fold_writes_ids|].
    split; [reflexivity|].
    split; [apply sort_by_perm|].
    split; [apply sort_by_ascending|].
    apply fold_writes_nodup.
  - intros input now db H. now apply updateOrder_unknown.
Qed.

Lemma reorder_by_variant_witness :
  (exists rows,
      Permutation rows
        (map (reorder_screen 200 [("1", 3); ("9", 7); ("2", 1); ("3", 2)])
             (MemoryScreens.screens0 100)))
  /\ (exists rows db',
         ScreenRouter.updateOrder [("1", 3); ("2", 1); ("3", 2)] 200
           (Prisma.mkDb (seeded 100) []) = (db', Ok rows)
         /\ map Prisma.id rows = ["2"; "3"; "1"])
  /\ ScreenRouter.updateOrder [("9", 1)] 200 (Prisma.mkDb (seeded 100) [])
     = (Prisma.mkDb (seeded 100) [], Err RecordNotFound).
Proof.
  destruct reorder_by_variant as (Hmem & Hok & Herr).
  split; [|split].
  - destruct (Hmem [("1", 3); ("9", 7); ("2", 1); ("3", 2)] 200
                (MemoryScreens.screens0 100))
      as (rows & _ & _ & _ & _ & _ & Hperm).
    exists rows. apply Hperm. simpl.
    repeat constructor; simpl; intuition discriminate.
  - destruct (Hok [("1", 3); ("2", 1); ("3", 2)] 200
                (Prisma.mkDb (seeded 100) []) eq_refl)
      as (rows & db' & Heq & _).
    exists rows, db'. split; [exact Heq|].
    vm_compute in Heq. inversion Heq. reflexivity.
  - apply (Herr [("9", 1)] 200 (Prisma.mkDb (seeded 100) [])). reflexivity.
Defined.

(** ** Image assignment *)

Section StoreImages.
Import Prisma.

Lemma find_id_update_same (now : Timestamp) (i : string) (d : TvData)
  (rows : list Tv) :
  find_id i (update_row now i d rows)
  = option_map (apply_data now d) (find_id i rows).
Proof.
  induction rows as [|r t IH]; simpl; [reflexivity|].
  destruct (String.eqb (id r) i) eqn:E; simpl.
  - now rewrite E.
  - now rewrite E.
Qed.

Lemma find_id_update_other (now : Timestamp) (i j : string) (d : TvData)
  (rows : list Tv) :
  String.eqb j i = false ->
  find_id i (update_row now j d rows) = find_id i rows.
Proof.
  intros Hji. induction rows as [|r t IH]; simpl; [reflexivity|].
  destruct (String.eqb (id r) j) eqn:E; simpl.
  - apply String.eqb_eq in E. rewrite E, Hji. reflexivity.
  - now rewrite IH.
Qed.

Variable URL_ok : string -> bool.

Lemma imageUrl_schema_spec (u : option string) :
  ScreenRouter.imageUrl_schema URL_ok u = true
  <-> u = None \/ u = Some ""
      \/ exists s, u = Some s
                   /\ (URL_ok s = true \/ Js.startsWith s "/" = true).
Proof.
  destruct u as [val|]; simpl.
  - unfold ScreenRouter.imageUrl_refine. split.
    + destruct val as [|c rest]; simpl; [now auto|].
      destruct (URL_ok (String c rest)) eqn:E; intros H; right; right;
        eexists; (split; [reflexivity|]); auto.
    + intros [H|[H|(s & H & Hs)]]; [discriminate| |]; inversion H; subst.
      * reflexivity.
      * destruct (Js.falsy s); [reflexivity|].
        destruct Hs as [-> | ->]; [reflexivity|].
        now destruct (URL_ok s).
  - split; auto.
Qed.

Lemma updateImage_valid (i : string) (u : option string) (now : Timestamp)
  (db : Db) (r : Tv) :
  ScreenRouter.imageUrl_schema URL_ok u = true ->
  find_id i (tv db) = Some r ->
  ScreenRouter.updateImage URL_ok i u now db
  = (mkDb (update_row now i (dataImageUrl u) (tv db)) (layout db),
     Ok (apply_data now (dataImageUrl u) r)).
Proof.
  intros Hv Hr. unfold ScreenRouter.updateImage, withInput.
  rewrite Hv. unfold await, tv_update. now rewrite Hr.
Qed.

Lemma updateImage_invalid (i : string) (u : option string)
  (now : Timestamp) (db : Db) :
  ScreenRouter.imageUrl_schema URL_ok u = false ->
  ScreenRouter.updateImage URL_ok i u now db
  = (db, Err (BadRequest
       "Image URL must be a valid URL or a relative path starting with '/'")).
Proof.
  intros Hv. unfold ScreenRouter.updateImage, withInput.
  now rewrite Hv.
Qed.
End StoreImages.

(** C2 (as stated) fails on the database form: the empty string is not
    null, has no scheme and does not begin with "/", and [updateImage]
    stores it. *)
Lemma setImage_accepts_empty_string :
  Some "" <> (None : option string)
  /\ Url.has_scheme "" = false
  /\ Js.startsWith "" "/" = false
  /\ ScreenRouter.updateImage Url.has_scheme "1" (Some "") 200
       (Prisma.mkDb (seeded 100) [])
     = (Prisma.mkDb
          [ Prisma.mkTv "1" 1 (Some "") 200 100;
            Prisma.mkTv "2" 2 (Some "/image2.png") 100 100;
            Prisma.mkTv "3" 3 (Some "/image3.png") 100 100 ] [],
        Ok (Prisma.mkTv "1" 1 (Some "") 200 100)).
Proof. repeat split. discriminate. Qed.

(** C2, amended.  On an existing screen the database form of [setImage]
    ([updateImage]) succeeds exactly when the value is null, the empty
    string, a string the URL constructor accepts, or a string beginning
    with "/", and otherwise fails with the validation error and leaves
    the store as it was; so "not a url" is refused and
    "/relative/path.png", "https://example.com/x.png" and null are
    accepted.  The in-memory form accepts exactly null and the strings
    the URL constructor accepts. *)
Theorem setImage_validation :
  (forall URL_ok i u now db,
      known (map Prisma.id (Prisma.tv db)) i = true ->
      (isOk (snd (ScreenRouter.updateImage URL_ok i u now db)) = true
       <-> u = None \/ u = Some ""
           \/ exists s, u = Some s
                        /\ (URL_ok s = true \/ Js.startsWith s "/" = true))
      /\ (isOk (snd (ScreenRouter.updateImage URL_ok i u now db)) = false ->
          exists message,
            ScreenRouter.updateImage URL_ok i u now db
            = (db, Err (BadRequest message))))
  /\ (forall i now db,
         known (map Prisma.id (Prisma.tv db)) i = true ->
         isOk (snd (ScreenRouter.updateImage Url.has_scheme i
                      (Some "not a url") now db)) = false
         /\ isOk (snd (ScreenRouter.updateImage Url.has_scheme i
                         (Some "/relative/path.png") now db)) = true
         /\ isOk (snd (ScreenRouter.updateImage Url.has_scheme i
                         (Some "https://example.com/x.png") now db)) = true
         /\ isOk (snd (ScreenRouter.updateImage Url.has_scheme i
                         None now db)) = true)
  /\ (forall URL_ok i u now screens,
         isOk (snd (MemoryScreens.updateImage URL_ok i u now screens)) = true
         <-> u = None \/ exists s, u = Some s /\ URL_ok s = true).
Proof.
  assert (Hgen : forall URL_ok i u now db,
             known (map Prisma.id (Prisma.tv db)) i = true ->
             isOk (snd (ScreenRouter.updateImage URL_ok i u now db))
             = ScreenRouter.imageUrl_schema URL_ok u).
  { intros URL_ok i u now db Hk.
    destruct (find_id_known _ _ Hk) as (r & Hr).
    destruct (ScreenRouter.imageUrl_schema URL_ok u) eqn:Hv.
    - now rewrite (updateImage_valid URL_ok i u now db r Hv Hr).
    - now rewrite (updateImage_invalid URL_ok i u now db Hv). }
  split; [|split].
  - intros URL_ok i u now db Hk. rewrite (Hgen _ _ _ _ _ Hk). split.
    + apply imageUrl_schema_spec.
    + intros Hv. eexists. now apply updateImage_invalid.
  - intros i now db Hk. rewrite !(Hgen _ _ _ _ _ Hk). repeat split.
  - intros URL_ok i u now screens. unfold MemoryScreens.updateImage.
    destruct u as [s|]; simpl.
    + destruct (URL_ok s) eqn:E; simpl.
      * split; [intros _; right; now exists s|reflexivity].
      * split; [discriminate|].
        intros [H|(s' & H & Hs)]; [discriminate|].
        inversion H; subst. congruence.
    + split; [now left|reflexivity].
Qed.

Lemma setImage_validation_witness :
  isOk (snd (ScreenRouter.updateImage Url.has_scheme "2"
               (Some "not a url") 200 (Prisma.mkDb (seeded 100) []))) = false
  /\ isOk (snd (ScreenRouter.updateImage Url.has_scheme "2"
                  (Some "/relative/path.png") 200
                  (Prisma.mkDb (seeded 100) []))) = true.
Proof.
  destruct setImage_validation as (_ & Hex & _).
  destruct (Hex "2" 200 (Prisma.mkDb (seeded 100) []) eq_refl)
    as (H1 & H2 & _).
  split; assumption.
Defined.

(** C10. On an existing screen the database form of [setImage] accepts
    the empty string, whatever the URL constructor makes of it, because
    the validator lets every falsy string through first; the empty
    string is stored as the screen's [imageUrl], although it is not
    null, has no scheme and does not begin with "/". *)
Theorem setImage_stores_empty_string :
  forall URL_ok i now db,
    known (map Prisma.id (Prisma.tv db)) i = true ->
    (forall val, Js.falsy val = true ->
                 ScreenRouter.imageUrl_refine URL_ok val = true)
    /\ Js.falsy "" = true
    /\ Some "" <> (None : option string)
    /\ Url.has_scheme "" = false
    /\ Js.startsWith "" "/" = false
    /\ exists row db',
        ScreenRouter.updateImage URL_ok i (Some "") now db = (db', Ok row)
        /\ Prisma.imageUrl row = Some ""
        /\ Prisma.find_id i (Prisma.tv db') = Some row.
Proof.
  intros URL_ok i now db Hk.
  split; [intros val Hf; unfold ScreenRouter.imageUrl_refine; now rewrite Hf|].
  repeat (split; [reflexivity || discriminate|]).
  destruct (find_id_known _ _ Hk) as (r & Hr).
  do 2 eexists.
  split; [exact (updateImage_valid URL_ok i (Some "") now db r eq_refl Hr)|].
  split; [reflexivity|]. cbn [Prisma.tv].
  rewrite find_id_update_same, Hr. reflexivity.
Qed.

Lemma setImage_stores_empty_string_witness :
  exists row db',
    ScreenRouter.updateImage Url.has_scheme "3" (Some "") 200
      (Prisma.mkDb (seeded 100) []) = (db', Ok row)
    /\ Prisma.imageUrl row = Some ""
    /\ Prisma.find_id "3" (Prisma.tv db') = Some row.
Proof.
  apply (setImage_stores_empty_string Url.has_scheme "3" 200
           (Prisma.mkDb (seeded 100) []) eq_refl).
Defined.

(** ** Layouts *)

Section Layouts.
Import Prisma.

Lemma name_schema_spec (n : string) :
  LayoutRouter.name_schema n = true <-> n <> "".
Proof.
  destruct n as [|c rest]; cbn.
  - split; [discriminate|intros H; now elim H].
  - split; [discriminate|reflexivity].
Qed.

Lemma save_valid (nanoid n : string) (u1 u2 u3 : option string)
  (now : Timestamp) (db : Db) :
  n <> "" ->
  find_layout nanoid (layout db) = None ->
  LayoutRouter.save nanoid n u1 u2 u3 now db
  = (mkDb (tv db) (layout db ++ [mkLayout nanoid n u1 u2 u3 now now]),
     Ok (mkLayout nanoid n u1 u2 u3 now now)).
Proof.
  intros Hn Hfresh. unfold LayoutRouter.save, withInput.
  rewrite (proj2 (name_schema_spec n) Hn).
  unfold await, layout_create. now rewrite Hfresh.
Qed.

Lemma save_keeps_registry (nanoid n : string) (u1 u2 u3 : option string)
  (now : Timestamp) (db : Db) :
  tv (fst (LayoutRouter.save nanoid n u1 u2 u3 now db)) = tv db.
Proof.
  unfold LayoutRouter.save, withInput.
  destruct (LayoutRouter.name_schema n); [|reflexivity].
  unfold await, layout_create.
  destruct (find_layout nanoid (layout db)); reflexivity.
Qed.

Lemma find_layout_last (i : string) (l : Layout) (rows : list Layout) :
  find_layout i rows = None ->
  l_id l = i ->
  find_layout i (rows ++ [l]) = Some l.
Proof.
  intros Hnone Hid. induction rows as [|h t IH]; simpl in *.
  - now rewrite Hid, String.eqb_refl.
  - destruct (String.eqb (l_id h) i); [discriminate|now apply IH].
Qed.

(** The statements [restore] hands to [$transaction]. *)
Lemma restore_batch (l : Layout) (now : Timestamp) (db : Db) :
  known (map id (tv db)) "1" = true ->
  known (map id (tv db)) "2" = true ->
  known (map id (tv db)) "3" = true ->
  exists rs,
    run_batch
      [ tv_update "1" (dataImageUrl (tv1Url l));
        tv_update "2" (dataImageUrl (tv2Url l));
        tv_update "3" (dataImageUrl (tv3Url l)) ] now db
    = Ok (mkDb (update_row now "3" (dataImageUrl (tv3Url l))
                 (update_row now "2" (dataImageUrl (tv2Url l))
                    (update_row now "1" (dataImageUrl (tv1Url l))
                       (tv db))))
               (layout db), rs).
Proof.
  intros K1 K2 K3. cbn [run_batch]. unfold tv_update at 1.
  destruct (find_id_known _ _ K1) as (r1 & ->).
  unfold tv_update at 1. cbn [tv layout].
  destruct (find_id_known "2"
              (update_row now "1" (dataImageUrl (tv1Url l)) (tv db)))
    as (r2 & ->); [now rewrite update_row_ids|].
  unfold tv_update at 1. cbn [tv layout].
  destruct (find_id_known "3"
              (update_row now "2" (dataImageUrl (tv2Url l))
                 (update_row now "1" (dataImageUrl (tv1Url l)) (tv db))))
    as (r3 & ->); [now rewrite !update_row_ids|].
  eexists. reflexivity.
Qed.

Lemma restore_unfold (i : string) (now : Timestamp) (db : Db) :
  LayoutRouter.restore i now db
  = match find_layout i (layout db) with
    | None => (db, Err (Thrown "Layout not found"))
    | Some l =>
        match run_batch
                [ tv_update "1" (dataImageUrl (tv1Url l));
                  tv_update "2" (dataImageUrl (tv2Url l));
                  tv_update "3" (dataImageUrl (tv3Url l)) ] now db with
        | Ok (db', _) => (db', Ok (sort_by_position (tv db')))
        | Err e => (db, Err e)
        end
    end.
Proof.
  unfold LayoutRouter.restore, bind, await, layout_findUnique, transaction,
    tv_findMany, throw.
  destruct (find_layout i (layout db)) as [l|]; [|reflexivity].
  destruct (run_batch _ now db) as [[db' rs]|e]; [|reflexivity].
  now rewrite filter_all_rows.
Qed.

Lemma restore_found (i : string) (l : Layout) (now : Timestamp) (db : Db) :
  find_layout i (layout db) = Some l ->
  known (map id (tv db)) "1" = true ->
  known (map id (tv db)) "2" = true ->
  known (map id (tv db)) "3" = true ->
  let rows :=
    update_row now "3" (dataImageUrl (tv3Url l))
      (update_row now "2" (dataImageUrl (tv2Url l))
         (update_row now "1" (dataImageUrl (tv1Url l)) (tv db))) in
  LayoutRouter.restore i now db
  = (mkDb rows (layout db), Ok (sort_by_position rows)).
Proof.
  intros Hl K1 K2 K3 rows.
  destruct (restore_batch l now db K1 K2 K3) as (rs & Hrs).
  rewrite restore_unfold, Hl, Hrs. reflexivity.
Qed.

(** Whatever [restore] answers, a failure leaves the store untouched. *)
Lemma restore_atomic (i : string) (now : Timestamp) (db : Db) :
  (exists rows db', LayoutRouter.restore i now db = (db', Ok rows))
  \/ (exists e, LayoutRouter.restore i now db = (db, Err e)).
Proof.
  rewrite restore_unfold.
  destruct (find_layout i (layout db)) as [l|]; [|right; eauto].
  destruct (run_batch _ now db) as [[db' rs]|e]; [left|right]; eauto.
Qed.

Lemma updateOrder_atomic (input : list (string * Z)) (now : Timestamp)
  (db : Db) :
  (exists rows db', ScreenRouter.updateOrder input now db = (db', Ok rows))
  \/ (exists e, ScreenRouter.updateOrder input now db = (db, Err e)).
Proof.
  destruct (forallb (fun u => known (map id (tv db)) (fst u)) input) eqn:K.
  - left. rewrite updateOrder_known by exact K. eauto.
  - right. rewrite updateOrder_unknown by exact K. eauto.
Qed.
End Layouts.

(** C6 (as stated) fails: [save] stores a URL field that the
    [imageUrl] rule of the screen router refuses. *)
Lemma save_accepts_any_url :
  ScreenRouter.imageUrl_schema Url.has_scheme (Some "not a url") = false
  /\ LayoutRouter.save "V1StGXR8_Z5jdHi6B-myT" "Evening"
       (Some "not a url") None None 200 (Prisma.mkDb (seeded 100) [])
     = (Prisma.mkDb (seeded 100)
          [ Prisma.mkLayout "V1StGXR8_Z5jdHi6B-myT" "Evening"
              (Some "not a url") None None 200 200 ],
        Ok (Prisma.mkLayout "V1StGXR8_Z5jdHi6B-myT" "Evening"
              (Some "not a url") None None 200 200)).
Proof. split; reflexivity. Qed.

(** C6, amended.  [save] refuses exactly the empty name, with the
    validation error "Layout name is required"; with a non-empty name
    and a fresh identifier it stores the three URL fields as given,
    whatever strings they are, and returns the created layout; in every
    case the screen registry is left as it was. *)
Theorem save_validates_name_only :
  forall nanoid n u1 u2 u3 now db,
    Prisma.tv (fst (LayoutRouter.save nanoid n u1 u2 u3 now db))
    = Prisma.tv db
    /\ (LayoutRouter.save nanoid n u1 u2 u3 now db
        = (db, Err (BadRequest "Layout name is required"))
        <-> n = "")
    /\ (n <> "" ->
        Prisma.find_layout nanoid (Prisma.layout db) = None ->
        LayoutRouter.save nanoid n u1 u2 u3 now db
        = (Prisma.mkDb (Prisma.tv db)
             (Prisma.layout db
              ++ [Prisma.mkLayout nanoid n u1 u2 u3 now now]),
           Ok (Prisma.mkLayout nanoid n u1 u2 u3 now now))).
Proof.
  intros nanoid n u1 u2 u3 now db.
  split; [apply save_keeps_registry|].
  split; [|apply save_valid].
  split.
  - destruct n as [|c rest]; [reflexivity|].
    unfold LayoutRouter.save, withInput, await, Prisma.layout_create.
    cbn [LayoutRouter.name_schema String.length Nat.leb].
    destruct (Prisma.find_layout nanoid (Prisma.layout db)); discriminate.
  - intros ->. reflexivity.
Qed.

Lemma save_validates_name_only_witness :
  LayoutRouter.save "V1StGXR8_Z5jdHi6B-myT" "Evening"
    (Some "ftp:/x y") (Some "") None 200 (Prisma.mkDb (seeded 100) [])
  = (Prisma.mkDb (seeded 100)
       [ Prisma.mkLayout "V1StGXR8_Z5jdHi6B-myT" "Evening"
           (Some "ftp:/x y") (Some "") None 200 200 ],
     Ok (Prisma.mkLayout "V1StGXR8_Z5jdHi6B-myT" "Evening"
           (Some "ftp:/x y") (Some "") None 200 200)).
Proof.
  apply (save_validates_name_only "V1StGXR8_Z5jdHi6B-myT" "Evening"
           (Some "ftp:/x y") (Some "") None 200
           (Prisma.mkDb (seeded 100) [])).
  - discriminate.
  - reflexivity.
Defined.

(** C4 (as stated) fails before the registry is seeded.  [restore]
    does not call [initializeTVs]: on the empty tables, where no
    [getAll] has run yet, [save] succeeds and [restore] of the layout
    it returned raises the record-not-found error of its first update,
    and the registry stays empty. *)
Lemma restore_before_seeding_fails :
  LayoutRouter.save "V1StGXR8_Z5jdHi6B-myT" "Evening"
    (Some "/a.png") (Some "/b.png") None 200 Prisma.empty
  = (Prisma.mkDb []
       [ Prisma.mkLayout "V1StGXR8_Z5jdHi6B-myT" "Evening"
           (Some "/a.png") (Some "/b.png") None 200 200 ],
     Ok (Prisma.mkLayout "V1StGXR8_Z5jdHi6B-myT" "Evening"
           (Some "/a.png") (Some "/b.png") None 200 200))
  /\ LayoutRouter.restore "V1StGXR8_Z5jdHi6B-myT" 300
       (Prisma.mkDb []
          [ Prisma.mkLayout "V1StGXR8_Z5jdHi6B-myT" "Evening"
              (Some "/a.png") (Some "/b.png") None 200 200 ])
     = (Prisma.mkDb []
          [ Prisma.mkLayout "V1StGXR8_Z5jdHi6B-myT" "Evening"
              (Some "/a.png") (Some "/b.png") None 200 200 ],
        Err RecordNotFound).
Proof. split; reflexivity. Qed.

(** C4, amended.  With screens "1", "2" and "3" in the registry, [save]
    under a non-empty name and a fresh identifier returns a layout, and
    [restore] of that layout's id succeeds and leaves screen "1" with
    the first URL field, screen "2" with the second and screen "3" with
    the third; the list it returns is the refreshed registry in
    ascending position order, and the layouts are not touched. *)
Theorem save_restore_roundtrip :
  forall nanoid n u1 u2 u3 t1 t2 db,
    n <> "" ->
    Prisma.find_layout nanoid (Prisma.layout db) = None ->
    known (map Prisma.id (Prisma.tv db)) "1" = true ->
    known (map Prisma.id (Prisma.tv db)) "2" = true ->
    known (map Prisma.id (Prisma.tv db)) "3" = true ->
    exists l db1 rows db2,
      LayoutRouter.save nanoid n u1 u2 u3 t1 db = (db1, Ok l)
      /\ LayoutRouter.restore (Prisma.l_id l) t2 db1 = (db2, Ok rows)
      /\ option_map Prisma.imageUrl (Prisma.find_id "1" (Prisma.tv db2))
         = Some u1
      /\ option_map Prisma.imageUrl (Prisma.find_id "2" (Prisma.tv db2))
         = Some u2
      /\ option_map Prisma.imageUrl (Prisma.find_id "3" (Prisma.tv db2))
         = Some u3
      /\ Permutation rows (Prisma.tv db2)
      /\ ascending Prisma.position rows
      /\ Prisma.layout db2 = Prisma.layout db1.
Proof.
  intros nanoid n u1 u2 u3 t1 t2 db Hn Hfresh K1 K2 K3.
  do 4 eexists.
  split; [now apply save_valid|].
  split.
  { cbn [Prisma.l_id].
    apply (restore_found nanoid
             (Prisma.mkLayout nanoid n u1 u2 u3 t1 t1));
      cbn [Prisma.tv Prisma.layout];
      try assumption.
    now apply find_layout_last. }
  cbn [Prisma.tv Prisma.layout Prisma.tv1Url Prisma.tv2Url Prisma.tv3Url].
  destruct (find_id_known _ _ K1) as (r1 & H1).
  destruct (find_id_known _ _ K2) as (r2 & H2).
  destruct (find_id_known _ _ K3) as (r3 & H3).
  repeat split.
  - rewrite !find_id_update_other by reflexivity.
    rewrite find_id_update_same, H1. reflexivity.
  - rewrite find_id_update_other by reflexivity.
    rewrite find_id_update_same.
    rewrite find_id_update_other by reflexivity.
    rewrite H2. reflexivity.
  - rewrite find_id_update_same.
    rewrite !find_id_update_other by reflexivity.
    rewrite H3. reflexivity.
  - apply sort_by_perm.
  - apply sort_by_ascending.
Qed.

Lemma save_restore_roundtrip_witness :
  exists l db1 rows db2,
    LayoutRouter.save "V1StGXR8_Z5jdHi6B-myT" "Evening"
      (Some "/a.png") (Some "/b.png") None 200
      (Prisma.mkDb (seeded 100) []) = (db1, Ok l)
    /\ LayoutRouter.restore (Prisma.l_id l) 300 db1 = (db2, Ok rows)
    /\ option_map Prisma.imageUrl (Prisma.find_id "1" (Prisma.tv db2))
       = Some (Some "/a.png")
    /\ option_map Prisma.imageUrl (Prisma.find_id "2" (Prisma.tv db2))
       = Some (Some "/b.png")
    /\ option_map Prisma.imageUrl (Prisma.find_id "3" (Prisma.tv db2))
       = Some None
    /\ Permutation rows (Prisma.tv db2)
    /\ ascending Prisma.position rows
    /\ Prisma.layout db2 = Prisma.layout db1.
Proof.
  apply (save_restore_roundtrip "V1StGXR8_Z5jdHi6B-myT" "Evening"
           (Some "/a.png") (Some "/b.png") None 200 300
           (Prisma.mkDb (seeded 100) []));
    [discriminate|reflexivity..].
Defined.

(** ** Batches *)

Section Reach.
Import Prisma.

Lemma tv_update_in_place (i : string) (d : TvData) :
  in_place (tv_update i d).
Proof.
  intros now db db' a. unfold tv_update.
  destruct (find_id i (tv db)); [|discriminate].
  intros H. inversion H; subst. cbn [tv layout].
  split; [apply update_row_ids|reflexivity].
Qed.

Lemma run_batch_in_place {A} (stmts : list (Stmt A)) :
  Forall in_place stmts -> in_place (run_batch stmts).
Proof.
  induction 1 as [|s rest Hs Hrest IH]; intros now db db' l; simpl.
  - intros H. inversion H; subst. now split.
  - destruct (s now db) as [[db1 a]|e] eqn:E1; [|discriminate].
    destruct (run_batch rest now db1) as [[db2 l2]|e] eqn:E2; [|discriminate].
    intros H. inversion H; subst.
    destruct (Hs _ _ _ _ E1) as (Hi1 & Hl1).
    destruct (IH _ _ _ _ E2) as (Hi2 & Hl2).
    split; congruence.
Qed.

Lemma three_in_place (d1 d2 d3 : TvData) :
  Forall in_place [tv_update "1" d1; tv_update "2" d2; tv_update "3" d3].
Proof.
  repeat (constructor; [apply tv_update_in_place|]). constructor.
Qed.

Lemma three_updates (d1 d2 d3 : TvData) (now : Timestamp) (db : Db) :
  known (map id (tv db)) "1" = true ->
  known (map id (tv db)) "2" = true ->
  known (map id (tv db)) "3" = true ->
  exists rs,
    run_batch [tv_update "1" d1; tv_update "2" d2; tv_update "3" d3] now db
    = Ok (mkDb (update_row now "3" d3
                  (update_row now "2" d2 (update_row now "1" d1 (tv db))))
               (layout db), rs).
Proof.
  intros K1 K2 K3. cbn [run_batch]. unfold tv_update at 1.
  destruct (find_id_known _ _ K1) as (r1 & ->).
  unfold tv_update at 1. cbn [tv layout].
  destruct (find_id_known "2" (update_row now "1" d1 (tv db)))
    as (r2 & ->); [now rewrite update_row_ids|].
  unfold tv_update at 1. cbn [tv layout].
  destruct (find_id_known "3"
              (update_row now "2" d2 (update_row now "1" d1 (tv db))))
    as (r3 & ->); [now rewrite !update_row_ids|].
  eexists. reflexivity.
Qed.

Lemma resetAll_unfold (stamps_empty : bool) (now : Timestamp) (db : Db) :
  ScreenRouter.resetAllImages stamps_empty now db
  = let db1 :=
      if stamps_empty
      then mkDb (map (apply_data now noData) (tv db)) (layout db)
      else db in
    match run_batch
            [ tv_update "1" (dataImageUrl (Some "/image1.png"));
              tv_update "2" (dataImageUrl (Some "/image2.png"));
              tv_update "3" (dataImageUrl (Some "/image3.png")) ] now db1 with
    | Ok (db', _) => (db', Ok (sort_by_position (tv db')))
    | Err e => (db1, Err e)
    end.
Proof.
  unfold ScreenRouter.resetAllImages, bind, await, tv_updateMany, transaction,
    tv_findMany.
  cbv zeta. destruct stamps_empty; cbn [is_empty noData set_position
    set_imageUrl andb negb];
    (destruct (run_batch _ now _) as [[db' rs]|e]; [|reflexivity]);
    now rewrite filter_all_rows.
Qed.

Lemma map_apply_ids (now : Timestamp) (d : TvData) (rows : list Tv) :
  map id (map (apply_data now d) rows) = map id rows.
Proof. rewrite map_map. apply map_ext. reflexivity. Qed.

(** No procedure adds a row to [tv] except the seeding of an empty
    registry. *)
Lemma serve_ids (stamps_empty : bool) (URL_ok : string -> bool)
  (r : StoreRequest) (now : Timestamp) (db : Db) :
  registry_shape db -> registry_shape (serve stamps_empty URL_ok r now db).
Proof.
  intros Hshape.
  assert (Hsame : map id (tv (serve stamps_empty URL_ok r now db))
                  = map id (tv db)
                  \/ (tv db = []
                      /\ map id (tv (serve stamps_empty URL_ok r now db))
                         = ["1"; "2"; "3"])).
  { destruct r; cbn [serve].
    - destruct db as [[|h t] layouts].
      + right. split; reflexivity.
      + left. now rewrite getAll_on_rows.
    - left. destruct (updateOrder_atomic input now db)
        as [(rows & db' & H)|(e & H)].
      + destruct (forallb (fun u => known (map id (tv db)) (fst u)) input)
          eqn:K.
        * rewrite updateOrder_known by exact K. apply fold_writes_ids.
        * rewrite updateOrder_unknown in H by exact K. discriminate.
      + now rewrite H.
    - left. unfold ScreenRouter.updateImage, withInput.
      destruct (ScreenRouter.imageUrl_schema URL_ok u); [|reflexivity].
      unfold await, tv_update. destruct (find_id i (tv db)); [|reflexivity].
      apply update_row_ids.
    - left. unfold ScreenRouter.resetImage, await, tv_update.
      destruct (find_id i (tv db)); [|reflexivity].
      apply update_row_ids.
    - left. rewrite resetAll_unfold. cbv zeta.
      assert (Hstamp : map id (tv (if stamps_empty
                                   then mkDb (map (apply_data now noData)
                                                  (tv db)) (layout db)
                                   else db)) = map id (tv db)).
      { destruct stamps_empty; [apply map_apply_ids|reflexivity]. }
      destruct (run_batch _ now _) as [[db' rs]|e] eqn:E.
      + destruct (run_batch_in_place _ (three_in_place _ _ _) _ _ _ _ E)
          as (Hi & _).
        cbn [fst]. now rewrite Hi.
      + exact Hstamp.
    - left. reflexivity.
    - left. reflexivity.
    - left. now rewrite save_keeps_registry.
    - left. rewrite restore_unfold.
      destruct (find_layout i (layout db)) as [l|]; [|reflexivity].
      destruct (run_batch _ now db) as [[db' rs]|e] eqn:E; [|reflexivity].
      now destruct (run_batch_in_place _ (three_in_place _ _ _) _ _ _ _ E).
    - left. unfold LayoutRouter.delete, await, layout_delete.
      destruct (find_layout i (layout db)); reflexivity.
    - left. unfold LayoutRouter.updateName, withInput.
      destruct (LayoutRouter.name_schema n); [|reflexivity].
      unfold await, layout_update.
      destruct (find_layout i (layout db)); reflexivity. }
  unfold registry_shape in *.
  destruct Hsame as [->|(_ & ->)]; [assumption|now right].
Qed.

(** Every store the system reaches is empty or holds exactly the three
    seeded screens. *)
Lemma reachable_shape (stamps_empty : bool) (URL_ok : string -> bool)
  (db : Db) :
  store_reachable stamps_empty URL_ok db -> registry_shape db.
Proof.
  induction 1 as [|db r now _ IH]; [now left|now apply serve_ids].
Qed.
End Reach.

Section Atomic.
Import Prisma.

Lemma shape_cases (db : Db) :
  registry_shape db ->
  tv db = []
  \/ (known (map id (tv db)) "1" = true
      /\ known (map id (tv db)) "2" = true
      /\ known (map id (tv db)) "3" = true
      /\ NoDup (map id (tv db))).
Proof.
  intros [H|H].
  - left. now destruct (tv db).
  - right. rewrite H. repeat split.
    repeat constructor; simpl; intuition discriminate.
Qed.

Lemma resetAll_on_empty (stamps_empty : bool) (now : Timestamp)
  (layouts : list Layout) :
  ScreenRouter.resetAllImages stamps_empty now (mkDb [] layouts)
  = (mkDb [] layouts, Err RecordNotFound).
Proof. now destruct stamps_empty. Qed.

(** When an empty write stamps nothing, [resetAllImages] is its
    transaction alone. *)
Lemma resetAll_atomic_unstamped (now : Timestamp) (db : Db) :
  (exists rows db',
      ScreenRouter.resetAllImages false now db = (db', Ok rows))
  \/ (exists e, ScreenRouter.resetAllImages false now db = (db, Err e)).
Proof.
  rewrite resetAll_unfold. cbv zeta.
  destruct (run_batch _ now db) as [[db' rs]|e]; [left|right]; eauto.
Qed.

Lemma resetAll_found (stamps_empty : bool) (now : Timestamp) (db : Db) :
  known (map id (tv db)) "1" = true ->
  known (map id (tv db)) "2" = true ->
  known (map id (tv db)) "3" = true ->
  let base :=
    if stamps_empty then map (apply_data now noData) (tv db) else tv db in
  let rows :=
    update_row now "3" (dataImageUrl (Some "/image3.png"))
      (update_row now "2" (dataImageUrl (Some "/image2.png"))
         (update_row now "1" (dataImageUrl (Some "/image1.png")) base)) in
  ScreenRouter.resetAllImages stamps_empty now db
  = (mkDb rows (layout db), Ok (sort_by_position rows)).
Proof.
  intros K1 K2 K3 base rows. rewrite resetAll_unfold. cbv zeta.
  assert (Hbase : (if stamps_empty
                   then mkDb (map (apply_data now noData) (tv db)) (layout db)
                   else db) = mkDb base (layout db)).
  { unfold base. destruct stamps_empty; [reflexivity|now destruct db]. }
  rewrite Hbase.
  assert (Hids : map id base = map id (tv db)).
  { unfold base. destruct stamps_empty; [apply map_apply_ids|reflexivity]. }
  destruct (three_updates (dataImageUrl (Some "/image1.png"))
              (dataImageUrl (Some "/image2.png"))
              (dataImageUrl (Some "/image3.png")) now
              (mkDb base (layout db)))
    as (rs & ->); cbn [tv]; try (now rewrite Hids).
  reflexivity.
Qed.

Lemma image_after_three (d1 d2 d3 : TvData) (now : Timestamp)
  (rows : list Tv) :
  known (map id rows) "1" = true ->
  known (map id rows) "2" = true ->
  known (map id rows) "3" = true ->
  let rows' := update_row now "3" d3
                 (update_row now "2" d2 (update_row now "1" d1 rows)) in
  exists r1 r2 r3,
    find_id "1" rows' = Some (apply_data now d1 r1)
    /\ find_id "2" rows' = Some (apply_data now d2 r2)
    /\ find_id "3" rows' = Some (apply_data now d3 r3).
Proof.
  intros K1 K2 K3 rows'.
  destruct (find_id_known _ _ K1) as (r1 & H1).
  destruct (find_id_known _ _ K2) as (r2 & H2).
  destruct (find_id_known _ _ K3) as (r3 & H3).
  exists r1, r2, r3. unfold rows'. repeat split.
  - rewrite !find_id_update_other by reflexivity.
    rewrite find_id_update_same, H1. reflexivity.
  - rewrite find_id_update_other by reflexivity.
    rewrite find_id_update_same.
    rewrite find_id_update_other by reflexivity.
    rewrite H2. reflexivity.
  - rewrite find_id_update_same.
    rewrite !find_id_update_other by reflexivity.
    rewrite H3. reflexivity.
Qed.
End Atomic.

(** C3. Each batch mutation either succeeds with all of its writes
    applied, or fails and leaves the store exactly as it was before the
    call.  [updateOrder] and [restore] are one transaction each and do so
    in every store; so does [resetAllImages] when an empty write stamps
    nothing.  Whatever an empty write does, in every store the system
    reaches [updateOrder] gives every row the position of the last pair
    naming it, or fails with record-not-found; [resetAllImages] gives
    screens "1", "2", "3" their default images, or fails with
    record-not-found; [restore] writes the three URL fields of the
    layout found to screens "1", "2", "3", or fails.  The in-memory
    procedures cannot fail. *)
Theorem batches_atomic :
  (forall input now db,
      (exists rows db',
          ScreenRouter.updateOrder input now db = (db', Ok rows))
      \/ (exists e, ScreenRouter.updateOrder input now db = (db, Err e)))
  /\ (forall i now db,
         (exists rows db', LayoutRouter.restore i now db = (db', Ok rows))
         \/ (exists e, LayoutRouter.restore i now db = (db, Err e)))
  /\ (forall now db,
         (exists rows db',
             ScreenRouter.resetAllImages false now db = (db', Ok rows))
         \/ (exists e,
                ScreenRouter.resetAllImages false now db = (db, Err e)))
  /\ (forall stamps_empty URL_ok db,
         store_reachable stamps_empty URL_ok db ->
         (forall input now,
             (exists rows,
                 ScreenRouter.updateOrder input now db
                 = (Prisma.mkDb
                      (map (reorder_row now input) (Prisma.tv db))
                      (Prisma.layout db), Ok rows))
             \/ ScreenRouter.updateOrder input now db
                = (db, Err RecordNotFound))
         /\ (forall now,
                (exists rows db',
                    ScreenRouter.resetAllImages stamps_empty now db
                    = (db', Ok rows)
                    /\ option_map Prisma.imageUrl
                         (Prisma.find_id "1" (Prisma.tv db'))
                       = Some (Some "/image1.png")
                    /\ option_map Prisma.imageUrl
                         (Prisma.find_id "2" (Prisma.tv db'))
                       = Some (Some "/image2.png")
                    /\ option_map Prisma.imageUrl
                         (Prisma.find_id "3" (Prisma.tv db'))
                       = Some (Some "/image3.png")
                    /\ Prisma.layout db' = Prisma.layout db)
                \/ ScreenRouter.resetAllImages stamps_empty now db
                   = (db, Err RecordNotFound))
         /\ (forall i now,
                (exists l rows db',
                    Prisma.find_layout i (Prisma.layout db) = Some l
                    /\ LayoutRouter.restore i now db = (db', Ok rows)
                    /\ option_map Prisma.imageUrl
                         (Prisma.find_id "1" (Prisma.tv db'))
                       = Some (Prisma.tv1Url l)
                    /\ option_map Prisma.imageUrl
                         (Prisma.find_id "2" (Prisma.tv db'))
                       = Some (Prisma.tv2Url l)
                    /\ option_map Prisma.imageUrl
                         (Prisma.find_id "3" (Prisma.tv db'))
                       = Some (Prisma.tv3Url l)
                    /\ Prisma.layout db' = Prisma.layout db)
                \/ (exists e, LayoutRouter.restore i now db = (db, Err e))))
  /\ (forall input now screens,
         isOk (snd (MemoryScreens.updateOrder input now screens)) = true
         /\ isOk (snd (MemoryScreens.resetAllImages now screens)) = true).
Proof.
  split; [intros; apply updateOrder_atomic|].
  split; [intros; apply restore_atomic|].
  split; [intros; apply resetAll_atomic_unstamped|].
  split; [|split; reflexivity].
  intros stamps_empty URL_ok db Hreach.
  pose proof (shape_cases db (reachable_shape stamps_empty URL_ok db Hreach))
    as Hshape.
  split; [|split].
  - intros input now.
    destruct (forallb (fun u => known (map Prisma.id (Prisma.tv db)) (fst u))
                input) eqn:K.
    + left. rewrite updateOrder_known by exact K.
      rewrite fold_writes_nodup.
      * eexists. reflexivity.
      * destruct Hshape as [->|(_ & _ & _ & Hnd)]; [constructor|exact Hnd].
    + right. now apply updateOrder_unknown.
  - intros now. destruct Hshape as [Hempty|(K1 & K2 & K3 & _)].
    + right. destruct db as [rows layouts]. cbn [Prisma.tv] in Hempty.
      subst rows. apply resetAll_on_empty.
    + left. do 2 eexists.
      split; [exact (resetAll_found stamps_empty now db K1 K2 K3)|].
      cbn [Prisma.tv Prisma.layout].
      destruct (image_after_three
                  (Prisma.dataImageUrl (Some "/image1.png"))
                  (Prisma.dataImageUrl (Some "/image2.png"))
                  (Prisma.dataImageUrl (Some "/image3.png")) now
                  (if stamps_empty
                   then map (Prisma.apply_data now Prisma.noData)
                            (Prisma.tv db)
                   else Prisma.tv db))
        as (r1 & r2 & r3 & -> & -> & ->);
        try (destruct stamps_empty; [now rewrite map_apply_ids|assumption]).
      repeat split.
  - intros i now. destruct (Prisma.find_layout i (Prisma.layout db))
      as [l|] eqn:Hl.
    + destruct Hshape as [Hempty|(K1 & K2 & K3 & _)].
      * right. rewrite restore_unfold, Hl.
        destruct db as [rows layouts]. cbn [Prisma.tv] in Hempty.
        subst rows. eexists. reflexivity.
      * left. exists l. do 2 eexists. split; [reflexivity|].
        split; [exact (restore_found i l now db Hl K1 K2 K3)|].
        cbn [Prisma.tv Prisma.layout].
        destruct (image_after_three
                    (Prisma.dataImageUrl (Prisma.tv1Url l))
                    (Prisma.dataImageUrl (Prisma.tv2Url l))
                    (Prisma.dataImageUrl (Prisma.tv3Url l)) now
                    (Prisma.tv db) K1 K2 K3)
          as (r1 & r2 & r3 & -> & -> & ->).
        repeat split.
    + right. rewrite restore_unfold, Hl. eexists. reflexivity.
Qed.

Lemma batches_atomic_witness :
  (exists rows,
      ScreenRouter.updateOrder [("1", 3); ("2", 1); ("3", 2)] 200
        (Prisma.mkDb (seeded 100) [])
      = (Prisma.mkDb
           (map (reorder_row 200 [("1", 3); ("2", 1); ("3", 2)]) (seeded 100))
           [], Ok rows))
  \/ ScreenRouter.updateOrder [("1", 3); ("2", 1); ("3", 2)] 200
       (Prisma.mkDb (seeded 100) [])
     = (Prisma.mkDb (seeded 100) [], Err RecordNotFound).
Proof.
  destruct batches_atomic as (_ & _ & _ & Hreach & _).
  apply (Hreach true Url.has_scheme (Prisma.mkDb (seeded 100) [])
           (store_step true Url.has_scheme Prisma.empty ScreenGetAll 100
              (store_start true Url.has_scheme))).
Defined.

(** Outside the stores the system reaches, and when an empty write does
    stamp [updatedAt], the batch of [resetAllImages] is not
    all-or-nothing: on a registry without screen "3" the transaction
    fails, yet the [updateMany] awaited before it has stamped every row,
    and the change feed shows them as changed. *)
Remark resetAll_outside_reachable :
  ScreenRouter.resetAllImages true 200 two_screens
  = (Prisma.mkDb
       [ Prisma.mkTv "1" 1 (Some "/api/images/menu.png") 200 100;
         Prisma.mkTv "2" 2 None 200 100 ] [],
     Err RecordNotFound)
  /\ fst (ScreenRouter.resetAllImages true 200 two_screens) <> two_screens
  /\ rows_of (snd (ScreenRouter.getUpdates (Some 150) 250 two_screens)) = []
  /\ rows_of (snd (ScreenRouter.getUpdates (Some 150) 250
                     (fst (ScreenRouter.resetAllImages true 200 two_screens))))
     = [ Prisma.mkTv "1" 1 (Some "/api/images/menu.png") 200 100;
         Prisma.mkTv "2" 2 None 200 100 ].
Proof.
  repeat split. discriminate.
Qed.

(** ** The reload signal *)

Section Pulse.
Import Signals.

Lemma run_timers_idle (now : Timestamp) (st : State) :
  idle st -> idle (run_timers now st).
Proof.
  intros (Hf & Ht & Hl). unfold run_timers. rewrite Hl, Hf, Ht.
  simpl. repeat split.
Qed.

(** A pending timer that is due fires and puts the signal at rest; one
    that is not due stays. *)
Lemma run_timers_armed (now d : Timestamp) (st : State) :
  armed d st ->
  (d <= now /\ idle (run_timers now st))
  \/ (now < d /\ armed d (run_timers now st)).
Proof.
  intros (Hf & h & Ht & Hl). unfold run_timers. rewrite Hl, Hf, Ht.
  simpl. unfold due. simpl. destruct (d <=? now) eqn:E; simpl.
  - left. apply Z.leb_le in E. repeat split. exact E.
  - right. apply Z.leb_gt in E. split; [exact E|].
    split; [reflexivity|]. now exists h.
Qed.

Lemma clearTimeout_only (h : nat) (d : Timestamp) :
  clearTimeout h [(h, d)] = [].
Proof. unfold clearTimeout. simpl. now rewrite Nat.eqb_refl. Qed.

Lemma set_from_idle (trigger : bool) (now : Timestamp) (st : State) :
  idle st ->
  if trigger then armed (now + delay) (fst (setTriggerReload trigger now st))
  else idle (fst (setTriggerReload trigger now st)).
Proof.
  intros (Hf & Ht & Hl). unfold setTriggerReload. rewrite Ht, Hl.
  destruct trigger; simpl.
  - split; [reflexivity|]. eexists. split; reflexivity.
  - repeat split.
Qed.

(** Setting the signal while a timer is pending replaces that timer. *)
Lemma set_from_armed (trigger : bool) (now d : Timestamp) (st : State) :
  armed d st ->
  if trigger then armed (now + delay) (fst (setTriggerReload trigger now st))
  else idle (fst (setTriggerReload trigger now st)).
Proof.
  intros (Hf & h & Ht & Hl). unfold setTriggerReload. rewrite Ht, Hl.
  rewrite clearTimeout_only. destruct trigger; simpl.
  - split; [reflexivity|]. eexists. split; reflexivity.
  - repeat split.
Qed.

Lemma request_shape (st : State) (now : Timestamp) (trigger : bool) :
  idle st \/ (exists d, armed d st) ->
  if trigger then armed (now + delay) (request st (now, trigger))
  else idle (request st (now, trigger)).
Proof.
  intros [Hi|(d & Ha)]; unfold request; cbn [fst snd].
  - apply set_from_idle. now apply run_timers_idle.
  - destruct (run_timers_armed now d st Ha) as [(_ & Hi)|(_ & Ha')].
    + now apply set_from_idle.
    + now apply (set_from_armed trigger now d).
Qed.

Lemma run_snoc (evs : list (Timestamp * bool)) (ev : Timestamp * bool) :
  run (evs ++ [ev]) = request (run evs) ev.
Proof. unfold run. now rewrite fold_left_app. Qed.

Lemma run_shape (evs : list (Timestamp * bool)) :
  idle (run evs) \/ (exists d, armed d (run evs)).
Proof.
  induction evs as [|[now trigger] evs IH] using rev_ind.
  - left. repeat split.
  - rewrite run_snoc.
    pose proof (request_shape (run evs) now trigger IH) as H.
    destruct trigger; [right; eauto|left; assumption].
Qed.

Lemma poll_idle (now : Timestamp) (st : State) :
  idle st -> poll now st = false.
Proof.
  intros Hi. apply (run_timers_idle now) in Hi. now destruct Hi.
Qed.

Lemma poll_armed (now d : Timestamp) (st : State) :
  armed d st -> poll now st = (now <? d).
Proof.
  intros Ha. unfold poll, getTriggerReload.
  destruct (run_timers_armed now d st Ha) as [(Hle & Hi)|(Hlt & Ha')].
  - destruct Hi as (-> & _). symmetry. apply Z.ltb_ge. exact Hle.
  - destruct Ha' as (-> & _). symmetry. apply Z.ltb_lt. exact Hlt.
Qed.
End Pulse.

(** C9. After any sequence of [setTriggerReload] requests that ends
    with the flag being set at clock reading [t0], a poll at clock
    reading [t] sees the flag exactly while [t] is less than [t0] plus
    the delay of 5000 ms, whatever was set before: the revert is counted
    from the most recent set.  After a sequence ending with the flag
    being cleared, or with no request at all, every poll sees it
    cleared.  At no point is more than one timer pending. *)
Theorem reload_pulse :
  Signals.delay = 5000
  /\ (forall before t0 t,
         Signals.poll t (Signals.run (before ++ [(t0, true)]))
         = (t <? t0 + Signals.delay))
  /\ (forall before t0 t,
         Signals.poll t (Signals.run (before ++ [(t0, false)])) = false)
  /\ (forall t, Signals.poll t (Signals.run []) = false)
  /\ (forall evs, (length (Signals.timers (Signals.run evs)) <= 1)%nat).
Proof.
  split; [reflexivity|]. split; [|split; [|split]].
  - intros before t0 t. apply poll_armed. rewrite run_snoc.
    apply (request_shape _ t0 true), run_shape.
  - intros before t0 t. apply poll_idle. rewrite run_snoc.
    apply (request_shape _ t0 false), run_shape.
  - reflexivity.
  - intros evs. destruct (run_shape evs) as [(_ & _ & ->)|(d & _ & h & _ & ->)];
      simpl; lia.
Qed.

(** ** Path traversal *)

(** Names without "/" are a single segment, and joining one that names
    an entry to the image directory yields a path directly below it. *)

Lemma prefix_nil (s : string) : String.prefix "" s = true.
Proof. now destruct s. Qed.

Lemma includes_cons (c : ascii) (s search : string) :
  Js.includes (String c s) search = false -> Js.includes s search = false.
Proof.
  simpl. intros H. apply orb_false_iff in H. tauto.
Qed.

Lemma no_slash_head (c : ascii) (s : string) :
  Js.includes (String c s) "/" = false -> Ascii.eqb c "/" = false.
Proof.
  simpl. intros H. apply orb_false_iff in H as [H _].
  destruct (ascii_dec "/" c) as [<-|Hne].
  - now rewrite prefix_nil in H.
  - apply Ascii.eqb_neq. congruence.
Qed.

Lemma segments_no_slash (f : string) :
  Js.includes f "/" = false -> Path.segments f = [f].
Proof.
  induction f as [|c rest IH]; intros H; [reflexivity|].
  simpl. rewrite (no_slash_head _ _ H), IH; [reflexivity|].
  now apply includes_cons in H.
Qed.

Lemma segments_nonempty (p : string) : Path.segments p <> [].
Proof.
  destruct p as [|c rest]; simpl; [discriminate|].
  destruct (Ascii.eqb c "/"); [discriminate|].
  destruct (Path.segments rest); discriminate.
Qed.

Lemma segments_app_slash (a b : string) :
  Path.segments (a ++ "/" ++ b) = (Path.segments a ++ Path.segments b)%list.
Proof.
  induction a as [|c a IH]; [reflexivity|].
  cbn [append Path.segments]. fold (append a ("/" ++ b)). 
  destruct (Ascii.eqb c "/").
  - cbn [app]. f_equal. exact IH.
  - change (a ++ String "/" b) with (a ++ "/" ++ b). rewrite IH.
    pose proof (segments_nonempty a) as Hne.
    destruct (Path.segments a) as [|h t]; [congruence|reflexivity].
Qed.

Lemma segments_slash_end (a : string) :
  Path.segments (a ++ "/") = (Path.segments a ++ [""])%list.
Proof. apply (segments_app_slash a ""). Qed.

Lemma endsWithSlash_no_slash (f : string) :
  Js.includes f "/" = false -> Path.endsWithSlash f = false.
Proof.
  induction f as [|c rest IH]; intros H; [reflexivity|].
  simpl. destruct rest as [|c' rest'].
  - now apply no_slash_head in H.
  - apply IH. now apply includes_cons in H.
Qed.

Lemma endsWithSlash_app (a b : string) :
  b <> "" -> Path.endsWithSlash (a ++ b) = Path.endsWithSlash b.
Proof.
  intros Hb. induction a as [|c a IH]; [reflexivity|].
  cbn [append Path.endsWithSlash]. 
  destruct (a ++ b) eqn:E.
  - destruct a, b; simpl in E; congruence.
  - exact IH.
Qed.

Lemma image_name_plain (f : string) :
  ImageRoute.isImageFile f = true -> plain f.
Proof.
  intros H. repeat split; intros ->; discriminate.
Qed.

Lemma normalize_child (f : string) :
  plain f -> Js.includes f "/" = false ->
  Path.normalizeString ("/data/images" ++ "/" ++ f) false = "data/images/" ++ f.
Proof.
  intros (H1 & H2 & H3) Hs. unfold Path.normalizeString.
  rewrite segments_app_slash, (segments_no_slash f Hs).
  cbn -[String.eqb].
  apply String.eqb_neq in H1, H2, H3. rewrite H1, H2, H3. reflexivity.
Qed.

Lemma normalize_child_dir (f : string) :
  plain f -> Js.includes f "/" = false ->
  Path.normalizeString (("/data/images/" ++ f) ++ "/") false
  = "data/images/" ++ f.
Proof.
  intros (H1 & H2 & H3) Hs. unfold Path.normalizeString.
  rewrite segments_slash_end.
  change ("/data/images/" ++ f) with ("/data/images" ++ "/" ++ f).
  rewrite segments_app_slash, (segments_no_slash f Hs).
  cbn -[String.eqb].
  apply String.eqb_neq in H1, H2, H3. rewrite H1, H2, H3. reflexivity.
Qed.

Lemma join_image (f : string) :
  plain f -> Js.includes f "/" = false ->
  Path.join "/data/images" f = "/data/images/" ++ f.
Proof.
  intros Hp Hs. pose proof Hp as (Hne & _).
  unfold Path.join. cbn [Js.falsy].
  destruct f as [|c rest] eqn:Ef; [congruence|]. rewrite <- Ef in *.
  replace (Js.falsy f) with false by (now rewrite Ef).
  replace (Js.falsy ("/data/images" ++ "/" ++ f)) with false by reflexivity.
  unfold Path.normalize.
  replace (Js.falsy ("/data/images" ++ "/" ++ f)) with false by reflexivity.
  replace (Path.isAbsolute ("/data/images" ++ "/" ++ f)) with true
    by reflexivity.
  cbn [negb]. rewrite (normalize_child f Hp Hs).
  rewrite (endsWithSlash_app "/data/images/" f Hne
           : Path.endsWithSlash ("/data/images" ++ "/" ++ f) = _).
  rewrite (endsWithSlash_no_slash f Hs).
  reflexivity.
Qed.

Lemma resolve_image (cwd f : string) :
  plain f -> Js.includes f "/" = false ->
  Path.resolve cwd ("/data/images/" ++ f) = "/data/images/" ++ f.
Proof.
  intros Hp Hs. unfold Path.resolve.
  replace (Js.falsy ("/data/images/" ++ f)) with false by reflexivity.
  replace (Path.isAbsolute ("/data/images/" ++ f)) with true by reflexivity.
  cbn [orb negb]. rewrite (normalize_child_dir f Hp Hs). reflexivity.
Qed.

Lemma resolve_root (cwd : string) :
  Path.resolve cwd "/data/images" = "/data/images".
Proof. reflexivity. Qed.

Lemma inside_image (f : string) :
  Fs.inside "/data/images" ("/data/images/" ++ f) = true.
Proof.
  unfold Fs.inside. apply orb_true_iff. right. simpl. apply prefix_nil.
Qed.

(** The route refuses every name holding "..", "/" or a backslash
    before it makes any call. *)
Lemma GET_refuses_traversal (filename : string) (w : Fs.World) :
  Js.includes filename ".." = true
  \/ Js.includes filename "/" = true
  \/ Js.includes filename ImageRoute.backslash = true ->
  ImageRoute.GET filename w = (w, ImageRoute.text "Invalid filename" 400).
Proof.
  intros H. unfold ImageRoute.GET.
  replace (Js.includes filename ".." || Js.includes filename "/"
           || Js.includes filename ImageRoute.backslash) with true;
    [reflexivity|].
  symmetry. rewrite !orb_true_iff. tauto.
Qed.

(** In production every call the route makes, for whatever name, is on
    a path below /data/images, and no file is changed. *)
Lemma find_record (path : string) (c : Fs.Call) (w : Fs.World) :
  Fs.find path (Fs.record c w) = Fs.find path w.
Proof. reflexivity. Qed.

Lemma GET_stays_inside (filename cwd : string)
  (files : list (string * Fs.File)) :
  let w := Fs.mkWorld "production" cwd files [] in
  Forall (fun c => Fs.inside "/data/images" (Fs.path_of c) = true)
         (Fs.calls (fst (ImageRoute.GET filename w)))
  /\ Fs.files (fst (ImageRoute.GET filename w)) = files.
Proof.
  intros w. unfold ImageRoute.GET.
  destruct (Js.includes filename ".." || Js.includes filename "/"
            || Js.includes filename ImageRoute.backslash) eqn:Hbad;
    [split; [constructor|reflexivity]|].
  apply orb_false_iff in Hbad as [Hbad _].
  apply orb_false_iff in Hbad as [_ Hs].
  destruct (ImageRoute.isImageFile filename) eqn:Himg;
    [|split; [constructor|reflexivity]].
  pose proof (image_name_plain _ Himg) as Hp.
  cbn [negb]. change (ImageRoute.getDataDirectory w) with "/data/images".
  rewrite (join_image filename Hp Hs).
  cbn [Fs.cwd w]. rewrite (resolve_image cwd filename Hp Hs).
  rewrite resolve_root.
  replace (Js.startsWith ("/data/images/" ++ filename) "/data/images")
    with true by reflexivity.
  cbn [negb]. unfold Fs.access, Fs.readFile, Fs.stat. cbv zeta.
  rewrite !find_record.
  cbn [Fs.cwd Fs.record Fs.files Fs.calls Fs.NODE_ENV w].
  rewrite (resolve_image cwd filename Hp Hs).
  pose proof (inside_image filename) as Hin.
  destruct (Fs.find ("/data/images/" ++ filename) w) as [[b m|sz m]|];
    cbn [fst Fs.calls Fs.files app];
    (split; [repeat constructor; exact Hin|reflexivity]).
Qed.

(** C1. [delete] compares the resolved path with the resolved image
    directory by string prefix only.  In production the name
    "../images-old/x.png" contains a traversal sequence and resolves to
    /data/images-old/x.png, outside /data/images; the check lets it
    through, and the file is looked up and removed (where there is no
    such file, the lookup outside the image directory is still made).
    The names of the specification are refused without any call on the
    file system: "../../etc/passwd" by [delete], and "..%2f..%2fsecret"
    by the route with status 400. *)
Theorem delete_escapes_image_root :
  Js.includes "../images-old/x.png" ".." = true
  /\ Path.resolve "/app" (Path.join "/data/images" "../images-old/x.png")
     = "/data/images-old/x.png"
  /\ Fs.inside "/data/images" "/data/images-old/x.png" = false
  /\ ImagesRouter.delete "../images-old/x.png" (production volume)
     = (Fs.mkWorld "production" "/app"
          [ ("/data/images/a.png", Fs.mkFile "A" 10);
            ("/etc/passwd", Fs.mkFile "root" 5) ]
          [ Fs.Access "/data/images-old/x.png";
            Fs.Unlink "/data/images-old/x.png" ],
        Ok (true, "Image deleted successfully"))
  /\ ImagesRouter.delete "../images-old/x.png" (production [])
     = (Fs.mkWorld "production" "/app" []
          [ Fs.Access "/data/images-old/x.png" ],
        Err (Thrown "Failed to delete image"))
  /\ ImagesRouter.delete "../../etc/passwd" (production volume)
     = (production volume, Err (Thrown "Failed to delete image"))
  /\ ImageRoute.GET "..%2f..%2fsecret" (production volume)
     = (production volume, ImageRoute.text "Invalid filename" 400).
Proof. repeat split. Qed.

(** * Further properties *)

(** ** Resetting images *)

Section ResetFacts.
Import Prisma.

Lemma update_row_unknown (now : Timestamp) (i : string) (d : TvData)
  (rows : list Tv) :
  find_id i rows = None -> update_row now i d rows = rows.
Proof.
  induction rows as [|r t IH]; simpl; [reflexivity|].
  destruct (String.eqb (id r) i); [discriminate|].
  intros H. now rewrite IH.
Qed.

Lemma update_row_positions (now : Timestamp) (i : string)
  (u : option string) (rows : list Tv) :
  map position (update_row now i (dataImageUrl u) rows) = map position rows.
Proof.
  induction rows as [|r t IH]; simpl; [reflexivity|].
  destruct (String.eqb (id r) i); simpl; [reflexivity|now rewrite IH].
Qed.

Lemma update_row_images (now : Timestamp) (i : string) (p : Z)
  (rows : list Tv) :
  map imageUrl (update_row now i (dataPosition p) rows) = map imageUrl rows.
Proof.
  induction rows as [|r t IH]; simpl; [reflexivity|].
  destruct (String.eqb (id r) i); simpl; [reflexivity|now rewrite IH].
Qed.

Lemma update_row_created (now : Timestamp) (i : string) (d : TvData)
  (rows : list Tv) :
  map createdAt (update_row now i d rows) = map createdAt rows.
Proof.
  induction rows as [|r t IH]; simpl; [reflexivity|].
  destruct (String.eqb (id r) i); simpl; [reflexivity|now rewrite IH].
Qed.

Lemma resetImage_unfold (i : string) (now : Timestamp) (db : Db) :
  ScreenRouter.resetImage i now db
  = match find_id i (tv db) with
    | Some r =>
        (mkDb (update_row now i (dataImageUrl (Some ("/image" ++ i ++ ".png")))
                 (tv db)) (layout db),
         Ok (apply_data now (dataImageUrl (Some ("/image" ++ i ++ ".png"))) r))
    | None => (db, Err RecordNotFound)
    end.
Proof.
  unfold ScreenRouter.resetImage, await, tv_update.
  destruct (find_id i (tv db)); reflexivity.
Qed.
End ResetFacts.

(** X1. [resetImage] on a screen that exists gives it the image
    "/image<id>.png" whatever it held, stamps it with the time of the
    call, returns the row as stored, and leaves every other screen, every
    position and the layouts as they were; on an id that does not exist
    it fails with record-not-found and changes nothing. *)
Theorem resetImage_sets_default :
  forall i now db,
    (known (map Prisma.id (Prisma.tv db)) i = true ->
     exists row db',
       ScreenRouter.resetImage i now db = (db', Ok row)
       /\ Prisma.find_id i (Prisma.tv db') = Some row
       /\ Prisma.imageUrl row = Some ("/image" ++ i ++ ".png")
       /\ Prisma.updatedAt row = now
       /\ (forall j, String.eqb i j = false ->
                     Prisma.find_id j (Prisma.tv db')
                     = Prisma.find_id j (Prisma.tv db))
       /\ map Prisma.position (Prisma.tv db')
          = map Prisma.position (Prisma.tv db)
       /\ Prisma.layout db' = Prisma.layout db)
    /\ (known (map Prisma.id (Prisma.tv db)) i = false ->
        ScreenRouter.resetImage i now db = (db, Err RecordNotFound)).
Proof.
  intros i now db. rewrite resetImage_unfold. split.
  - intros K. destruct (find_id_known _ _ K) as (r & Hr). rewrite Hr.
    do 2 eexists. split; [reflexivity|]. cbn [Prisma.tv Prisma.layout].
    split; [now rewrite find_id_update_same, Hr|].
    split; [reflexivity|]. split; [reflexivity|].
    split; [intros j Hj; now apply find_id_update_other|].
    split; [apply update_row_positions|reflexivity].
  - intros K. now rewrite (find_id_unknown _ _ K).
Qed.

Lemma resetImage_sets_default_witness :
  exists row db',
    ScreenRouter.resetImage "2" 300
      (Prisma.mkDb [ Prisma.mkTv "1" 1 None 100 100;
                     Prisma.mkTv "2" 2 (Some "/api/images/a.png") 200 100 ] [])
    = (db', Ok row)
    /\ Prisma.imageUrl row = Some "/image2.png".
Proof.
  destruct (proj1 (resetImage_sets_default "2" 300
              (Prisma.mkDb [ Prisma.mkTv "1" 1 None 100 100;
                             Prisma.mkTv "2" 2 (Some "/api/images/a.png")
                               200 100 ] [])) eq_refl)
    as (row & db' & H & _ & Hu & _).
  exists row, db'. split; assumption.
Defined.

(** X2. On a registry that holds exactly the screens "1", "2", "3",
    [resetAllImages] leaves the store that three calls of [resetImage],
    for "1", "2" and "3" at the same clock reading, leave, whether or
    not an empty write stamps a row; the three screens then hold
    /image1.png, /image2.png and /image3.png. *)
Theorem resetAll_is_three_resets :
  forall stamps_empty now db,
    map Prisma.id (Prisma.tv db) = ["1"; "2"; "3"] ->
    fst (ScreenRouter.resetAllImages stamps_empty now db)
    = fst (ScreenRouter.resetImage "3" now
             (fst (ScreenRouter.resetImage "2" now
                     (fst (ScreenRouter.resetImage "1" now db)))))
    /\ isOk (snd (ScreenRouter.resetAllImages stamps_empty now db)) = true
    /\ map Prisma.imageUrl
         (Prisma.tv (fst (ScreenRouter.resetAllImages stamps_empty now db)))
       = [Some "/image1.png"; Some "/image2.png"; Some "/image3.png"].
Proof.
  intros stamps_empty now [rows layouts] Hids. cbn [Prisma.tv] in Hids.
  destruct rows as [|[i1 p1 u1 t1 c1] [|[i2 p2 u2 t2 c2]
                     [|[i3 p3 u3 t3 c3] [|r4 rest]]]];
    try discriminate.
  cbn in Hids. injection Hids as -> -> ->.
  destruct stamps_empty; repeat split.
Qed.

Lemma resetAll_is_three_resets_witness :
  map Prisma.imageUrl
    (Prisma.tv (fst (ScreenRouter.resetAllImages true 300
       (Prisma.mkDb
          [ Prisma.mkTv "1" 3 None 100 100;
            Prisma.mkTv "2" 1 (Some "/api/images/a.png") 200 100;
            Prisma.mkTv "3" 2 (Some "") 200 100 ] []))))
  = [Some "/image1.png"; Some "/image2.png"; Some "/image3.png"].
Proof.
  apply (resetAll_is_three_resets true 300
           (Prisma.mkDb
              [ Prisma.mkTv "1" 3 None 100 100;
                Prisma.mkTv "2" 1 (Some "/api/images/a.png") 200 100;
                Prisma.mkTv "3" 2 (Some "") 200 100 ] [])).
  reflexivity.
Defined.

(** ** What a write leaves alone *)

Section Columns.
Import Prisma.

Lemma fold_writes_images (now : Timestamp) (input : list (string * Z))
  (rows : list Tv) :
  map imageUrl (fold_left (write_position now) input rows)
  = map imageUrl rows.
Proof.
  revert rows. induction input as [|u rest IH]; intros rows; simpl.
  - reflexivity.
  - rewrite IH. apply update_row_images.
Qed.

Lemma fold_writes_created (now : Timestamp) (input : list (string * Z))
  (rows : list Tv) :
  map createdAt (fold_left (write_position now) input rows)
  = map createdAt rows.
Proof.
  revert rows. induction input as [|u rest IH]; intros rows; simpl.
  - reflexivity.
  - rewrite IH. apply update_row_created.
Qed.

Lemma image_batch_positions (u1 u2 u3 : option string) (now : Timestamp)
  (db db' : Db) (rs : list Tv) :
  run_batch [ tv_update "1" (dataImageUrl u1);
              tv_update "2" (dataImageUrl u2);
              tv_update "3" (dataImageUrl u3) ] now db = Ok (db', rs) ->
  map position (tv db') = map position (tv db).
Proof.
  cbn [run_batch]. unfold tv_update at 1.
  destruct (find_id "1" (tv db)); [|discriminate].
  unfold tv_update at 1. cbn [tv layout].
  destruct (find_id "2" _); [|discriminate].
  unfold tv_update at 1. cbn [tv layout].
  destruct (find_id "3" _); [|discriminate].
  intros H. inversion H; subst. cbn [tv].
  now rewrite !update_row_positions.
Qed.

Lemma stamp_positions (now : Timestamp) (rows : list Tv) :
  map position (map (apply_data now noData) rows) = map position rows.
Proof. rewrite map_map. apply map_ext. reflexivity. Qed.
End Columns.

(** X3. A reorder writes positions only and an image assignment writes
    images only: [updateOrder], failed or not, leaves the ids, the images
    and the creation times of all rows as they were, and [updateImage],
    [resetImage], [resetAllImages] and [restore], failed or not, leave
    the positions of all rows as they were. *)
Theorem writes_keep_other_columns :
  (forall input now db,
      let db' := fst (ScreenRouter.updateOrder input now db) in
      map Prisma.id (Prisma.tv db') = map Prisma.id (Prisma.tv db)
      /\ map Prisma.imageUrl (Prisma.tv db')
         = map Prisma.imageUrl (Prisma.tv db)
      /\ map Prisma.createdAt (Prisma.tv db')
         = map Prisma.createdAt (Prisma.tv db))
  /\ (forall URL_ok i u now db,
         map Prisma.position
           (Prisma.tv (fst (ScreenRouter.updateImage URL_ok i u now db)))
         = map Prisma.position (Prisma.tv db))
  /\ (forall i now db,
         map Prisma.position
           (Prisma.tv (fst (ScreenRouter.resetImage i now db)))
         = map Prisma.position (Prisma.tv db))
  /\ (forall stamps_empty now db,
         map Prisma.position
           (Prisma.tv (fst (ScreenRouter.resetAllImages stamps_empty now db)))
         = map Prisma.position (Prisma.tv db))
  /\ (forall i now db,
         map Prisma.position (Prisma.tv (fst (LayoutRouter.restore i now db)))
         = map Prisma.position (Prisma.tv db)).
Proof.
  split; [|split; [|split; [|split]]].
  - intros input now db db'. subst db'.
    destruct (forallb (fun u => known (map Prisma.id (Prisma.tv db)) (fst u))
                input) eqn:K.
    + rewrite updateOrder_known by exact K. cbn [fst Prisma.tv].
      split; [apply fold_writes_ids|].
      split; [apply fold_writes_images|apply fold_writes_created].
    + rewrite updateOrder_unknown by exact K. repeat split.
  - intros URL_ok i u now db.
    unfold ScreenRouter.updateImage, withInput.
    destruct (ScreenRouter.imageUrl_schema URL_ok u); [|reflexivity].
    unfold await, Prisma.tv_update.
    destruct (Prisma.find_id i (Prisma.tv db)); [|reflexivity].
    apply update_row_positions.
  - intros i now db. rewrite resetImage_unfold.
    destruct (Prisma.find_id i (Prisma.tv db)); [|reflexivity].
    apply update_row_positions.
  - intros stamps_empty now db. rewrite resetAll_unfold. cbv zeta.
    assert (Hs : map Prisma.position
                   (Prisma.tv (if stamps_empty
                               then Prisma.mkDb
                                      (map (Prisma.apply_data now Prisma.noData)
                                           (Prisma.tv db)) (Prisma.layout db)
                               else db))
                 = map Prisma.position (Prisma.tv db)).
    { destruct stamps_empty; [apply stamp_positions|reflexivity]. }
    destruct (Prisma.run_batch _ now _) as [[db' rs]|e] eqn:E; cbn [fst].
    + rewrite (image_batch_positions _ _ _ _ _ _ _ E). exact Hs.
    + exact Hs.
  - intros i now db. rewrite restore_unfold.
    destruct (Prisma.find_layout i (Prisma.layout db)) as [l|]; [|reflexivity].
    destruct (Prisma.run_batch _ now db) as [[db' rs]|e] eqn:E; cbn [fst].
    + exact (image_batch_positions _ _ _ _ _ _ _ E).
    + reflexivity.
Qed.

(** X4. What a successful [updateOrder] returns is what [getAll]
    returns right after it: on a registry that holds a row, [getAll]
    leaves the reordered store as it is and answers with the same
    list. *)
Theorem getAll_after_updateOrder :
  forall input now later db db' rows,
    Prisma.tv db <> [] ->
    ScreenRouter.updateOrder input now db = (db', Ok rows) ->
    ScreenRouter.getAll later db' = (db', Ok rows).
Proof.
  intros input now later db db' rows Hne H.
  destruct (forallb (fun u => known (map Prisma.id (Prisma.tv db)) (fst u))
              input) eqn:K.
  - rewrite updateOrder_known in H by exact K. inversion H; subst.
    destruct (fold_left (write_position now) input (Prisma.tv db))
      as [|r t] eqn:E.
    + exfalso. apply Hne.
      pose proof (fold_writes_ids now input (Prisma.tv db)) as Hids.
      rewrite E in Hids. destruct (Prisma.tv db); [reflexivity|discriminate].
    + apply getAll_on_rows.
  - rewrite updateOrder_unknown in H by exact K. discriminate.
Qed.

Lemma getAll_after_updateOrder_witness :
  ScreenRouter.getAll 300
    (fst (ScreenRouter.updateOrder [("1", 3); ("2", 1); ("3", 2)] 200
            (Prisma.mkDb (seeded 100) [])))
  = ScreenRouter.updateOrder [("1", 3); ("2", 1); ("3", 2)] 200
      (Prisma.mkDb (seeded 100) []).
Proof.
  apply (getAll_after_updateOrder [("1", 3); ("2", 1); ("3", 2)] 200 300
           (Prisma.mkDb (seeded 100) [])).
  - discriminate.
  - reflexivity.
Defined.

(** ** The in-memory array *)

Section MemoryFacts.
Import MemoryScreens.

Lemma find_unknown (i : string) (screens : list ScreenConfig) :
  known (map id screens) i = false -> find i screens = None.
Proof.
  induction screens as [|s t IH]; simpl; [reflexivity|].
  rewrite String.eqb_sym. destruct (String.eqb (id s) i); simpl.
  - discriminate.
  - exact IH.
Qed.

Lemma find_modify_found (i : string) (f : ScreenConfig -> ScreenConfig)
  (screens : list ScreenConfig) :
  (forall s, id (f s) = id s) ->
  find i (modify_found i f screens) = option_map f (find i screens).
Proof.
  intros Hf. induction screens as [|s t IH]; simpl; [reflexivity|].
  destruct (String.eqb (id s) i) eqn:E; simpl.
  - now rewrite Hf, E.
  - now rewrite E.
Qed.

Lemma find_known (i : string) (screens : list ScreenConfig) :
  known (map id screens) i = true ->
  exists s, find i screens = Some s /\ id s = i.
Proof.
  induction screens as [|s t IH]; simpl; [discriminate|].
  rewrite String.eqb_sym. destruct (String.eqb (id s) i) eqn:E; simpl.
  - intros _. exists s. split; [reflexivity|now apply String.eqb_eq].
  - exact IH.
Qed.

Lemma handle_ids (URL_ok : string -> bool) (r : Request) (now : Timestamp)
  (screens : list ScreenConfig) :
  Permutation (map id (handle URL_ok r now screens)) (map id screens).
Proof.
  destruct r; simpl.
  - apply Permutation_map, sort_by_perm.
  - eapply Permutation_trans; [apply Permutation_map, sort_by_perm|].
    now rewrite fold_updates_ids.
  - unfold updateImage. destruct (imageUrl_schema URL_ok u); simpl.
    + now rewrite modify_found_ids.
    + reflexivity.
  - now rewrite modify_found_ids.
  - eapply Permutation_trans; [apply Permutation_map, sort_by_perm|].
    rewrite map_map. reflexivity.
  - reflexivity.
Qed.
End MemoryFacts.

(** X5. The in-memory array always holds exactly the screens "1", "2"
    and "3", each once: no procedure adds, removes or renames a screen,
    it only reorders them. *)
Theorem memory_screens_fixed :
  forall URL_ok screens,
    MemoryScreens.reachable URL_ok screens ->
    Permutation (map MemoryScreens.id screens) ["1"; "2"; "3"]
    /\ NoDup (map MemoryScreens.id screens)
    /\ length screens = 3%nat.
Proof.
  intros URL_ok screens Hr.
  assert (Hp : Permutation (map MemoryScreens.id screens) ["1"; "2"; "3"]).
  { induction Hr as [boot|screens r now Hr IH]; [reflexivity|].
    eapply Permutation_trans; [apply handle_ids|exact IH]. }
  split; [exact Hp|]. split.
  - eapply Permutation_NoDup; [apply Permutation_sym, Hp|].
    repeat constructor; simpl; intuition discriminate.
  - apply Permutation_length in Hp. now rewrite length_map in Hp.
Qed.

Lemma memory_screens_fixed_witness :
  length (MemoryScreens.handle Url.has_scheme
            (MemoryScreens.UpdateOrder [("4", 0); ("1", 9)]) 200
            (MemoryScreens.screens0 100)) = 3%nat.
Proof.
  apply (memory_screens_fixed Url.has_scheme).
  apply MemoryScreens.reach_step, MemoryScreens.reach_boot.
Defined.

(** X6. In the in-memory form an image write on an id the array does
    not hold is no error: [resetImage], and [updateImage] with a value
    the schema accepts, answer with no screen and leave the array as it
    was.  On an id it holds, [resetImage] answers with that screen,
    now holding "/image<id>.png" and stamped with the time of the call. *)
Theorem memory_image_write_on_unknown_id :
  forall URL_ok i now screens,
    (known (map MemoryScreens.id screens) i = false ->
     MemoryScreens.resetImage i now screens = (screens, Ok None)
     /\ forall u, MemoryScreens.imageUrl_schema URL_ok u = true ->
                  MemoryScreens.updateImage URL_ok i u now screens
                  = (screens, Ok None))
    /\ (known (map MemoryScreens.id screens) i = true ->
        exists s screens',
          MemoryScreens.resetImage i now screens = (screens', Ok (Some s))
          /\ MemoryScreens.id s = i
          /\ MemoryScreens.imageUrl s = Some ("/image" ++ i ++ ".png")
          /\ MemoryScreens.updatedAt s = now
          /\ MemoryScreens.find i screens' = Some s).
Proof.
  intros URL_ok i now screens. split.
  - intros K. split.
    + unfold MemoryScreens.resetImage.
      rewrite modify_found_unknown by exact K.
      now rewrite find_unknown.
    + intros u Hu. unfold MemoryScreens.updateImage. rewrite Hu.
      rewrite modify_found_unknown by exact K.
      now rewrite find_unknown.
  - intros K. destruct (find_known _ _ K) as (s & Hs & Hid).
    assert (Hf : MemoryScreens.find i
                   (MemoryScreens.modify_found i
                      (fun s0 => MemoryScreens.set_imageUrl now
                                   (MemoryScreens.default_image s0) s0)
                      screens)
                 = Some (MemoryScreens.set_imageUrl now
                           (MemoryScreens.default_image s) s)).
    { rewrite find_modify_found by reflexivity. now rewrite Hs. }
    exists (MemoryScreens.set_imageUrl now (MemoryScreens.default_image s) s).
    eexists. unfold MemoryScreens.resetImage. rewrite Hf.
    split; [reflexivity|].
    cbn [MemoryScreens.set_imageUrl MemoryScreens.id MemoryScreens.imageUrl
         MemoryScreens.updatedAt MemoryScreens.default_image].
    split; [exact Hid|].
    split; [unfold MemoryScreens.default_image; now rewrite Hid|].
    split; [reflexivity|exact Hf].
Qed.

Lemma memory_image_write_on_unknown_id_witness :
  MemoryScreens.resetImage "7" 200 (MemoryScreens.screens0 100)
  = (MemoryScreens.screens0 100, Ok None)
  /\ exists s screens',
      MemoryScreens.resetImage "2" 200 (MemoryScreens.screens0 100)
      = (screens', Ok (Some s))
      /\ MemoryScreens.imageUrl s = Some "/image2.png".
Proof.
  split.
  - apply (memory_image_write_on_unknown_id Url.has_scheme "7" 200
             (MemoryScreens.screens0 100)). reflexivity.
  - destruct (proj2 (memory_image_write_on_unknown_id Url.has_scheme "2" 200
                       (MemoryScreens.screens0 100)) eq_refl)
      as (s & screens' & H & _ & Hu & _).
    exists s, screens'. split; assumption.
Defined.

(** X7. The in-memory [resetAllImages] cannot fail; afterwards every
    screen holds "/image<id>.png" and is stamped with the time of the
    call, the positions are the ones held before, and the answer is the
    array in ascending position order. *)
Theorem memory_resetAll_defaults :
  forall now screens,
    exists rows,
      MemoryScreens.resetAllImages now screens = (rows, Ok rows)
      /\ (forall s, In s rows ->
                    MemoryScreens.imageUrl s
                    = Some ("/image" ++ MemoryScreens.id s ++ ".png")
                    /\ MemoryScreens.updatedAt s = now)
      /\ Permutation
           (map (fun s => (MemoryScreens.id s, MemoryScreens.position s)) rows)
           (map (fun s => (MemoryScreens.id s, MemoryScreens.position s))
                screens)
      /\ ascending MemoryScreens.position rows.
Proof.
  intros now screens. eexists. split; [reflexivity|].
  split; [|split].
  - intros s Hs. apply In_sort_by in Hs. apply in_map_iff in Hs.
    destruct Hs as (s0 & <- & _). split; reflexivity.
  - eapply Permutation_trans; [apply Permutation_map, sort_by_perm|].
    rewrite map_map. reflexivity.
  - apply sort_by_ascending.
Qed.

(** ** The layout catalog *)

Section CatalogFacts.
Import Prisma.

Lemma find_layout_filter_same (i : string) (rows : list Layout) :
  find_layout i (filter (fun x => negb (String.eqb (l_id x) i)) rows) = None.
Proof.
  induction rows as [|h t IH]; simpl; [reflexivity|].
  destruct (String.eqb (l_id h) i) eqn:E; simpl; [exact IH|].
  now rewrite E.
Qed.

Lemma find_layout_filter_other (i j : string) (rows : list Layout) :
  String.eqb i j = false ->
  find_layout j (filter (fun x => negb (String.eqb (l_id x) i)) rows)
  = find_layout j rows.
Proof.
  intros Hij. induction rows as [|h t IH]; simpl; [reflexivity|].
  destruct (String.eqb (l_id h) i) eqn:E; simpl.
  - apply String.eqb_eq in E. rewrite E, Hij. exact IH.
  - now rewrite IH.
Qed.

Lemma find_layout_rename_same (now : Timestamp) (i n : string)
  (rows : list Layout) :
  find_layout i
    (map (fun x => if String.eqb (l_id x) i then rename now n x else x) rows)
  = option_map (rename now n) (find_layout i rows).
Proof.
  induction rows as [|h t IH]; simpl; [reflexivity|].
  destruct (String.eqb (l_id h) i) eqn:E; simpl; now rewrite E.
Qed.

Lemma find_layout_rename_other (now : Timestamp) (i j n : string)
  (rows : list Layout) :
  String.eqb i j = false ->
  find_layout j
    (map (fun x => if String.eqb (l_id x) i then rename now n x else x) rows)
  = find_layout j rows.
Proof.
  intros Hij. induction rows as [|h t IH]; simpl; [reflexivity|].
  destruct (String.eqb (l_id h) i) eqn:E; simpl.
  - apply String.eqb_eq in E. rewrite E, Hij. exact IH.
  - now rewrite IH.
Qed.

Lemma rename_ids (now : Timestamp) (i n : string) (rows : list Layout) :
  map l_id
    (map (fun x => if String.eqb (l_id x) i then rename now n x else x) rows)
  = map l_id rows.
Proof.
  rewrite map_map. apply map_ext. intros x.
  now destruct (String.eqb (l_id x) i).
Qed.

Lemma find_layout_none (i : string) (rows : list Layout) :
  find_layout i rows = None -> ~ In i (map l_id rows).
Proof.
  induction rows as [|h t IH]; simpl; [tauto|].
  destruct (String.eqb (l_id h) i) eqn:E; [discriminate|].
  intros H [Hh|Ht]; [|now apply IH].
  apply String.eqb_neq in E. contradiction.
Qed.

Lemma find_layout_some (i : string) (l : Layout) (rows : list Layout) :
  find_layout i rows = Some l -> l_id l = i /\ In l rows.
Proof.
  induction rows as [|h t IH]; simpl; [discriminate|].
  destruct (String.eqb (l_id h) i) eqn:E.
  - intros H. inversion H; subst. apply String.eqb_eq in E. auto.
  - intros H. destruct (IH H). auto.
Qed.

Lemma filter_absent (i : string) (rows : list Layout) :
  ~ In i (map l_id rows) ->
  filter (fun x => negb (String.eqb (l_id x) i)) rows = rows.
Proof.
  induction rows as [|h t IH]; simpl; [reflexivity|]. intros H.
  destruct (String.eqb (l_id h) i) eqn:E; simpl.
  - apply String.eqb_eq in E. tauto.
  - rewrite IH; [reflexivity|tauto].
Qed.

(** With distinct ids a delete takes out exactly one layout. *)
Lemma filter_removes_one (i : string) (l : Layout) (rows : list Layout) :
  NoDup (map l_id rows) ->
  find_layout i rows = Some l ->
  S (length (filter (fun x => negb (String.eqb (l_id x) i)) rows))
  = length rows.
Proof.
  induction rows as [|h t IH]; simpl; [discriminate|].
  intros Hnd. inversion Hnd as [|? ? Hnotin Hnd']; subst.
  destruct (String.eqb (l_id h) i) eqn:E; simpl.
  - intros _. apply String.eqb_eq in E. subst i.
    now rewrite filter_absent.
  - intros H. now rewrite (IH Hnd' H).
Qed.

Lemma three_updates_tv (u1 u2 u3 : option string) (now : Timestamp)
  (rows : list Tv) (l1 l2 : list Layout) :
  match run_batch [ tv_update "1" (dataImageUrl u1);
                    tv_update "2" (dataImageUrl u2);
                    tv_update "3" (dataImageUrl u3) ] now (mkDb rows l1),
        run_batch [ tv_update "1" (dataImageUrl u1);
                    tv_update "2" (dataImageUrl u2);
                    tv_update "3" (dataImageUrl u3) ] now (mkDb rows l2) with
  | Ok (d1, _), Ok (d2, _) => tv d1 = tv d2
  | Err e1, Err e2 => e1 = e2
  | _, _ => False
  end.
Proof.
  cbn [run_batch]. unfold tv_update. cbn [tv layout].
  destruct (find_id "1" rows); [|reflexivity]. cbn [tv layout].
  destruct (find_id "2" _); [|reflexivity]. cbn [tv layout].
  destruct (find_id "3" _); reflexivity.
Qed.

Lemma delete_unfold (i : string) (now : Timestamp) (db : Db) :
  LayoutRouter.delete i now db
  = match find_layout i (layout db) with
    | Some l =>
        (mkDb (tv db)
              (filter (fun x => negb (String.eqb (l_id x) i)) (layout db)),
         Ok l)
    | None => (db, Err RecordNotFound)
    end.
Proof.
  unfold LayoutRouter.delete, await, layout_delete.
  destruct (find_layout i (layout db)); reflexivity.
Qed.

Lemma updateName_unfold (i n : string) (now : Timestamp) (db : Db) :
  LayoutRouter.updateName i n now db
  = if LayoutRouter.name_schema n then
      match find_layout i (layout db) with
      | Some l =>
          (mkDb (tv db)
                (map (fun x => if String.eqb (l_id x) i then rename now n x
                               else x) (layout db)),
           Ok (rename now n l))
      | None => (db, Err RecordNotFound)
      end
    else (db, Err (BadRequest "Layout name is required")).
Proof.
  unfold LayoutRouter.updateName, withInput, await, layout_update, throw.
  destruct (LayoutRouter.name_schema n); [|reflexivity].
  destruct (find_layout i (layout db)); reflexivity.
Qed.
End CatalogFacts.

(** X8. [delete] of a layout that exists returns it and takes it out
    of the catalog: it can no longer be found, [restore] of its id then
    fails with "Layout not found" and changes nothing, and every layout
    with another id, and the screen registry, are as before.  [delete]
    of an id that does not exist fails with record-not-found and changes
    nothing. *)
Theorem layout_delete_removes :
  forall i now db,
    (Prisma.find_layout i (Prisma.layout db) = None ->
     LayoutRouter.delete i now db = (db, Err RecordNotFound))
    /\ (forall l,
           Prisma.find_layout i (Prisma.layout db) = Some l ->
           exists db',
             LayoutRouter.delete i now db = (db', Ok l)
             /\ Prisma.tv db' = Prisma.tv db
             /\ Prisma.find_layout i (Prisma.layout db') = None
             /\ (forall j, String.eqb i j = false ->
                           Prisma.find_layout j (Prisma.layout db')
                           = Prisma.find_layout j (Prisma.layout db))
             /\ (forall later,
                    LayoutRouter.restore i later db'
                    = (db', Err (Thrown "Layout not found")))).
Proof.
  intros i now db. rewrite delete_unfold. split.
  - intros ->. reflexivity.
  - intros l ->. eexists. split; [reflexivity|].
    cbn [Prisma.tv Prisma.layout].
    split; [reflexivity|].
    split; [apply find_layout_filter_same|].
    split; [intros j Hj; now apply find_layout_filter_other|].
    intros later. rewrite restore_unfold. cbn [Prisma.layout].
    now rewrite find_layout_filter_same.
Qed.

Lemma layout_delete_removes_witness :
  exists db',
    LayoutRouter.delete "b" 300
      (Prisma.mkDb (seeded 100)
         [ Prisma.mkLayout "a" "Morning" None None None 150 150;
           Prisma.mkLayout "b" "Evening" (Some "/a.png") None None 200 200 ])
    = (db', Ok (Prisma.mkLayout "b" "Evening" (Some "/a.png") None None
                  200 200))
    /\ Prisma.find_layout "b" (Prisma.layout db') = None.
Proof.
  destruct (proj2 (layout_delete_removes "b" 300
              (Prisma.mkDb (seeded 100)
                 [ Prisma.mkLayout "a" "Morning" None None None 150 150;
                   Prisma.mkLayout "b" "Evening" (Some "/a.png") None None
                     200 200 ]))
              _ eq_refl) as (db' & H & _ & Hf & _).
  exists db'. split; assumption.
Defined.

(** X9. [updateName] refuses the empty name with the validation error
    and an unknown id with record-not-found, changing nothing.
    Otherwise it returns the layout under its new name, with its id,
    its three URL fields and its creation time as they were; the other
    layouts and the screen registry are untouched, and [restore] of the
    renamed layout writes the same registry as before the rename. *)
Theorem layout_rename_keeps_snapshot :
  forall i n now db,
    (n = "" ->
     LayoutRouter.updateName i n now db
     = (db, Err (BadRequest "Layout name is required")))
    /\ (n <> "" ->
        Prisma.find_layout i (Prisma.layout db) = None ->
        LayoutRouter.updateName i n now db = (db, Err RecordNotFound))
    /\ (forall l,
           n <> "" ->
           Prisma.find_layout i (Prisma.layout db) = Some l ->
           exists db',
             LayoutRouter.updateName i n now db
             = (db', Ok (Prisma.mkLayout (Prisma.l_id l) n (Prisma.tv1Url l)
                           (Prisma.tv2Url l) (Prisma.tv3Url l) now
                           (Prisma.l_createdAt l)))
             /\ Prisma.tv db' = Prisma.tv db
             /\ Prisma.find_layout i (Prisma.layout db')
                = Some (Prisma.mkLayout (Prisma.l_id l) n (Prisma.tv1Url l)
                          (Prisma.tv2Url l) (Prisma.tv3Url l) now
                          (Prisma.l_createdAt l))
             /\ (forall j, String.eqb i j = false ->
                           Prisma.find_layout j (Prisma.layout db')
                           = Prisma.find_layout j (Prisma.layout db))
             /\ (forall later,
                    Prisma.tv (fst (LayoutRouter.restore i later db'))
                    = Prisma.tv (fst (LayoutRouter.restore i later db)))).
Proof.
  intros i n now db. rewrite updateName_unfold. split; [|split].
  - intros ->. reflexivity.
  - intros Hn ->. now rewrite (proj2 (name_schema_spec n) Hn).
  - intros l Hn Hl. rewrite (proj2 (name_schema_spec n) Hn), Hl.
    eexists. split; [reflexivity|]. cbn [Prisma.tv Prisma.layout].
    split; [reflexivity|].
    split; [now rewrite find_layout_rename_same, Hl|].
    split; [intros j Hj; now apply find_layout_rename_other|].
    intros later. rewrite !restore_unfold. cbn [Prisma.layout].
    rewrite find_layout_rename_same, Hl. cbn [option_map].
    cbn [Prisma.rename Prisma.tv1Url Prisma.tv2Url Prisma.tv3Url].
    destruct db as [rows layouts]. cbn [Prisma.tv Prisma.layout].
    pose proof (three_updates_tv (Prisma.tv1Url l) (Prisma.tv2Url l)
                  (Prisma.tv3Url l) later rows
                  (map (fun x => if String.eqb (Prisma.l_id x) i
                                 then Prisma.rename now n x else x) layouts)
                  layouts) as H.
    destruct (Prisma.run_batch _ later (Prisma.mkDb rows (map _ layouts)))
      as [[d1 r1]|e1];
      destruct (Prisma.run_batch _ later (Prisma.mkDb rows layouts))
        as [[d2 r2]|e2]; cbn [fst Prisma.tv]; try contradiction;
      [exact H|reflexivity].
Qed.

Lemma layout_rename_keeps_snapshot_witness :
  exists db',
    LayoutRouter.updateName "b" "Night" 300
      (Prisma.mkDb (seeded 100)
         [ Prisma.mkLayout "b" "Evening" (Some "/a.png") None None 200 200 ])
    = (db', Ok (Prisma.mkLayout "b" "Night" (Some "/a.png") None None
                  300 200)).
Proof.
  destruct (proj2 (proj2 (layout_rename_keeps_snapshot "b" "Night" 300
              (Prisma.mkDb (seeded 100)
                 [ Prisma.mkLayout "b" "Evening" (Some "/a.png") None None
                     200 200 ])))
              _ ltac:(discriminate) eq_refl) as (db' & H & _).
  exists db'. exact H.
Defined.

Section CatalogInvariant.
Import Prisma.

Lemma serve_layout_ids (stamps_empty : bool) (URL_ok : string -> bool)
  (r : StoreRequest) (now : Timestamp) (db : Db) :
  NoDup (map l_id (layout db)) ->
  NoDup (map l_id (layout (serve stamps_empty URL_ok r now db))).
Proof.
  intros Hnd. destruct r; cbn [serve].
  - destruct db as [[|h t] layouts]; [exact Hnd|].
    now rewrite getAll_on_rows.
  - destruct (updateOrder_atomic input now db) as [(rows & db' & H)|(e & H)].
    + destruct (forallb (fun u => known (map id (tv db)) (fst u)) input)
        eqn:K.
      * now rewrite updateOrder_known by exact K.
      * rewrite updateOrder_unknown in H by exact K. discriminate.
    + now rewrite H.
  - unfold ScreenRouter.updateImage, withInput.
    destruct (ScreenRouter.imageUrl_schema URL_ok u); [|exact Hnd].
    unfold await, tv_update. destruct (find_id i (tv db)); exact Hnd.
  - unfold ScreenRouter.resetImage, await, tv_update.
    destruct (find_id i (tv db)); exact Hnd.
  - rewrite resetAll_unfold. cbv zeta.
    assert (Hl : layout (if stamps_empty
                         then mkDb (map (apply_data now noData) (tv db))
                                   (layout db)
                         else db) = layout db)
      by (now destruct stamps_empty).
    destruct (run_batch _ now _) as [[db' rs]|e] eqn:E; cbn [fst].
    + destruct (run_batch_in_place _ (three_in_place _ _ _) _ _ _ _ E)
        as (_ & Hl').
      now rewrite Hl', Hl.
    + now rewrite Hl.
  - exact Hnd.
  - exact Hnd.
  - unfold LayoutRouter.save, withInput.
    destruct (LayoutRouter.name_schema n); [|exact Hnd].
    unfold await, layout_create.
    destruct (find_layout nanoid (layout db)) eqn:F; [exact Hnd|].
    cbn [fst layout]. rewrite map_app. cbn [map l_id].
    rewrite <- (rev_involutive (map l_id (layout db) ++ [nanoid])).
    apply NoDup_rev. rewrite rev_app_distr. cbn [rev app].
    constructor.
    + rewrite <- in_rev. now apply find_layout_none.
    + now apply NoDup_rev.
  - rewrite restore_unfold.
    destruct (find_layout i (layout db)) as [l|]; [|exact Hnd].
    destruct (run_batch _ now db) as [[db' rs]|e] eqn:E; [|exact Hnd].
    destruct (run_batch_in_place _ (three_in_place _ _ _) _ _ _ _ E)
      as (_ & Hl'). cbn [fst]. now rewrite Hl'.
  - rewrite delete_unfold.
    destruct (find_layout i (layout db)); [|exact Hnd].
    cbn [fst layout].
    induction (layout db) as [|h t IH]; simpl; [constructor|].
    inversion Hnd as [|? ? Hnotin Hnd']; subst.
    destruct (String.eqb (l_id h) i); simpl; [now apply IH|].
    constructor; [|now apply IH].
    intros Hin. apply Hnotin. apply in_map_iff in Hin.
    destruct Hin as (x & Hx & Hf). apply filter_In in Hf.
    apply in_map_iff. exists x. tauto.
  - rewrite updateName_unfold.
    destruct (LayoutRouter.name_schema n); [|exact Hnd].
    destruct (find_layout i (layout db)); [|exact Hnd].
    cbn [fst layout]. now rewrite rename_ids.
Qed.
End CatalogInvariant.

(** X10. In every store the system reaches the layouts have distinct
    ids, so a [delete] that succeeds takes exactly one layout out of the
    catalog. *)
Theorem layout_ids_distinct :
  forall stamps_empty URL_ok db,
    store_reachable stamps_empty URL_ok db ->
    NoDup (map Prisma.l_id (Prisma.layout db))
    /\ forall i now l,
        Prisma.find_layout i (Prisma.layout db) = Some l ->
        S (length (Prisma.layout (fst (LayoutRouter.delete i now db))))
        = length (Prisma.layout db).
Proof.
  intros stamps_empty URL_ok db Hr.
  assert (Hnd : NoDup (map Prisma.l_id (Prisma.layout db))).
  { induction Hr as [|db r now _ IH]; [constructor|].
    now apply serve_layout_ids. }
  split; [exact Hnd|].
  intros i now l Hl. rewrite delete_unfold, Hl. cbn [fst Prisma.layout].
  now apply (filter_removes_one i l).
Qed.

Lemma layout_ids_distinct_witness :
  NoDup (map Prisma.l_id
           (Prisma.layout
              (serve true Url.has_scheme
                 (LayoutSave "b" "Evening" None None None) 200
                 (serve true Url.has_scheme
                    (LayoutSave "b" "Morning" None None None) 100
                    Prisma.empty)))).
Proof.
  apply (layout_ids_distinct true Url.has_scheme).
  apply store_step, store_step, store_start.
Defined.

(** X11. The layout [getAll] never fails and leaves the store as it
    is; it returns every layout exactly once, newest creation time
    first. *)
Theorem layout_getAll_newest_first :
  forall now db,
    exists rows,
      LayoutRouter.getAll now db = (db, Ok rows)
      /\ Permutation rows (Prisma.layout db)
      /\ Sorted (fun a b => Prisma.l_createdAt b <= Prisma.l_createdAt a) rows.
Proof.
  intros now db. eexists. split; [reflexivity|].
  split; [apply sort_by_perm|].
  pose proof (sort_by_ascending (fun l => - Prisma.l_createdAt l)
                (Prisma.layout db)) as H.
  unfold ascending in H.
  induction H as [|a l Hl IH Hhd]; constructor; [exact IH|].
  destruct Hhd; constructor. lia.
Qed.

(** ** The two signals *)

Section TwoSignals.
Import Signals.

Lemma fold_on_timeout (pending : list (nat * Timestamp)) (st : State) :
  fold_left (fun s _ => on_timeout s) pending st
  = match pending with
    | [] => st
    | _ :: _ => on_timeout st
    end.
Proof.
  revert st. induction pending as [|t rest IH]; intros st; [reflexivity|].
  simpl. rewrite IH. destruct rest; reflexivity.
Qed.

Lemma fired_spec (now : Timestamp) (pending : list (nat * Timestamp)) :
  match filter (due now) pending with
  | [] => existsb (due now) pending = false
  | _ :: _ => existsb (due now) pending = true
  end.
Proof.
  induction pending as [|t rest IH]; simpl; [reflexivity|].
  destruct (due now t); simpl; [reflexivity|exact IH].
Qed.

Lemma run_timers_unfold (now : Timestamp) (st : State) :
  run_timers now st
  = if existsb (due now) (timers st) then
      mkState (showTVNumbers st) false None
        (filter (fun t => negb (due now t)) (timers st)) (next_handle st)
    else
      mkState (showTVNumbers st) (triggerReload st) (triggerReloadTimeout st)
        (filter (fun t => negb (due now t)) (timers st)) (next_handle st).
Proof.
  unfold run_timers. rewrite fold_on_timeout.
  pose proof (fired_spec now (timers st)) as H.
  destruct (filter (due now) (timers st)); now rewrite H.
Qed.


Lemma same_reload_trans (a b c : State) :
  same_reload a b -> same_reload b c -> same_reload a c.
Proof.
  intros (A1 & A2 & A3 & A4) (B1 & B2 & B3 & B4).
  repeat split; congruence.
Qed.

Lemma run_timers_same (now : Timestamp) (a b : State) :
  same_reload a b -> same_reload (run_timers now a) (run_timers now b).
Proof.
  intros (H1 & H2 & H3 & H4). rewrite !run_timers_unfold, H1, H2, H3, H4.
  destruct (existsb (due now) (timers b)); repeat split.
Qed.

Lemma run_timers_show (now : Timestamp) (st : State) :
  showTVNumbers (run_timers now st) = showTVNumbers st.
Proof.
  rewrite run_timers_unfold.
  destruct (existsb (due now) (timers st)); reflexivity.
Qed.

Lemma set_reload_same (trigger : bool) (now : Timestamp) (a b : State) :
  same_reload a b ->
  same_reload (fst (setTriggerReload trigger now a))
              (fst (setTriggerReload trigger now b)).
Proof.
  intros (H1 & H2 & H3 & H4). unfold setTriggerReload.
  rewrite H2, H3, H4.
  destruct trigger; destruct (triggerReloadTimeout b); repeat split.
Qed.

Lemma set_reload_show (trigger : bool) (now : Timestamp) (st : State) :
  showTVNumbers (fst (setTriggerReload trigger now st)) = showTVNumbers st.
Proof.
  unfold setTriggerReload.
  destruct trigger; destruct (triggerReloadTimeout st); reflexivity.
Qed.

Lemma run_events_snoc (evs : list (Timestamp * Event))
  (ev : Timestamp * Event) :
  run_events (evs ++ [ev]) = handle (run_events evs) ev.
Proof. unfold run_events. now rewrite fold_left_app. Qed.

Lemma due_later (t0 t : Timestamp) (x : nat * Timestamp) :
  t0 <= t -> due t0 x = true -> due t x = true.
Proof. unfold due. rewrite !Z.leb_le. lia. Qed.

Lemma filter_later (t0 t : Timestamp) (pending : list (nat * Timestamp)) :
  t0 <= t ->
  filter (fun x => negb (due t x)) (filter (fun x => negb (due t0 x)) pending)
  = filter (fun x => negb (due t x)) pending.
Proof.
  intros Hle. induction pending as [|x rest IH]; simpl; [reflexivity|].
  destruct (due t0 x) eqn:E0; simpl.
  - rewrite (due_later t0 t x Hle E0). exact IH.
  - destruct (due t x); simpl; now rewrite IH.
Qed.

Lemma fired_later (t0 t : Timestamp) (pending : list (nat * Timestamp)) :
  t0 <= t ->
  existsb (due t0) pending
  || existsb (due t) (filter (fun x => negb (due t0 x)) pending)
  = existsb (due t) pending.
Proof.
  intros Hle. induction pending as [|x rest IH]; simpl; [reflexivity|].
  destruct (due t0 x) eqn:E0; simpl.
  - now rewrite (due_later t0 t x Hle E0).
  - rewrite <- IH. destruct (due t x), (existsb (due t0) rest); reflexivity.
Qed.

(** Letting the timers run at an earlier reading first makes no
    difference. *)
Lemma run_timers_later (t0 t : Timestamp) (st : State) :
  t0 <= t -> run_timers t (run_timers t0 st) = run_timers t st.
Proof.
  intros Hle. rewrite (run_timers_unfold t0 st).
  pose proof (fired_later t0 t (timers st) Hle) as Hf.
  pose proof (filter_later t0 t (timers st) Hle) as Hk.
  destruct (existsb (due t0) (timers st)) eqn:E0;
    rewrite run_timers_unfold; cbn [timers showTVNumbers triggerReload
      triggerReloadTimeout next_handle]; rewrite Hk;
    rewrite (run_timers_unfold t st); rewrite <- Hf; cbn [orb].
  - now destruct (existsb (due t) _).
  - reflexivity.
Qed.
End TwoSignals.

(** X12. The two signals do not touch each other.  In a history of
    [setShowTVNumbers] and [setTriggerReload] requests arriving in clock
    order, [getShowTVNumbers] answers what the last [setShowTVNumbers]
    set ([false] before the first), whatever reloads and timers ran, and
    a poll of the reload flag answers what it would answer had the
    [setShowTVNumbers] requests never been made. *)
Theorem signals_independent :
  forall evs t,
    Sorted Z.le (map fst evs ++ [t]) ->
    Signals.getShowTVNumbers (Signals.run_timers t (Signals.run_events evs))
    = last_show evs
    /\ Signals.poll t (Signals.run_events evs)
       = Signals.poll t (Signals.run (reload_only evs)).
Proof.
  intros evs t Hs. split.
  - unfold Signals.getShowTVNumbers. rewrite run_timers_show. clear Hs.
    induction evs as [|[t0 e] evs IH] using rev_ind; [reflexivity|].
    rewrite run_events_snoc. unfold last_show. rewrite fold_left_app.
    fold (last_show evs). cbn [fold_left snd]. unfold Signals.handle.
    cbn [fst snd]. destruct e as [trigger|show].
    + now rewrite set_reload_show, run_timers_show.
    + reflexivity.
  - assert (H : same_reload (Signals.run_timers t (Signals.run_events evs))
                  (Signals.run_timers t (Signals.run (reload_only evs))));
      [|now destruct H].
    revert t Hs.
    induction evs as [|[t0 e] evs IH] using rev_ind; intros t Hs.
    + repeat split.
    + rewrite map_app in Hs. cbn [map fst] in Hs.
      rewrite <- app_assoc in Hs. cbn [app] in Hs.
      assert (Hle : t0 <= t).
      { apply Sorted_StronglySorted in Hs; [|intros x y z; lia].
        clear IH. induction (map fst evs) as [|x xs IHx]; cbn [app] in Hs.
        - inversion Hs as [|? ? _ Hall]; subst. now inversion Hall.
        - inversion Hs; subst. auto. }
      assert (Hprev : Sorted Z.le (map fst evs ++ [t0])).
      { clear IH Hle. induction (map fst evs) as [|x xs IHx]; cbn [app] in *.
        - repeat constructor.
        - inversion Hs as [|? ? Hs' Hhd]; subst. constructor; [auto|].
          destruct xs; cbn [app] in *; inversion Hhd; now constructor. }
      specialize (IH t0 Hprev).
      rewrite run_events_snoc. unfold reload_only. rewrite flat_map_app.
      fold (reload_only evs). unfold Signals.handle.
      destruct e as [trigger|show]; cbn [flat_map snd fst app].
      * rewrite run_snoc. unfold Signals.request. cbn [fst snd].
        apply run_timers_same, set_reload_same, IH.
      * rewrite app_nil_r.
        eapply same_reload_trans.
        -- apply run_timers_same.
           instantiate (1 := Signals.run_timers t0 (Signals.run_events evs)).
           repeat split.
        -- eapply same_reload_trans; [apply run_timers_same, IH|].
           rewrite run_timers_later by exact Hle. repeat split.
Qed.

Lemma signals_independent_witness :
  Signals.getShowTVNumbers
    (Signals.run_timers 9000
       (Signals.run_events
          [ (1000, Signals.SetTriggerReload true);
            (2000, Signals.SetShowTVNumbers true);
            (7000, Signals.SetTriggerReload true) ])) = true
  /\ Signals.poll 9000
       (Signals.run_events
          [ (1000, Signals.SetTriggerReload true);
            (2000, Signals.SetShowTVNumbers true);
            (7000, Signals.SetTriggerReload true) ])
     = Signals.poll 9000 (Signals.run [(1000, true); (7000, true)]).
Proof.
  apply (signals_independent
           [ (1000, Signals.SetTriggerReload true);
             (2000, Signals.SetShowTVNumbers true);
             (7000, Signals.SetTriggerReload true) ] 9000).
  repeat constructor; simpl; lia.
Defined.

(** ** Serving and deleting images *)

Lemma mime_of_keys (ext : string) (table : list (string * string)) :
  match ImageRoute.mime_of ext table with Some _ => true | None => false end
  = existsb (String.eqb ext) (map fst table).
Proof.
  induction table as [|[e m] rest IH]; simpl; [reflexivity|].
  rewrite (String.eqb_sym ext e). destruct (String.eqb e ext); simpl.
  - reflexivity.
  - exact IH.
Qed.

Lemma isImageFile_agree (filename : string) :
  ImageRoute.isImageFile filename = ImagesRouter.isImageFile filename.
Proof.
  unfold ImageRoute.isImageFile, ImagesRouter.isImageFile.
  cbv zeta. rewrite mime_of_keys. reflexivity.
Qed.

Lemma production_dir (w : Fs.World) :
  Fs.NODE_ENV w = "production" ->
  ImageRoute.getDataDirectory w = "/data/images"
  /\ ImagesRouter.getDataDirectory w = "/data/images".
Proof.
  intros H. unfold ImageRoute.getDataDirectory, ImagesRouter.getDataDirectory.
  now rewrite H.
Qed.

(** What the route answers for a name that passes its checks, in
    production: 404 when nothing is found at the path below
    /data/images, 500 when a directory is found, the file otherwise. *)
Lemma GET_plain (filename : string) (w : Fs.World) :
  Fs.NODE_ENV w = "production" ->
  Js.includes filename ".." = false ->
  Js.includes filename "/" = false ->
  Js.includes filename ImageRoute.backslash = false ->
  ImageRoute.isImageFile filename = true ->
  ImageRoute.GET filename w
  = let p := "/data/images/" ++ filename in
    match Fs.find p w with
    | None =>
        (Fs.record (Fs.Access p) w, ImageRoute.text "Image not found" 404)
    | Some (Fs.mkDir _ _) =>
        (Fs.record (Fs.ReadFile p) (Fs.record (Fs.Access p) w),
         ImageRoute.text "Internal server error" 500)
    | Some (Fs.mkFile b m) =>
        (Fs.record (Fs.Stat p)
           (Fs.record (Fs.ReadFile p) (Fs.record (Fs.Access p) w)),
         ImageRoute.mkResponse 200 b
           (ImageRoute.mime_of (Js.toLowerCase (Path.extname filename))
              ImageRoute.IMAGE_MIME_TYPES)
           (Some (Z.of_nat (String.length b)))
           (Some (Js.toUTCString m)))
    end.
Proof.
  intros Henv Hdd Hs Hb Himg.
  pose proof (image_name_plain _ Himg) as Hp.
  unfold ImageRoute.GET. rewrite Hdd, Hs, Hb, Himg. cbn [orb negb].
  rewrite (proj1 (production_dir w Henv)).
  rewrite (join_image filename Hp Hs).
  rewrite (resolve_image (Fs.cwd w) filename Hp Hs), resolve_root.
  replace (Js.startsWith ("/data/images/" ++ filename) "/data/images")
    with true by reflexivity.
  cbn [negb]. unfold Fs.access, Fs.readFile, Fs.stat. cbv zeta.
  rewrite !find_record.
  cbn [Fs.cwd Fs.record].
  rewrite (resolve_image (Fs.cwd w) filename Hp Hs).
  destruct (Fs.find ("/data/images/" ++ filename) w) as [[b m|sz m]|];
    [|reflexivity|reflexivity].
  cbn [Fs.size Fs.mtime].
  unfold ImageRoute.isImageFile in Himg. cbv zeta in Himg.
  destruct (ImageRoute.mime_of (Js.toLowerCase (Path.extname filename))
              ImageRoute.IMAGE_MIME_TYPES); [reflexivity|discriminate].
Qed.

Lemma mime_of_In (ext m : string) (table : list (string * string)) :
  ImageRoute.mime_of ext table = Some m -> In m (map snd table).
Proof.
  induction table as [|[e x] rest IH]; simpl; [discriminate|].
  destruct (String.eqb e ext).
  - intros H. inversion H. now left.
  - intros H. right. now apply IH.
Qed.

(** X13. The images router and the serving route accept the same file
    names as images, and every name they accept has a MIME type in the
    route's table: whenever the route answers 200, in any environment,
    the content type is the table's type for the lower-cased extension,
    one of the six image types, never the fallback
    "application/octet-stream". *)
Theorem image_types_agree :
  (forall filename,
      ImageRoute.isImageFile filename = ImagesRouter.isImageFile filename)
  /\ (forall filename w,
         ImageRoute.status (snd (ImageRoute.GET filename w)) = 200 ->
         exists m,
           ImageRoute.contentType (snd (ImageRoute.GET filename w)) = Some m
           /\ ImageRoute.mime_of (Js.toLowerCase (Path.extname filename))
                ImageRoute.IMAGE_MIME_TYPES = Some m
           /\ In m [ "image/jpeg"; "image/png"; "image/gif"; "image/webp";
                     "image/svg+xml"; "image/bmp" ]).
Proof.
  split; [exact isImageFile_agree|].
  intros filename w. unfold ImageRoute.GET.
  destruct (Js.includes filename ".." || Js.includes filename "/"
            || Js.includes filename ImageRoute.backslash);
    [discriminate|].
  destruct (ImageRoute.isImageFile filename) eqn:Himg; [|discriminate].
  cbn [negb].
  destruct (negb (Js.startsWith _ _)); [discriminate|].
  destruct (Fs.access _ w) as [w1 [[]|]]; [|discriminate].
  destruct (Fs.readFile _ w1) as [w2 [buffer|]]; [|discriminate].
  destruct (Fs.stat _ w2) as [w3 [stats|]]; [|discriminate].
  intros _. cbn [snd ImageRoute.contentType].
  unfold ImageRoute.isImageFile in Himg. cbv zeta in Himg.
  destruct (ImageRoute.mime_of (Js.toLowerCase (Path.extname filename))
              ImageRoute.IMAGE_MIME_TYPES) as [m|] eqn:Hm; [|discriminate].
  exists m. split; [reflexivity|]. split; [reflexivity|].
  apply mime_of_In in Hm. cbn in Hm. cbn. tauto.
Qed.

Lemma image_types_agree_witness :
  exists m,
    ImageRoute.contentType
      (snd (ImageRoute.GET "logo.SVG"
              (production [("/data/images/logo.SVG", Fs.mkFile "<svg/>" 7)])))
    = Some m
    /\ ImageRoute.mime_of (Js.toLowerCase (Path.extname "logo.SVG"))
         ImageRoute.IMAGE_MIME_TYPES = Some m
    /\ In m [ "image/jpeg"; "image/png"; "image/gif"; "image/webp";
              "image/svg+xml"; "image/bmp" ].
Proof.
  apply (proj2 image_types_agree "logo.SVG"
           (production [("/data/images/logo.SVG", Fs.mkFile "<svg/>" 7)])).
  reflexivity.
Defined.

(** X14. The serving route refuses a name that holds "..", "/" or a
    backslash with status 400 before it makes any call on the file
    system, in any environment; and in production every call it makes,
    for whatever name, is on a path below /data/images, and it changes
    no file. *)
Theorem route_confined :
  (forall filename w,
      Js.includes filename ".." = true
      \/ Js.includes filename "/" = true
      \/ Js.includes filename ImageRoute.backslash = true ->
      ImageRoute.GET filename w = (w, ImageRoute.text "Invalid filename" 400))
  /\ (forall filename cwd files,
         Forall (fun c => Fs.inside "/data/images" (Fs.path_of c) = true)
           (Fs.calls (fst (ImageRoute.GET filename
                             (Fs.mkWorld "production" cwd files []))))
         /\ Fs.files (fst (ImageRoute.GET filename
                              (Fs.mkWorld "production" cwd files [])))
            = files).
Proof.
  split; [exact GET_refuses_traversal|].
  intros filename cwd files. apply GET_stays_inside.
Qed.

Lemma route_confined_witness :
  ImageRoute.GET "x/../../etc/passwd.png" (production volume)
  = (production volume, ImageRoute.text "Invalid filename" 400).
Proof.
  apply (proj1 route_confined). left. reflexivity.
Defined.

(** X15. In production, for a name without "..", "/" or backslash that
    has an image extension, what the route answers is decided by what
    is found at /data/images/<name>.  Nothing (no entry, or a name the
    system does not accept): 404 "Image not found".  A regular file:
    200 with exactly that file's bytes, their length as content length
    and the file's modification time, written to the second by
    [toUTCString], as Last-Modified.  A directory: 500 "Internal server
    error", as reading it fails after [access] has let it through. *)
Theorem route_serves_file :
  forall filename w,
    Fs.NODE_ENV w = "production" ->
    Js.includes filename ".." = false ->
    Js.includes filename "/" = false ->
    Js.includes filename ImageRoute.backslash = false ->
    ImageRoute.isImageFile filename = true ->
    (Fs.find ("/data/images/" ++ filename) w = None ->
     snd (ImageRoute.GET filename w) = ImageRoute.text "Image not found" 404)
    /\ (forall b m,
           Fs.find ("/data/images/" ++ filename) w = Some (Fs.mkFile b m) ->
           ImageRoute.status (snd (ImageRoute.GET filename w)) = 200
           /\ ImageRoute.body (snd (ImageRoute.GET filename w)) = b
           /\ ImageRoute.contentLength (snd (ImageRoute.GET filename w))
              = Some (Z.of_nat (String.length b))
           /\ ImageRoute.lastModified (snd (ImageRoute.GET filename w))
              = Some (Js.toUTCString m))
    /\ (forall size m,
           Fs.find ("/data/images/" ++ filename) w = Some (Fs.mkDir size m) ->
           snd (ImageRoute.GET filename w)
           = ImageRoute.text "Internal server error" 500).
Proof.
  intros filename w Henv Hdd Hs Hb Himg.
  rewrite (GET_plain filename w Henv Hdd Hs Hb Himg). cbv zeta.
  split; [intros ->; reflexivity|].
  split; [intros b m ->; repeat split|intros size m ->; reflexivity].
Qed.

Lemma route_serves_file_witness :
  ImageRoute.body (snd (ImageRoute.GET "a.png" (production disk))) = "A"
  /\ ImageRoute.lastModified (snd (ImageRoute.GET "a.png" (production disk)))
     = Some "Tue, 14 Nov 2023 22:13:20 GMT"
  /\ snd (ImageRoute.GET "b.png" (production disk))
     = ImageRoute.text "Image not found" 404
  /\ snd (ImageRoute.GET "dir.png" (production disk))
     = ImageRoute.text "Internal server error" 500.
Proof.
  assert (Henv : Fs.NODE_ENV (production disk) = "production")
    by reflexivity.
  assert (Ha : ImageRoute.isImageFile "a.png" = true) by reflexivity.
  assert (Hb : ImageRoute.isImageFile "b.png" = true) by reflexivity.
  assert (Hd : ImageRoute.isImageFile "dir.png" = true) by reflexivity.
  destruct (route_serves_file "a.png" (production disk)
              Henv eq_refl eq_refl eq_refl Ha) as (_ & Hfound & _).
  destruct (route_serves_file "b.png" (production disk)
              Henv eq_refl eq_refl eq_refl Hb) as (Hmiss & _).
  destruct (route_serves_file "dir.png" (production disk)
              Henv eq_refl eq_refl eq_refl Hd) as (_ & _ & Hdir).
  assert (Fa : Fs.find "/data/images/a.png" (production disk)
               = Some (Fs.mkFile "A" 1700000000123))
    by (vm_compute; reflexivity).
  assert (Fb : Fs.find "/data/images/b.png" (production disk) = None)
    by (vm_compute; reflexivity).
  assert (Fd : Fs.find "/data/images/dir.png" (production disk)
               = Some (Fs.mkDir 4096 3))
    by (vm_compute; reflexivity).
  destruct (Hfound _ _ Fa) as (_ & Hbody & _ & Hlm).
  split; [exact Hbody|].
  split; [rewrite Hlm; vm_compute; reflexivity|].
  split; [exact (Hmiss Fb)|exact (Hdir _ _ Fd)].
Defined.

Lemma lookup_remove_same (p : string) (fs : list (string * Fs.File)) :
  Fs.lookup p (Fs.remove p fs) = None.
Proof.
  induction fs as [|[q f] rest IH]; simpl; [reflexivity|].
  destruct (String.eqb q p) eqn:E; simpl; [exact IH|].
  now rewrite E.
Qed.

Lemma lookup_remove_other (p q : string) (fs : list (string * Fs.File)) :
  String.eqb p q = false ->
  Fs.lookup q (Fs.remove p fs) = Fs.lookup q fs.
Proof.
  intros Hpq. induction fs as [|[r f] rest IH]; simpl; [reflexivity|].
  destruct (String.eqb r p) eqn:E; simpl.
  - apply String.eqb_eq in E. subst r. rewrite Hpq. exact IH.
  - now rewrite IH.
Qed.

(** Nothing is found at a place whose entry was removed. *)
Lemma find_removed (name : string) (env cwd : string)
  (fs : list (string * Fs.File)) (calls : list Fs.Call) :
  plain name -> Js.includes name "/" = false ->
  Fs.find ("/data/images/" ++ name)
    (Fs.mkWorld env cwd (Fs.remove ("/data/images/" ++ name) fs) calls)
  = None.
Proof.
  intros Hp Hs. unfold Fs.find. cbn [Fs.cwd Fs.files].
  rewrite (resolve_image cwd name Hp Hs), lookup_remove_same.
  now destruct (Fs.valid_path _).
Qed.

(** What [delete] does for a name without "/" that has an image
    extension, in production. *)
Lemma delete_plain (name : string) (w : Fs.World) :
  Fs.NODE_ENV w = "production" ->
  Js.includes name "/" = false ->
  ImagesRouter.isImageFile name = true ->
  ImagesRouter.delete name w
  = let p := "/data/images/" ++ name in
    match Fs.find p w with
    | None =>
        (Fs.record (Fs.Access p) w, Err (Thrown "Failed to delete image"))
    | Some (Fs.mkDir _ _) =>
        (Fs.record (Fs.Unlink p) (Fs.record (Fs.Access p) w),
         Err (Thrown "Failed to delete image"))
    | Some (Fs.mkFile _ _) =>
        (Fs.mkWorld (Fs.NODE_ENV w) (Fs.cwd w) (Fs.remove p (Fs.files w))
           (Fs.calls w ++ [Fs.Access p; Fs.Unlink p])%list,
         Ok (true, "Image deleted successfully"))
    end.
Proof.
  intros Henv Hs Himg.
  assert (Hp : plain name)
    by (apply image_name_plain; now rewrite isImageFile_agree).
  unfold ImagesRouter.delete, ImagesRouter.delete_body.
  rewrite (proj2 (production_dir w Henv)), Himg.
  rewrite (join_image name Hp Hs).
  rewrite (resolve_image (Fs.cwd w) name Hp Hs), resolve_root.
  replace (Js.startsWith ("/data/images/" ++ name) "/data/images")
    with true by reflexivity.
  cbn [negb]. unfold Fs.access, Fs.unlink. cbv zeta.
  rewrite !find_record. cbn [Fs.cwd Fs.record].
  rewrite (resolve_image (Fs.cwd w) name Hp Hs).
  destruct (Fs.find ("/data/images/" ++ name) w) as [[b m|sz m]|];
    [|reflexivity|reflexivity].
  cbn [Fs.cwd Fs.files Fs.record Fs.NODE_ENV Fs.calls].
  now rewrite <- app_assoc.
Qed.

(** X16. In production, [delete] of a name without "/" that has an
    image extension removes the regular file at /data/images/<name>
    and answers success: the file is gone, every entry elsewhere is as
    before (the image directory apart, whose time the removal changes),
    and a second [delete] of the name fails.  When nothing is found at
    the path, or a directory, it fails with "Failed to delete image"
    and changes no entry. *)
Theorem delete_removes_file :
  forall name w,
    Fs.NODE_ENV w = "production" ->
    Js.includes name "/" = false ->
    ImagesRouter.isImageFile name = true ->
    (Fs.find ("/data/images/" ++ name) w = None ->
     snd (ImagesRouter.delete name w) = Err (Thrown "Failed to delete image")
     /\ Fs.files (fst (ImagesRouter.delete name w)) = Fs.files w)
    /\ (forall size m,
           Fs.find ("/data/images/" ++ name) w = Some (Fs.mkDir size m) ->
           snd (ImagesRouter.delete name w)
           = Err (Thrown "Failed to delete image")
           /\ Fs.files (fst (ImagesRouter.delete name w)) = Fs.files w)
    /\ (forall b m,
           Fs.find ("/data/images/" ++ name) w = Some (Fs.mkFile b m) ->
           let w' := fst (ImagesRouter.delete name w) in
           snd (ImagesRouter.delete name w)
           = Ok (true, "Image deleted successfully")
           /\ Fs.find ("/data/images/" ++ name) w' = None
           /\ (forall q, String.eqb ("/data/images/" ++ name) q = false ->
                         String.eqb "/data/images" q = false ->
                         Fs.lookup q (Fs.files w') = Fs.lookup q (Fs.files w))
           /\ snd (ImagesRouter.delete name w')
              = Err (Thrown "Failed to delete image")).
Proof.
  intros name w Henv Hs Himg.
  assert (Hp : plain name)
    by (apply image_name_plain; now rewrite isImageFile_agree).
  rewrite (delete_plain name w Henv Hs Himg). cbv zeta.
  split; [intros ->; split; reflexivity|].
  split; [intros size m ->; split; reflexivity|].
  intros b m ->. cbn [fst snd Fs.files].
  split; [reflexivity|].
  split; [now apply find_removed|].
  split; [intros q Hq _; now apply lookup_remove_other|].
  rewrite delete_plain; [|exact Henv|exact Hs|exact Himg].
  cbv zeta. cbn [Fs.NODE_ENV Fs.cwd Fs.files].
  now rewrite (find_removed name _ _ _ _ Hp Hs).
Qed.

Lemma delete_removes_file_witness :
  snd (ImagesRouter.delete "a.png" (production disk))
  = Ok (true, "Image deleted successfully")
  /\ Fs.find "/data/images/a.png"
       (fst (ImagesRouter.delete "a.png" (production disk))) = None
  /\ snd (ImagesRouter.delete "dir.png" (production disk))
     = Err (Thrown "Failed to delete image").
Proof.
  assert (Henv : Fs.NODE_ENV (production disk) = "production")
    by reflexivity.
  assert (Ha : ImagesRouter.isImageFile "a.png" = true) by reflexivity.
  assert (Hd : ImagesRouter.isImageFile "dir.png" = true) by reflexivity.
  assert (Fa : Fs.find "/data/images/a.png" (production disk)
               = Some (Fs.mkFile "A" 1700000000123))
    by (vm_compute; reflexivity).
  assert (Fd : Fs.find "/data/images/dir.png" (production disk)
               = Some (Fs.mkDir 4096 3))
    by (vm_compute; reflexivity).
  destruct (delete_removes_file "a.png" (production disk)
              Henv eq_refl Ha) as (_ & _ & Hfile).
  destruct (delete_removes_file "dir.png" (production disk)
              Henv eq_refl Hd) as (_ & Hdir & _).
  destruct (Hfile _ _ Fa) as (H1 & H2 & _).
  destruct (Hdir _ _ Fd) as (H3 & _).
  split; [exact H1|]. split; [exact H2|exact H3].
Defined.




(** ** Uploading *)

Lemma append_empty (s : string) : s ++ "" = s.
Proof. induction s as [|c rest IH]; simpl; [reflexivity|now rewrite IH]. Qed.

Lemma all_chars_weaken (p q : ascii -> bool) (s : string) :
  (forall c, p c = true -> q c = true) ->
  all_chars p s = true -> all_chars q s = true.
Proof.
  intros Hpq. induction s as [|c rest IH]; simpl; [reflexivity|].
  intros H. apply andb_true_iff in H as [Hc Hr].
  now rewrite (Hpq c Hc), IH.
Qed.

Lemma all_chars_app (p : ascii -> bool) (a b : string) :
  all_chars p (a ++ b) = all_chars p a && all_chars p b.
Proof.
  induction a as [|c rest IH]; simpl; [reflexivity|].
  now rewrite IH, andb_assoc.
Qed.

Lemma uuid_char_not (c x : ascii) :
  uuid_char x = false -> uuid_char c = true -> negb (Ascii.eqb c x) = true.
Proof.
  intros Hx Hc. destruct (Ascii.eqb c x) eqn:E; [|reflexivity].
  apply Ascii.eqb_eq in E. congruence.
Qed.

Lemma uuid_without (x : ascii) (u : string) :
  uuid_char x = false -> all_chars uuid_char u = true -> without x u = true.
Proof.
  intros Hx. apply all_chars_weaken. intros c. now apply uuid_char_not.
Qed.

Lemma prefix_cons (c a : ascii) (s t : string) :
  String.prefix (String c s) (String a t)
  = if Ascii.eqb c a then String.prefix s t else false.
Proof.
  cbn [String.prefix]. destruct (ascii_dec c a) as [<-|Hne].
  - now rewrite Ascii.eqb_refl.
  - replace (Ascii.eqb c a) with false; [reflexivity|].
    symmetry. now apply Ascii.eqb_neq.
Qed.

Lemma without_cons (x c : ascii) (s : string) :
  without x (String c s) = negb (Ascii.eqb c x) && without x s.
Proof. reflexivity. Qed.

Lemma includes_cons_eq (c : ascii) (s search : string) :
  Js.includes (String c s) search
  = String.prefix search (String c s) || Js.includes s search.
Proof. reflexivity. Qed.

Lemma includes_char (c : ascii) (s : string) :
  Js.includes s (String c "") = negb (without c s).
Proof.
  induction s as [|a rest IH]; [reflexivity|].
  rewrite includes_cons_eq, prefix_cons, without_cons, IH, prefix_nil.
  rewrite (Ascii.eqb_sym c a). now destruct (Ascii.eqb a c).
Qed.

Lemma without_no_char (c : ascii) (s : string) :
  without c s = true -> Js.includes s (String c "") = false.
Proof. intros H. now rewrite includes_char, H. Qed.

Lemma without_no_dots (s : string) :
  without "." s = true -> Js.includes s ".." = false.
Proof.
  induction s as [|a rest IH]; [reflexivity|].
  rewrite without_cons. intros H. apply andb_true_iff in H as [Ha Hr].
  rewrite includes_cons_eq, prefix_cons, (IH Hr), (Ascii.eqb_sym "." a).
  now destruct (Ascii.eqb a ".").
Qed.

Lemma stored_no_dots (u e : string) :
  without "." u = true -> ext_shape e -> Js.includes (u ++ e) ".." = false.
Proof.
  intros Hu He. induction u as [|a rest IH].
  - destruct He as [->|(rest & -> & Hd & _)]; [reflexivity|].
    cbn [append]. rewrite includes_cons_eq, prefix_cons.
    rewrite (without_no_dots rest Hd), orb_false_r. cbn [Ascii.eqb].
    destruct rest as [|a r]; [reflexivity|].
    rewrite without_cons in Hd. apply andb_true_iff in Hd as [Ha _].
    rewrite prefix_cons, (Ascii.eqb_sym "." a).
    now destruct (Ascii.eqb a ".").
  - rewrite without_cons in Hu. apply andb_true_iff in Hu as [Ha Hr].
    cbn [append]. rewrite includes_cons_eq, prefix_cons, (IH Hr).
    rewrite (Ascii.eqb_sym "." a). now destruct (Ascii.eqb a ".").
Qed.

Lemma ext_no_slash (e : string) : ext_shape e -> without "/" e = true.
Proof.
  intros [->|(rest & -> & _ & Hs)]; [reflexivity|].
  unfold without in *. cbn [all_chars]. now rewrite Hs.
Qed.

(** Segments hold no "/". *)
Lemma segments_without (p : string) :
  Forall (fun seg => without "/" seg = true) (Path.segments p).
Proof.
  induction p as [|c rest IH]; simpl; [repeat constructor|].
  destruct (Ascii.eqb c "/") eqn:E; [constructor; [reflexivity|exact IH]|].
  destruct (Path.segments rest) as [|seg more]; [repeat constructor|].
  - unfold without. simpl. now rewrite E.
  - inversion IH; subst. constructor; [|assumption].
    unfold without in *. simpl. now rewrite E.
Qed.

Lemma last_nonempty_without (segs : list string) (acc : string) :
  Forall (fun seg => without "/" seg = true) segs ->
  without "/" acc = true ->
  without "/" (Path.last_nonempty segs acc) = true.
Proof.
  revert acc. induction segs as [|seg rest IH]; intros acc Hall Hacc;
    [exact Hacc|].
  inversion Hall; subst. simpl. apply IH; [assumption|].
  now destruct (Js.falsy seg).
Qed.

Lemma from_last_dot_shape (s e : string) :
  without "/" s = true ->
  Path.from_last_dot s = Some e ->
  exists rest, e = String "." rest
               /\ without "." rest = true /\ without "/" rest = true.
Proof.
  induction s as [|c rest IH]; simpl; [discriminate|].
  intros Hs. apply andb_true_iff in Hs as [Hc Hr].
  destruct (Path.from_last_dot rest) as [e'|] eqn:F.
  - intros H. inversion H; subst. now apply IH.
  - destruct (Ascii.eqb c ".") eqn:E; [|discriminate].
    intros H. inversion H; subst. apply Ascii.eqb_eq in E. subst c.
    exists rest. split; [reflexivity|]. split; [|exact Hr].
    clear IH Hc Hr. induction rest as [|a r IHr]; [reflexivity|].
    simpl in F. destruct (Path.from_last_dot r) eqn:Fr; [discriminate|].
    destruct (Ascii.eqb a ".") eqn:Ea; [discriminate|].
    unfold without. simpl. rewrite Ea. now apply IHr.
Qed.

(** [path.extname] returns nothing or a single "." with no "/" after
    it. *)
Lemma extname_shape (p : string) : ext_shape (Path.extname p).
Proof.
  unfold Path.extname. cbv zeta.
  pose proof (last_nonempty_without (Path.segments p) ""
                (segments_without p) eq_refl) as Hb.
  destruct (Path.last_nonempty (Path.segments p) "") as [|c rest];
    [now left|].
  destruct (String.eqb (String c rest) ".."); [now left|].
  destruct (Path.from_last_dot rest) as [e|] eqn:F; [|now left].
  right. apply (from_last_dot_shape rest e); [|exact F].
  simpl in Hb. apply andb_true_iff in Hb. tauto.
Qed.

Lemma from_last_dot_none (s : string) :
  without "." s = true -> Path.from_last_dot s = None.
Proof.
  induction s as [|c rest IH]; simpl; [reflexivity|].
  intros H. apply andb_true_iff in H as [Hc Hr]. rewrite (IH Hr).
  destruct (Ascii.eqb c "."); [discriminate|reflexivity].
Qed.

Lemma from_last_dot_app (u e : string) :
  without "." u = true -> e <> "" -> ext_shape e ->
  Path.from_last_dot (u ++ e) = Some e.
Proof.
  intros Hu Hne [->|(rest & -> & Hd & _)]; [congruence|].
  assert (He : Path.from_last_dot (String "." rest) = Some (String "." rest)).
  { simpl. now rewrite (from_last_dot_none rest Hd). }
  induction u as [|c u' IH]; [exact He|].
  simpl in Hu. apply andb_true_iff in Hu as [Hc Hr].
  cbn [append Path.from_last_dot]. now rewrite (IH Hr).
Qed.

(** The extension of a generated name is the extension it was given. *)
Lemma extname_generated (u e : string) :
  uuid_shape u -> ext_shape e -> Path.extname (u ++ e) = e.
Proof.
  intros (Hne & Hu) He.
  assert (Hud : without "." u = true) by (now apply uuid_without).
  assert (Hus : without "/" u = true) by (now apply uuid_without).
  assert (Hs : Js.includes (u ++ e) "/" = false).
  { apply without_no_char. unfold without. rewrite all_chars_app.
    fold (without "/" u). fold (without "/" e).
    now rewrite Hus, (ext_no_slash e He). }
  unfold Path.extname. cbv zeta. rewrite (segments_no_slash _ Hs).
  destruct u as [|c u']; [congruence|].
  cbn [Path.last_nonempty append Js.falsy].
  simpl in Hud. apply andb_true_iff in Hud as [Hc Hr].
  replace (String.eqb (String c (u' ++ e)) "..") with false.
  - destruct (string_dec e "") as [->|Hen].
    + rewrite append_empty. now rewrite from_last_dot_none.
    + now rewrite (from_last_dot_app u' e Hr Hen He).
  - symmetry. apply String.eqb_neq. intros H. inversion H; subst.
    discriminate.
Qed.

Lemma stored_no_slash (u e : string) :
  uuid_shape u -> ext_shape e -> Js.includes (u ++ e) "/" = false.
Proof.
  intros (_ & Hu) He. apply without_no_char. unfold without.
  rewrite all_chars_app. fold (without "/" u). fold (without "/" e).
  now rewrite (uuid_without "/" u eq_refl Hu), (ext_no_slash e He).
Qed.

Lemma stored_plain (u e : string) : uuid_shape u -> plain (u ++ e).
Proof.
  intros (Hne & Hu). destruct u as [|c u']; [congruence|].
  cbn [all_chars] in Hu. apply andb_true_iff in Hu as [Hc _].
  repeat split; intros H; inversion H; subst; discriminate.
Qed.

Lemma lower_backslash (c : ascii) :
  Ascii.eqb (Js.lower c) (ascii_of_nat 92) = Ascii.eqb c (ascii_of_nat 92).
Proof. destruct c as [[] [] [] [] [] [] [] []]; reflexivity. Qed.

Lemma toLowerCase_backslash (s : string) :
  without (ascii_of_nat 92) (Js.toLowerCase s) = without (ascii_of_nat 92) s.
Proof.
  induction s as [|c rest IH]; [reflexivity|].
  cbn [Js.toLowerCase]. rewrite !without_cons, IH. now rewrite lower_backslash.
Qed.

Lemma image_ext_no_backslash (e : string) :
  existsb (String.eqb (Js.toLowerCase e)) ImagesRouter.IMAGE_EXTENSIONS = true ->
  Js.includes e ImageRoute.backslash = false.
Proof.
  intros H. apply without_no_char. rewrite <- toLowerCase_backslash.
  apply existsb_exists in H. destruct H as (x & Hx & E).
  apply String.eqb_eq in E. rewrite E.
  cbn in Hx. repeat (destruct Hx as [<-|Hx]; [reflexivity|]). contradiction.
Qed.

Lemma includes_app_char (c : ascii) (a b : string) :
  Js.includes a (String c "") = false ->
  Js.includes b (String c "") = false ->
  Js.includes (a ++ b) (String c "") = false.
Proof.
  rewrite !includes_char, !negb_false_iff. intros Ha Hb.
  unfold without in *. now rewrite all_chars_app, Ha, Hb.
Qed.

(** The places on the way to a file of the image directory. *)
Lemma ancestors_image (f : string) :
  plain f -> Js.includes f "/" = false ->
  Fs.ancestors ("/data/images/" ++ f)
  = ["/data"; "/data/images"; "/data/images/" ++ f].
Proof.
  intros (Hne & _) Hs. unfold Fs.ancestors.
  change ("/data/images/" ++ f) with ("/data/images" ++ "/" ++ f).
  rewrite segments_app_slash, (segments_no_slash f Hs).
  cbn [Path.segments append app Ascii.eqb Bool.eqb Fs.below Js.falsy].
  destruct f as [|c rest]; [congruence|reflexivity].
Qed.

Lemma lookup_app (q : string) (a b : list (string * Fs.File)) :
  Fs.lookup q (a ++ b)
  = match Fs.lookup q a with Some f => Some f | None => Fs.lookup q b end.
Proof.
  induction a as [|[r f] rest IH]; cbn [app Fs.lookup]; [reflexivity|].
  now destruct (String.eqb r q).
Qed.

(** [mkdir] leaves the entries that are there and puts a directory at
    each place on the way that had none. *)
Lemma lookup_make_directories (q : string) (dirs : list string)
  (now : Timestamp) (fs : list (string * Fs.File)) :
  Fs.lookup q (Fs.make_directories dirs now fs)
  = match Fs.lookup q fs with
    | Some f => Some f
    | None =>
        if existsb (String.eqb q) dirs then Some (Fs.mkDir Fs.DIR_SIZE now)
        else None
    end.
Proof.
  revert fs. induction dirs as [|d rest IH]; intros fs;
    cbn [Fs.make_directories existsb].
  - now destruct (Fs.lookup q fs).
  - rewrite IH. destruct (Fs.lookup d fs) eqn:Hd.
    + destruct (Fs.lookup q fs) eqn:Hq; [reflexivity|].
      destruct (String.eqb q d) eqn:E; [|reflexivity].
      apply String.eqb_eq in E. congruence.
    + rewrite lookup_app. cbn [Fs.lookup].
      destruct (Fs.lookup q fs) eqn:Hq; [reflexivity|].
      rewrite (String.eqb_sym d q).
      destruct (String.eqb q d); [|reflexivity].
      now destruct (existsb (String.eqb q) rest).
Qed.

Lemma image_path_deeper (f : string) :
  plain f ->
  existsb (String.eqb ("/data/images/" ++ f)) image_directories = false.
Proof.
  intros (Hne & _). destruct f as [|c rest]; [congruence|reflexivity].
Qed.

Section UploadFacts.
Variable base64 : string -> string.

(** What [upload] does in production, case by case. *)
Lemma upload_production (uuid filename data mimeType : string)
  (now : Timestamp) (w : Fs.World) :
  Fs.NODE_ENV w = "production" ->
  uuid_shape uuid ->
  ImagesRouter.upload base64 uuid filename data mimeType now w
  = let name := uuid ++ Path.extname filename in
    let p := "/data/images/" ++ name in
    let bytes := base64 (ImagesRouter.strip_data_url data) in
    let made := Fs.make_directories image_directories now (Fs.files w) in
    let failed := Err (Thrown "Failed to upload image") in
    if Fs.is_file "/data" (Fs.files w)
       || Fs.is_file "/data/images" (Fs.files w) then
      (Fs.record (Fs.Mkdir "/data/images") w, failed)
    else if negb (existsb (String.eqb mimeType) ImagesRouter.validMimeTypes)
    then
      (Fs.mkWorld (Fs.NODE_ENV w) (Fs.cwd w) made
         (Fs.calls w ++ [Fs.Mkdir "/data/images"])%list, failed)
    else if Fs.valid_path p && negb (Fs.is_directory p (Fs.files w)) then
      (Fs.mkWorld (Fs.NODE_ENV w) (Fs.cwd w)
         ((p, Fs.mkFile bytes now) :: Fs.remove p made)
         (Fs.calls w
          ++ [Fs.Mkdir "/data/images"; Fs.WriteFile p; Fs.Stat p])%list,
       Ok (ImagesRouter.mkUploaded name filename
             (Z.of_nat (String.length bytes)) now
             ("/api/images/" ++ Js.encodeURIComponent name)))
    else
      (Fs.mkWorld (Fs.NODE_ENV w) (Fs.cwd w) made
         (Fs.calls w ++ [Fs.Mkdir "/data/images"; Fs.WriteFile p])%list,
       failed).
Proof.
  intros Henv Hu.
  pose proof (extname_shape filename) as He.
  pose proof (stored_plain uuid (Path.extname filename) Hu) as Hp.
  pose proof (stored_no_slash uuid _ Hu He) as Hs.
  pose proof Hp as (Hne & _).
  unfold ImagesRouter.upload, ImagesRouter.upload_body. cbv zeta.
  rewrite (proj2 (production_dir w Henv)).
  unfold Fs.mkdir. rewrite resolve_root.
  change (Fs.valid_path "/data/images") with true.
  change (Fs.ancestors "/data/images") with image_directories.
  cbn [andb existsb image_directories]. rewrite orb_false_r.
  destruct (Fs.is_file "/data" (Fs.files w)
            || Fs.is_file "/data/images" (Fs.files w)) eqn:Hway;
    cbn [negb]; [reflexivity|].
  apply orb_false_iff in Hway as [Hway1 Hway2].
  destruct (existsb (String.eqb mimeType) ImagesRouter.validMimeTypes);
    cbn [negb]; [|reflexivity].
  unfold ImagesRouter.generateUUIDFilename.
  rewrite (join_image _ Hp Hs).
  unfold Fs.writeFile. cbn [Fs.cwd Fs.files Fs.calls Fs.NODE_ENV].
  rewrite (resolve_image (Fs.cwd w) _ Hp Hs), (ancestors_image _ Hp Hs).
  rewrite (endsWithSlash_app "/data/images/" _ Hne),
    (endsWithSlash_no_slash _ Hs).
  unfold Fs.parent. rewrite (ancestors_image _ Hp Hs).
  cbn [removelast map last negb andb].
  assert (Hdir : Fs.is_directory "/data/images"
                   (Fs.make_directories image_directories now
                      (Fs.files w)) = true).
  { unfold Fs.is_directory, Fs.is_file in *.
    rewrite lookup_make_directories.
    destruct (Fs.lookup "/data/images" (Fs.files w)) as [[b m|sz m]|];
      [discriminate|reflexivity|reflexivity]. }
  rewrite Hdir.
  assert (Hsame : Fs.is_directory ("/data/images/" ++ uuid ++ Path.extname filename)
                    (Fs.make_directories image_directories now
                       (Fs.files w))
                  = Fs.is_directory
                      ("/data/images/" ++ uuid ++ Path.extname filename)
                      (Fs.files w)).
  { unfold Fs.is_directory. rewrite lookup_make_directories.
    rewrite (image_path_deeper _ Hp).
    now destruct (Fs.lookup _ (Fs.files w)). }
  rewrite Hsame, andb_true_r.
  destruct (Fs.valid_path ("/data/images/" ++ uuid ++ Path.extname filename))
    eqn:Hv; cbn [andb].
  2:{ unfold Fs.record. cbn [Fs.cwd Fs.files Fs.calls Fs.NODE_ENV].
      now rewrite <- app_assoc. }
  destruct (Fs.is_directory ("/data/images/" ++ uuid ++ Path.extname filename)
              (Fs.files w)); cbn [negb].
  { unfold Fs.record. cbn [Fs.cwd Fs.files Fs.calls Fs.NODE_ENV].
    now rewrite <- app_assoc. }
  unfold Fs.stat, Fs.find. cbn [Fs.cwd Fs.files Fs.calls Fs.NODE_ENV].
  rewrite Hv, (resolve_image (Fs.cwd w) _ Hp Hs).
  cbn [Fs.lookup]. rewrite String.eqb_refl.
  rewrite (endsWithSlash_app "/data/images/" _ Hne),
    (endsWithSlash_no_slash _ Hs).
  unfold Fs.record.
  cbn [Fs.size Fs.mtime Fs.cwd Fs.files Fs.calls Fs.NODE_ENV].
  unfold ImagesRouter.serving_url. rewrite <- !app_assoc. reflexivity.
Qed.
End UploadFacts.


Lemma find_written (f : string) (env cwd : string) (file : Fs.File)
  (fs : list (string * Fs.File)) (calls : list Fs.Call) :
  plain f -> Js.includes f "/" = false ->
  Fs.valid_path ("/data/images/" ++ f) = true ->
  Fs.find ("/data/images/" ++ f)
    (Fs.mkWorld env cwd (("/data/images/" ++ f, file) :: fs) calls)
  = Some file.
Proof.
  intros Hp Hs Hv. pose proof Hp as (Hne & _).
  unfold Fs.find. cbn [Fs.cwd Fs.files].
  rewrite Hv, (resolve_image cwd f Hp Hs). cbn [Fs.lookup].
  rewrite String.eqb_refl, (endsWithSlash_app "/data/images/" _ Hne),
    (endsWithSlash_no_slash _ Hs).
  now destruct file.
Qed.

Section UploadCases.
Variable base64 : string -> string.

(** [upload] in production succeeds exactly when the name is storable
    and the MIME type allowed. *)
Lemma upload_accepted (uuid filename data mimeType : string)
  (now : Timestamp) (w : Fs.World) :
  Fs.NODE_ENV w = "production" ->
  uuid_shape uuid ->
  storable (uuid ++ Path.extname filename) w = true ->
  existsb (String.eqb mimeType) ImagesRouter.validMimeTypes = true ->
  ImagesRouter.upload base64 uuid filename data mimeType now w
  = let name := uuid ++ Path.extname filename in
    let p := "/data/images/" ++ name in
    let bytes := base64 (ImagesRouter.strip_data_url data) in
    (Fs.mkWorld (Fs.NODE_ENV w) (Fs.cwd w)
       ((p, Fs.mkFile bytes now)
        :: Fs.remove p
             (Fs.make_directories image_directories now (Fs.files w)))
       (Fs.calls w
        ++ [Fs.Mkdir "/data/images"; Fs.WriteFile p; Fs.Stat p])%list,
     Ok (ImagesRouter.mkUploaded name filename
           (Z.of_nat (String.length bytes)) now
           ("/api/images/" ++ Js.encodeURIComponent name))).
Proof.
  intros Henv Hu Hst Hm.
  rewrite (upload_production base64 uuid filename data mimeType now w
             Henv Hu). cbv zeta.
  unfold storable in Hst. rewrite !andb_true_iff, !negb_true_iff in Hst.
  destruct Hst as (((H1 & H2) & Hv) & Hd).
  now rewrite H1, H2, Hm, Hv, Hd.
Qed.

End UploadCases.



(** X19. Upload then serve.  In production, an upload that succeeds
    (an allowed MIME type and a storable name) and whose original name
    has an image extension is served back by the route under the name
    [upload] returned: status 200, the decoded bytes as stored, their
    length, and the time of the upload, written to the second, as
    Last-Modified. *)
Theorem upload_then_serve :
  forall base64 uuid filename data mimeType now w,
    Fs.NODE_ENV w = "production" ->
    uuid_shape uuid ->
    storable (uuid ++ Path.extname filename) w = true ->
    existsb (String.eqb mimeType) ImagesRouter.validMimeTypes = true ->
    ImagesRouter.isImageFile filename = true ->
    let name := uuid ++ Path.extname filename in
    let w' :=
      fst (ImagesRouter.upload base64 uuid filename data mimeType now w) in
    let response := snd (ImageRoute.GET name w') in
    ImageRoute.status response = 200
    /\ ImageRoute.body response
       = base64 (ImagesRouter.strip_data_url data)
    /\ ImageRoute.contentLength response
       = Some (Z.of_nat (String.length
                           (base64 (ImagesRouter.strip_data_url data))))
    /\ ImageRoute.lastModified response = Some (Js.toUTCString now).
Proof.
  intros base64 uuid filename data mimeType now w Henv Hu Hst Hm Himg
    name w' response.
  pose proof (extname_shape filename) as He.
  pose proof (stored_plain uuid (Path.extname filename) Hu) as Hp.
  assert (Hext : Path.extname name = Path.extname filename)
    by (now apply extname_generated).
  assert (Himg' : ImageRoute.isImageFile name = true).
  { rewrite isImageFile_agree. unfold ImagesRouter.isImageFile in *.
    cbv zeta in *. now rewrite Hext. }
  assert (Hb : Js.includes name ImageRoute.backslash = false).
  { apply includes_app_char.
    - apply without_no_char. destruct Hu as (_ & Hu).
      now apply uuid_without.
    - now apply image_ext_no_backslash. }
  assert (Hdd : Js.includes name ".." = false).
  { apply stored_no_dots; [|exact He]. destruct Hu as (_ & Hu).
    now apply uuid_without. }
  pose proof (stored_no_slash uuid _ Hu He) as Hs.
  assert (Hv : Fs.valid_path ("/data/images/" ++ name) = true).
  { unfold storable in Hst. rewrite !andb_true_iff in Hst. tauto. }
  pose proof (upload_accepted base64 uuid filename data mimeType now w
                Henv Hu Hst Hm) as Hup. cbv zeta in Hup.
  assert (Henv' : Fs.NODE_ENV w' = "production")
    by (subst w'; now rewrite Hup).
  assert (Hfile : Fs.find ("/data/images/" ++ name) w'
                  = Some (Fs.mkFile
                            (base64 (ImagesRouter.strip_data_url data)) now)).
  { subst w'. rewrite Hup. cbn [fst]. now apply find_written. }
  subst response.
  rewrite (GET_plain name w' Henv' Hdd Hs Hb Himg'). cbv zeta.
  rewrite Hfile. repeat split.
Qed.

Lemma upload_then_serve_witness :
  ImageRoute.body
    (snd (ImageRoute.GET "3f2a-9c.PNG"
            (fst (ImagesRouter.upload (fun s => s) "3f2a-9c" "logo.PNG"
                    "QQ==" "image/png" 1700000000123 (production disk)))))
  = "QQ=="
  /\ ImageRoute.lastModified
       (snd (ImageRoute.GET "3f2a-9c.PNG"
               (fst (ImagesRouter.upload (fun s => s) "3f2a-9c" "logo.PNG"
                       "QQ==" "image/png" 1700000000123 (production disk)))))
     = Some "Tue, 14 Nov 2023 22:13:20 GMT".
Proof.
  assert (Henv : Fs.NODE_ENV (production disk) = "production")
    by reflexivity.
  assert (Hu : uuid_shape "3f2a-9c")
    by (split; [discriminate|vm_compute; reflexivity]).
  assert (Hst : storable ("3f2a-9c" ++ Path.extname "logo.PNG")
                  (production disk) = true)
    by (vm_compute; reflexivity).
  assert (Hm : existsb (String.eqb "image/png") ImagesRouter.validMimeTypes
               = true) by reflexivity.
  assert (Hi : ImagesRouter.isImageFile "logo.PNG" = true)
    by (vm_compute; reflexivity).
  destruct (upload_then_serve (fun s => s) "3f2a-9c" "logo.PNG" "QQ=="
              "image/png" 1700000000123 (production disk) Henv Hu Hst Hm Hi)
    as (_ & Hb & _ & Hlm).
  assert (Hn : "3f2a-9c" ++ Path.extname "logo.PNG" = "3f2a-9c.PNG")
    by (vm_compute; reflexivity).
  rewrite Hn in Hb, Hlm.
  split; [exact Hb|]. rewrite Hlm. vm_compute. reflexivity.
Defined.



(** ** The data-URL prefix *)

Lemma drop_app (a b : string) : ImagesRouter.drop (String.length a) (a ++ b) = b.
Proof. induction a as [|c rest IH]; [reflexivity|exact IH]. Qed.

Lemma prefix_app (a b : string) : String.prefix a (a ++ b) = true.
Proof.
  induction a as [|c rest IH]; [apply prefix_nil|].
  cbn [append]. rewrite prefix_cons, Ascii.eqb_refl. exact IH.
Qed.

Lemma after_word_run (sub rest : string) :
  all_chars Js.word_char sub = true ->
  ImagesRouter.after_word (sub ++ String ";" rest)
  = String ";" rest.
Proof.
  induction sub as [|c s IH]; [reflexivity|].
  cbn [all_chars append ImagesRouter.after_word]. intros H.
  apply andb_true_iff in H as [Hc Hs]. rewrite Hc. now apply IH.
Qed.

(** X21. The data-URL prefix is removed from a payload exactly when it
    reads "data:image/<subtype>;base64," with a subtype made of letters,
    digits and "_": such a prefix is cut off and the rest handed to the
    decoder, and a payload that does not begin with "data:image/" is
    handed over as it is.  The prefix of an SVG data URL,
    "data:image/svg+xml;base64,", is not removed, although
    "image/svg+xml" is an allowed MIME type. *)
Theorem data_url_prefix :
  (forall subtype payload,
      subtype <> "" ->
      all_chars Js.word_char subtype = true ->
      ImagesRouter.strip_data_url
        ("data:image/" ++ subtype ++ ";base64," ++ payload)
      = payload)
  /\ (forall data,
         String.prefix "data:image/" data = false ->
         ImagesRouter.strip_data_url data = data)
  /\ (forall payload,
         ImagesRouter.strip_data_url ("data:image/svg+xml;base64," ++ payload)
         = "data:image/svg+xml;base64," ++ payload)
  /\ existsb (String.eqb "image/svg+xml") ImagesRouter.validMimeTypes = true.
Proof.
  split; [|split; [|split]].
  - intros subtype payload Hne Hw. unfold ImagesRouter.strip_data_url.
    rewrite prefix_app.
    pose proof (drop_app "data:image/" (subtype ++ ";base64," ++ payload))
      as Hd.
    cbn [String.length] in Hd. rewrite Hd. clear Hd.
    destruct subtype as [|c sub]; [congruence|].
    cbn [all_chars] in Hw. apply andb_true_iff in Hw as [Hc Hs].
    change (String c sub ++ ";base64," ++ payload)
      with (String c (sub ++ String ";" ("base64," ++ payload))).
    cbv beta iota. rewrite Hc.
    rewrite (after_word_run sub ("base64," ++ payload) Hs).
    change (String ";" ("base64," ++ payload)) with (";base64," ++ payload).
    rewrite prefix_app. cbn [andb].
    pose proof (drop_app ";base64," payload) as Hd.
    cbn [String.length] in Hd. exact Hd.
  - intros data H. unfold ImagesRouter.strip_data_url. now rewrite H.
  - intros payload. reflexivity.
  - reflexivity.
Qed.

Lemma data_url_prefix_witness :
  ImagesRouter.strip_data_url "data:image/png;base64,iVBORw0KGgo="
  = "iVBORw0KGgo="
  /\ ImagesRouter.strip_data_url "iVBORw0KGgo=" = "iVBORw0KGgo=".
Proof.
  destruct data_url_prefix as (Hcut & Hkeep & _).
  split.
  - apply (Hcut "png" "iVBORw0KGgo="); [discriminate|reflexivity].
  - apply (Hkeep "iVBORw0KGgo="). reflexivity.
Defined.

(** ** Listing images *)






(** ** Paging *)

Section SliceFacts.
Context {A : Type}.

Lemma firstn_enough (n : nat) (l : list A) :
  firstn (Nat.min n (length l)) l = firstn n l.
Proof.
  destruct (Nat.le_ge_cases n (length l)) as [H|H].
  - now rewrite Nat.min_l.
  - rewrite Nat.min_r by exact H. now rewrite !firstn_all2.
Qed.

(** [slice] between two indices within reach of each other, the first
    not negative, is a chunk of the list. *)
Lemma slice_chunk (s n : nat) (l : list A) :
  Js.slice (Z.of_nat s) (Z.of_nat s + Z.of_nat n) l = firstn n (skipn s l).
Proof.
  unfold Js.slice, Js.clamp_index. cbv zeta.
  replace (Z.of_nat s <? 0) with false by (symmetry; apply Z.ltb_ge; lia).
  replace (Z.of_nat s + Z.of_nat n <? 0) with false
    by (symmetry; apply Z.ltb_ge; lia).
  destruct (Nat.le_ge_cases (length l) s) as [H|H].
  - rewrite (skipn_all2 l H), firstn_nil.
    replace (Z.min (Z.of_nat s) (Z.of_nat (length l)))
      with (Z.of_nat (length l)) by lia.
    replace (Z.min (Z.of_nat s + Z.of_nat n) (Z.of_nat (length l)))
      with (Z.of_nat (length l)) by lia.
    now rewrite Z.sub_diag.
  - replace (Z.min (Z.of_nat s) (Z.of_nat (length l)))
      with (Z.of_nat s) by lia.
    rewrite Nat2Z.id.
    rewrite <- (firstn_enough n (skipn s l)), length_skipn. f_equal. lia.
Qed.

Lemma firstn_add_chunk (a b : nat) (l : list A) :
  (firstn a l ++ firstn b (skipn a l))%list = firstn (a + b) l.
Proof.
  revert l. induction a as [|a IH]; intros l; [reflexivity|].
  destruct l as [|x l]; simpl.
  - now rewrite firstn_nil.
  - now rewrite IH.
Qed.

Lemma chunks_cover (L n : nat) (l : list A) :
  flat_map (fun k => firstn L (skipn (k * L) l)) (seq 0 n) = firstn (n * L) l.
Proof.
  induction n as [|n IH]; [reflexivity|].
  rewrite seq_S, flat_map_app, IH. cbn [flat_map Nat.add].
  rewrite app_nil_r, firstn_add_chunk. f_equal. lia.
Qed.
End SliceFacts.

Lemma ceil_div_bounds (a b : Z) :
  0 <= a -> 0 < b ->
  0 <= Js.ceil_div a b
  /\ a <= Js.ceil_div a b * b
  /\ (Js.ceil_div a b - 1) * b < a + Z.b2z (a =? 0) * b.
Proof.
  intros Ha Hb. unfold Js.ceil_div.
  pose proof (Z.div_mod (- a) b ltac:(lia)) as Hdm.
  pose proof (Z.mod_pos_bound (- a) b Hb) as Hm.
  destruct (a =? 0) eqn:E; cbn [Z.b2z]; nia.
Qed.

Lemma getPaginated_valid (page limit : Z)
  (entries : list (string * Dir.Stats)) :
  1 <= page -> 1 <= limit <= 100 ->
  ImagesRouter.getPaginated (Some page) (Some limit) (Dir.Present entries)
  = let sorted := ImagesRouter.newest_first (ImagesRouter.collect entries) in
    (Dir.Present entries,
     Ok (ImagesRouter.mkPage
           (Js.slice ((page - 1) * limit) ((page - 1) * limit + limit) sorted)
           (Z.of_nat (length sorted)) page limit
           (Js.ceil_div (Z.of_nat (length sorted)) limit))).
Proof.
  intros Hp Hl. unfold ImagesRouter.getPaginated.
  replace (1 <=? page) with true by (symmetry; apply Z.leb_le; lia).
  replace (1 <=? limit) with true by (symmetry; apply Z.leb_le; lia).
  replace (limit <=? 100) with true by (symmetry; apply Z.leb_le; lia).
  reflexivity.
Qed.

Lemma page_chunk (k : nat) (limit : Z) (entries : list (string * Dir.Stats)) :
  1 <= limit <= 100 ->
  page_images (snd (ImagesRouter.getPaginated (Some (Z.of_nat k + 1))
                      (Some limit) (Dir.Present entries)))
  = firstn (Z.to_nat limit)
      (skipn (k * Z.to_nat limit)
         (ImagesRouter.newest_first (ImagesRouter.collect entries))).
Proof.
  intros Hl. rewrite getPaginated_valid by lia. cbv zeta.
  cbn [snd page_images ImagesRouter.images].
  rewrite <- slice_chunk. f_equal; lia.
Qed.

Lemma firstn_incl {A} (n : nat) (l : list A) (x : A) :
  In x (firstn n l) -> In x l.
Proof.
  revert l. induction n as [|n IH]; intros [|a l]; cbn; try tauto.
  intros [->|H]; [now left|right; now apply IH].
Qed.

Lemma skipn_incl {A} (n : nat) (l : list A) (x : A) :
  In x (skipn n l) -> In x l.
Proof.
  revert l. induction n as [|n IH]; intros [|a l]; cbn; try tauto.
  intros H. right. now apply IH.
Qed.

(** X23. Paging loses and repeats nothing.  For a limit from 1 to 100,
    the pages 1 to [totalPages] of a directory, one after the other, are
    exactly the listing of [getAll], in its order; every page holds at
    most [limit] images; [total] is the number of images listed and
    [totalPages] is the least number of pages of [limit] images that
    holds them all. *)
Theorem pages_cover_listing :
  forall limit entries,
    1 <= limit <= 100 ->
    let listing := ImagesRouter.newest_first (ImagesRouter.collect entries) in
    let pages := Js.ceil_div (Z.of_nat (length listing)) limit in
    snd (ImagesRouter.getAll (Dir.Present entries)) = Ok listing
    /\ pages_up_to (Z.to_nat pages) limit (Dir.Present entries) = listing
    /\ Z.of_nat (length listing) <= pages * limit
    /\ (listing <> [] -> (pages - 1) * limit < Z.of_nat (length listing))
    /\ (listing = [] -> pages = 0)
    /\ (forall page,
           1 <= page ->
           exists pg,
             ImagesRouter.getPaginated (Some page) (Some limit)
               (Dir.Present entries) = (Dir.Present entries, Ok pg)
             /\ Z.of_nat (length (ImagesRouter.images pg)) <= limit
             /\ ImagesRouter.total pg = Z.of_nat (length listing)
             /\ ImagesRouter.totalPages pg = pages
             /\ ImagesRouter.page pg = page
             /\ ImagesRouter.limit pg = limit
             /\ (pages < page -> ImagesRouter.images pg = [])
             /\ (forall i, In i (ImagesRouter.images pg) -> In i listing)).
Proof.
  intros limit entries Hl listing pages.
  pose proof (ceil_div_bounds (Z.of_nat (length listing)) limit
                ltac:(lia) ltac:(lia)) as (Hp0 & Hp1 & Hp2).
  fold pages in Hp0, Hp1, Hp2.
  split; [reflexivity|]. split; [|split; [exact Hp1|split; [|split]]].
  - unfold pages_up_to.
    rewrite (flat_map_ext _
               (fun k => firstn (Z.to_nat limit)
                           (skipn (k * Z.to_nat limit) listing))).
    + rewrite chunks_cover. apply firstn_all2. lia.
    + intros k. now apply page_chunk.
  - intros Hne.
    replace (Z.of_nat (length listing) =? 0) with false in Hp2.
    + cbn [Z.b2z] in Hp2. lia.
    + symmetry. apply Z.eqb_neq. destruct listing; [congruence|].
      cbn [length]. lia.
  - intros Hnil. unfold pages. rewrite Hnil. cbn [length Z.of_nat].
    unfold Js.ceil_div. cbn [Z.opp]. now rewrite Z.div_0_l by lia.
  - intros page Hpage. eexists.
    split; [now apply getPaginated_valid|]. cbv zeta.
    cbn [ImagesRouter.images ImagesRouter.total ImagesRouter.totalPages
         ImagesRouter.page ImagesRouter.limit].
    fold listing. fold pages.
    replace ((page - 1) * limit)
      with (Z.of_nat (Z.to_nat ((page - 1) * limit))) by nia.
    replace (Z.of_nat (Z.to_nat ((page - 1) * limit)) + limit)
      with (Z.of_nat (Z.to_nat ((page - 1) * limit))
            + Z.of_nat (Z.to_nat limit)) by lia.
    rewrite slice_chunk.
    split.
    { pose proof (firstn_le_length (Z.to_nat limit)
                    (skipn (Z.to_nat ((page - 1) * limit)) listing)). lia. }
    repeat (split; [reflexivity|]).
    split.
    + intros Hbeyond. rewrite skipn_all2; [apply firstn_nil|]. nia.
    + intros i Hi. apply firstn_incl in Hi. now apply skipn_incl in Hi.
Qed.

(** ** Image URLs *)

Lemma percent_reserved : Js.unreserved "%" = false.
Proof. reflexivity. Qed.

Lemma hex_digit_unreserved (c : ascii) :
  Js.unreserved (Js.hex_digit (Nat.div (nat_of_ascii c) 16)) = true
  /\ Js.unreserved (Js.hex_digit (Nat.modulo (nat_of_ascii c) 16)) = true.
Proof.
  destruct c as [[] [] [] [] [] [] [] []]; vm_compute; split; reflexivity.
Qed.

Lemma hex_pair_value (c : ascii) :
  ascii_of_nat
    (16 * hex_value (Js.hex_digit (Nat.div (nat_of_ascii c) 16))
     + hex_value (Js.hex_digit (Nat.modulo (nat_of_ascii c) 16)))
  = c.
Proof.
  destruct c as [[] [] [] [] [] [] [] []]; vm_compute; reflexivity.
Qed.

Lemma hex_pair_injective (c d : ascii) :
  Js.hex_digit (Nat.div (nat_of_ascii c) 16)
  = Js.hex_digit (Nat.div (nat_of_ascii d) 16) ->
  Js.hex_digit (Nat.modulo (nat_of_ascii c) 16)
  = Js.hex_digit (Nat.modulo (nat_of_ascii d) 16) ->
  c = d.
Proof.
  intros Hh Hl. rewrite <- (hex_pair_value c), Hh, Hl.
  apply hex_pair_value.
Qed.

Lemma encode_chars (s : string) :
  all_chars component_char (Js.encodeURIComponent s) = true.
Proof.
  induction s as [|c rest IH]; [reflexivity|].
  cbn [Js.encodeURIComponent].
  destruct (Js.unreserved c) eqn:E.
  - cbn [all_chars]. unfold component_char at 1. now rewrite E, IH.
  - destruct (hex_digit_unreserved c) as [Hh Hl].
    cbn [all_chars]. unfold component_char at 1 2 3.
    rewrite Hh, Hl, IH. reflexivity.
Qed.

Lemma component_without (x : ascii) (s : string) :
  component_char x = false ->
  all_chars component_char s = true -> without x s = true.
Proof.
  intros Hx. apply all_chars_weaken. intros c Hc.
  destruct (Ascii.eqb c x) eqn:E; [|reflexivity].
  apply Ascii.eqb_eq in E. congruence.
Qed.

Lemma encode_unreserved (s : string) :
  all_chars Js.unreserved s = true -> Js.encodeURIComponent s = s.
Proof.
  induction s as [|c rest IH]; [reflexivity|].
  cbn [all_chars Js.encodeURIComponent]. intros H.
  apply andb_true_iff in H as [Hc Hr]. now rewrite Hc, IH.
Qed.

Lemma encode_injective (a b : string) :
  Js.encodeURIComponent a = Js.encodeURIComponent b -> a = b.
Proof.
  revert b. induction a as [|c rest IH]; intros [|d more];
    cbn [Js.encodeURIComponent].
  - reflexivity.
  - destruct (Js.unreserved d); discriminate.
  - destruct (Js.unreserved c); discriminate.
  - destruct (Js.unreserved c) eqn:Ec, (Js.unreserved d) eqn:Ed; intros H.
    + injection H as -> H. now rewrite (IH _ H).
    + injection H as -> _. rewrite percent_reserved in Ec. discriminate.
    + injection H as <- _. rewrite percent_reserved in Ed. discriminate.
    + injection H as Hh Hl H.
      rewrite (hex_pair_injective c d Hh Hl). now rewrite (IH _ H).
Qed.

(** X24. The URL the images router gives a file is "/api/images/"
    followed by one path segment: the encoded name holds only letters,
    digits, [- _ . ! ~ * ' ( )] and "%", so no "/", "?" or "#"; two
    different names never get the same URL; and a name of letters,
    digits and [- _ . ! ~ * ' ( )] only is its own segment. *)
Theorem image_url_one_segment :
  forall file,
    all_chars component_char (Js.encodeURIComponent file) = true
    /\ Js.includes (Js.encodeURIComponent file) "/" = false
    /\ Js.includes (Js.encodeURIComponent file) "?" = false
    /\ Js.includes (Js.encodeURIComponent file) "#" = false
    /\ (forall other,
           ImagesRouter.serving_url file = ImagesRouter.serving_url other ->
           file = other)
    /\ (all_chars Js.unreserved file = true ->
        ImagesRouter.serving_url file = "/api/images/" ++ file).
Proof.
  intros file. pose proof (encode_chars file) as H.
  split; [exact H|].
  split; [apply without_no_char, component_without; [reflexivity|exact H]|].
  split; [apply without_no_char, component_without; [reflexivity|exact H]|].
  split; [apply without_no_char, component_without; [reflexivity|exact H]|].
  split.
  - intros other Heq. unfold ImagesRouter.serving_url in Heq.
    apply encode_injective.
    revert Heq. generalize (Js.encodeURIComponent file).
    generalize (Js.encodeURIComponent other). intros x y Heq.
    change ("/api/images/" ++ y) with
      (String "/" (String "a" (String "p" (String "i" (String "/"
        (String "i" (String "m" (String "a" (String "g" (String "e"
          (String "s" (String "/" y)))))))))))) in Heq.
    change ("/api/images/" ++ x) with
      (String "/" (String "a" (String "p" (String "i" (String "/"
        (String "i" (String "m" (String "a" (String "g" (String "e"
          (String "s" (String "/" x)))))))))))) in Heq.
    now injection Heq.
  - intros Hu. unfold ImagesRouter.serving_url.
    now rewrite encode_unreserved.
Qed.

Lemma image_url_one_segment_witness :
  ImagesRouter.serving_url "3f2a-b.png" = "/api/images/3f2a-b.png".
Proof.
  assert (Hu : all_chars Js.unreserved "3f2a-b.png" = true)
    by (vm_compute; reflexivity).
  destruct (image_url_one_segment "3f2a-b.png") as (_ & _ & _ & _ & _ & Hs).
  exact (Hs Hu).
Defined.

Lemma pages_cover_listing_witness :
  pages_up_to 2 2
    (Dir.Present [ ("a.png", Dir.mkStats 10 300);
                   ("notes.txt", Dir.mkStats 5 400);
                   ("b.JPG", Dir.mkStats 7 200);
                   ("c.gif", Dir.mkStats 9 500) ])
  = ImagesRouter.newest_first
      (ImagesRouter.collect [ ("a.png", Dir.mkStats 10 300);
                              ("notes.txt", Dir.mkStats 5 400);
                              ("b.JPG", Dir.mkStats 7 200);
                              ("c.gif", Dir.mkStats 9 500) ]).
Proof.
  assert (Hl : 1 <= 2 <= 100) by lia.
  destruct (pages_cover_listing 2
              [ ("a.png", Dir.mkStats 10 300);
                ("notes.txt", Dir.mkStats 5 400);
                ("b.JPG", Dir.mkStats 7 200);
                ("c.gif", Dir.mkStats 9 500) ] Hl)
    as (_ & Hcover & _).
  exact Hcover.
Defined.
